(** * TTBL / ITTF-WTT scrapers: a shallow embedding of the parsing,
      pagination, retry and bookkeeping code, with the properties the
      specification states about it.

    Layout: the model comes first (one module per Python source file, after
    a module [Py] for the builtins the scripts rely on), then the
    vocabulary of the statements and the sample inputs, then the lemmas
    and theorems, grouped by subject. *)

From Stdlib Require Import ZArith List String Ascii Bool Lia Arith.
From Stdlib Require Import DecimalString DecimalZ DecimalPos.
From Stdlib Require Import Sorting.Sorted Sorting.Permutation.
From Stdlib Require Import SpecFloat.
Import ListNotations.

#[local] Open Scope string_scope.
#[local] Open Scope Z_scope.

(* ================================================================== *)
(** * Python builtins                                               *)
(* ================================================================== *)

(** A Python [str] is modelled as a Rocq [string] whose characters are the
    code points U+0000..U+00FF (Latin-1).  The character classes below are
    CPython's for that range.  CPython's optional limit on the number of
    digits accepted by [int(str)] is not modelled. *)
Module Py.

Definition code (c : ascii) : nat := nat_of_ascii c.

Definition between (lo hi : nat) (c : ascii) : bool :=
  (Nat.leb lo (code c) && Nat.leb (code c) hi)%bool.

(** [str.isspace] on one character. *)
Definition isspace (c : ascii) : bool :=
  (between 9 13 c || between 28 32 c || between 133 133 c
   || between 160 160 c)%bool.

(** The characters [int()] skips around a literal: the ASCII blanks and
    the two Latin-1 spaces; unlike [str.strip] it does not skip the
    separators U+001C..U+001F. *)
Definition int_space (c : ascii) : bool :=
  (between 9 13 c || between 32 32 c || between 133 133 c
   || between 160 160 c)%bool.

Definition c_isupper (c : ascii) : bool :=
  (between 65 90 c || between 192 214 c || between 216 222 c)%bool.

Definition c_islower (c : ascii) : bool :=
  (between 97 122 c || between 170 170 c || between 181 181 c
   || between 186 186 c || between 223 246 c || between 248 255 c)%bool.

Definition c_isalpha (c : ascii) : bool := (c_isupper c || c_islower c)%bool.

(** The value of a decimal digit, [None] for any other character. *)
Definition digit_val (c : ascii) : option Z :=
  if between 48 57 c then Some (Z.of_nat (code c) - 48) else None.

Fixpoint existsb_str (p : ascii -> bool) (s : string) : bool :=
  match s with
  | EmptyString => false
  | String c r => (p c || existsb_str p r)%bool
  end.

(** [s.isupper()]: at least one cased character and no lower-case one. *)
Definition isupper (s : string) : bool :=
  (existsb_str c_isupper s && negb (existsb_str c_islower s))%bool.

(** [any(c.isalpha() for c in s)]. *)
Definition any_isalpha (s : string) : bool := existsb_str c_isalpha s.

(** [ch in s] for a one-character needle. *)
Definition contains (ch : ascii) (s : string) : bool :=
  existsb_str (Ascii.eqb ch) s.

(** [bool(s)] / [not s]. *)
Definition nonempty (s : string) : bool :=
  match s with EmptyString => false | _ => true end.

Fixpoint lstrip_by (p : ascii -> bool) (s : string) : string :=
  match s with
  | EmptyString => EmptyString
  | String c r => if p c then lstrip_by p r else s
  end.

Fixpoint rstrip_by (p : ascii -> bool) (s : string) : string :=
  match s with
  | EmptyString => EmptyString
  | String c r =>
      match rstrip_by p r with
      | EmptyString => if p c then EmptyString else String c EmptyString
      | r' => String c r'
      end
  end.

(** [s.strip()]. *)
Definition strip (s : string) : string := rstrip_by isspace (lstrip_by isspace s).

(** [s.split()]: the maximal runs of non-blank characters, in order. *)
Fixpoint split (s : string) : list string :=
  match s with
  | EmptyString => []
  | String c r =>
      if isspace c then split r
      else match r with
           | EmptyString => [String c EmptyString]
           | String c' _ =>
               if isspace c' then String c EmptyString :: split r
               else match split r with
                    | t :: ts => String c t :: ts
                    | [] => [String c EmptyString]
                    end
           end
  end.

(** [s.split(sep)] for a one-character separator: always at least one part. *)
Fixpoint split_on (sep : ascii) (s : string) : list string :=
  match s with
  | EmptyString => [EmptyString]
  | String c r =>
      if Ascii.eqb c sep then EmptyString :: split_on sep r
      else match split_on sep r with
           | p :: ps => String c p :: ps
           | [] => [String c EmptyString]
           end
  end.

(** [s.split(sep, 1)]: the text before and after the first separator;
    a single part when there is none. *)
Fixpoint split_once (sep : ascii) (s : string) : string * option string :=
  match s with
  | EmptyString => (EmptyString, None)
  | String c r =>
      if Ascii.eqb c sep then (EmptyString, Some r)
      else let '(l, o) := split_once sep r in (String c l, o)
  end.

(** [" ".join(parts)]. *)
Fixpoint join (parts : list string) : string :=
  match parts with
  | [] => EmptyString
  | [p] => p
  | p :: ps => p ++ " " ++ join ps
  end.

(** [s.startswith(p)]. *)
Definition startswith (p s : string) : bool := String.prefix p s.

(** The digits of an [int()] literal: decimal digits, single underscores
    allowed between two digits.  [prev] tells whether the previous
    character was a digit. *)
Fixpoint int_digits (s : string) (acc : Z) (prev : bool) : option Z :=
  match s with
  | EmptyString => if prev then Some acc else None
  | String c r =>
      match digit_val c with
      | Some d => int_digits r (10 * acc + d) true
      | None =>
          if (Ascii.eqb c "_" && prev)%bool then int_digits r acc false
          else None
      end
  end.

(** [int(s)] for a string [s]; [None] stands for [ValueError]. *)
Definition int (s : string) : option Z :=
  match rstrip_by int_space (lstrip_by int_space s) with
  | String "+" r => int_digits r 0 false
  | String "-" r => option_map Z.opp (int_digits r 0 false)
  | t => int_digits t 0 false
  end.

(** [str(n)] for an integer. *)
Definition str_of_Z (z : Z) : string := NilZero.string_of_int (Z.to_int z).

Definition str_of_nat (n : nat) : string := str_of_Z (Z.of_nat n).

(** The scalar values found in the JSON rows the scripts consume.  Floats
    and nested containers do not occur in the fields that are read. *)
Inductive value : Type :=
| VNone
| VBool (b : bool)
| VInt (z : Z)
| VStr (s : string).

(** [bool(v)]. *)
Definition truthy (v : value) : bool :=
  match v with
  | VNone => false
  | VBool b => b
  | VInt z => negb (z =? 0)
  | VStr s => nonempty s
  end.

(** [str(v)]. *)
Definition str (v : value) : string :=
  match v with
  | VNone => "None"
  | VBool true => "True"
  | VBool false => "False"
  | VInt z => str_of_Z z
  | VStr s => s
  end.

(** [a == b] on scalars; [True == 1] and [False == 0] as in Python, which
    is also the equality dictionaries use on keys. *)
Definition num_of (v : value) : option Z :=
  match v with
  | VBool b => Some (if b then 1 else 0)
  | VInt z => Some z
  | _ => None
  end.

Definition eqb (a b : value) : bool :=
  match a, b with
  | VNone, VNone => true
  | VStr s, VStr t => String.eqb s t
  | _, _ =>
      match num_of a, num_of b with
      | Some x, Some y => x =? y
      | _, _ => false
      end
  end.

(** Exceptions the model distinguishes.  [RequestException] stands for the
    whole [requests.RequestException] family (connection errors, timeouts,
    [HTTPError]); all of them are instances of [Exception]. *)
Inductive exn : Type :=
| AttributeError (attr : string)
| ValueError (msg : string)
| TypeError (msg : string)
| RequestException (msg : string)
| URLError (msg : string)
| OverflowError (msg : string)
| OSError (msg : string).

Inductive result (A : Type) : Type :=
| Ok (a : A)
| Raise (e : exn).
Arguments Ok {A} a.
Arguments Raise {A} e.

Definition bind {A B} (m : result A) (k : A -> result B) : result B :=
  match m with
  | Ok a => k a
  | Raise e => Raise e
  end.

(** A JSON object with scalar members, as a Python dict. *)
Definition row : Type := list (string * value).

Fixpoint get (r : row) (k : string) : option value :=
  match r with
  | [] => None
  | (k', v) :: r' => if String.eqb k' k then Some v else get r' k
  end.

(** [r.get(k, d)]. *)
Definition get_or (r : row) (k : string) (d : value) : value :=
  match get r k with Some v => v | None => d end.

(** [r.get(k)]: [None] when the key is missing. *)
Definition get_none (r : row) (k : string) : value := get_or r k VNone.

(** [v.strip()] on a value read from a row: only a [str] has the method. *)
Definition strip_value (v : value) : result string :=
  match v with
  | VStr s => Ok (strip s)
  | _ => Raise (AttributeError "strip")
  end.

(** [x or ""]. *)
Definition or_empty (v : value) : value := if truthy v then v else VStr "".

(** [int(v)] on a value read from a row. *)
Definition int_of_value (v : value) : result Z :=
  match v with
  | VNone => Raise (TypeError "int")
  | VBool b => Ok (if b then 1 else 0)
  | VInt z => Ok z
  | VStr s =>
      match int s with
      | Some z => Ok z
      | None => Raise (ValueError "int")
      end
  end.

(** Truth value of an optional string ([None] and [""] are false). *)
Definition truthy_opt (o : option string) : bool :=
  match o with Some s => nonempty s | None => false end.

(** [s or None]. *)
Definition or_none (s : string) : option string :=
  if nonempty s then Some s else None.

End Py.

Notation "'let*' x ':=' m 'in' k" := (Py.bind m (fun x => k))
  (at level 10, x name, m at level 100, k at level 200).

(** [enumerate(l, start)]. *)
Fixpoint enumerate {A} (start : Z) (l : list A) : list (Z * A) :=
  match l with
  | [] => []
  | x :: r => (start, x) :: enumerate (start + 1) r
  end.

(** A Python [dict]: unique keys, insertion order kept.  [eqb] is the
    equality of the keys. *)
Module Dict.
Section Dict.
Context {K V : Type} (eqb : K -> K -> bool).

Definition t : Type := list (K * V).

(** [d.get(k)]. *)
Fixpoint get (d : t) (k : K) : option V :=
  match d with
  | [] => None
  | (k', v) :: r => if eqb k' k then Some v else get r k
  end.

(** [k in d]. *)
Definition mem (d : t) (k : K) : bool :=
  match get d k with Some _ => true | None => false end.

(** [d[k] = v]: an existing key keeps its place, a new one goes last. *)
Fixpoint set (d : t) (k : K) (v : V) : t :=
  match d with
  | [] => [(k, v)]
  | (k', v') :: r =>
      if eqb k' k then (k', v) :: r else (k', v') :: set r k v
  end.

(** [list(d.values())]. *)
Definition values (d : t) : list V := map snd d.

End Dict.
Arguments t K V : clear implicits.
End Dict.

(** The Fabrik list endpoint of results.ittf.link, seen from a client. *)
Module Fabrik.
Import Py.

(** Query parameters that vary between calls; [limitstart] is the
    [limitstart<listid>] offset, absent when the caller sends none. *)
Record request : Type := mk_request {
  req_year : Z;
  req_limit : Z;
  req_limitstart : option Z
}.

(** An element of the JSON array of a reply: an object (one match row) or
    an inner array of rows (the endpoint sometimes answers [[...]]). *)
Inductive item : Type :=
| Obj (r : row)
| Arr (rs : list row).

(** The decoded JSON document of a reply. *)
Inductive payload : Type :=
| Items (l : list item)
| NotAList.

(** The network: the reply to the [n]-th request of the run.  [Raise]
    covers what [session.get], [raise_for_status] and [.json()] raise. *)
Definition server : Type := nat -> request -> result payload.

(** The requests sent so far, oldest first. *)
Definition log : Type := list request.

Definition send (net : server) (l : log) (q : request) : log * result payload :=
  ((l ++ [q])%list, net (List.length l) q).

End Fabrik.

(* ================================================================== *)
(** * ITTF/WTT/scripts/fabrik_match_scraper.py                      *)
(* ================================================================== *)

Module FabrikMatchScraper.
Import Py.

(** One entry of [Match.games]. *)
Record game : Type := mk_game {
  game_number : Z;
  player_score : Z;
  opponent_score : Z
}.

(** Body of the [for i, game_str in enumerate(game_strs, 1)] loop of
    [parse_game_scores]; [ValueError] from either [int()] is swallowed. *)
Definition parse_step (games : list game) (it : Z * string) : list game :=
  let '(i, game_str) := it in
  if negb (nonempty game_str) then games
  else if contains ":" game_str then
    match split_on ":" game_str with
    | [p0; p1] =>
        match int (strip p0) with
        | Some player =>
            match int (strip p1) with
            | Some opponent => games ++ [mk_game i player opponent]
            | None => games
            end
        | None => games
        end
    | _ => games
    end
  else games.

Definition parse_game_scores (games_string : string) : list game :=
  let games_string := strip games_string in
  let game_strs := split games_string in
  fold_left parse_step (enumerate 1 game_strs) [].

(** [Match]; the [scraped_at] timestamp is left out. *)
Record Match : Type := mk_Match {
  match_id : string;
  player_id : string;
  player_name : value;
  opponent_id : option string;
  opponent_name : value;
  player_association : value;
  opponent_association : value;
  tournament : value;
  event : value;
  stage : value;
  round_num : value;
  year : string;
  games : list game;
  winner_id : option Z;
  walkover : bool
}.

(** [fetch_matches]: one GET without any offset parameter; every
    exception is logged and turned into an empty list. *)
Definition fetch_matches (net : Fabrik.server) (l : Fabrik.log)
    (year limit : Z) : Fabrik.log * list Fabrik.item :=
  let '(l', r) := Fabrik.send net l (Fabrik.mk_request year limit None) in
  (l', match r with
       | Ok (Fabrik.Items data) => data
       | Ok Fabrik.NotAList => []
       | Raise _ => []
       end).

(** The [Match(...)] call of [scrape_year], arguments evaluated in order. *)
Definition match_of_row (match_data : row) : result Match :=
  let opponent :=
    if truthy (get_none match_data "vw_matches___player_x_id")
    then Some (str (get_or match_data "vw_matches___player_x_id" (VStr "")))
    else None in
  match get_or match_data "vw_matches___games_raw" (VStr "") with
  | VStr games_raw =>
      let* winner :=
        (if truthy (get_none match_data "vw_matches___winner")
         then let* w := int_of_value (get_or match_data "vw_matches___winner" (VInt 0)) in
              Ok (Some w)
         else Ok None) in
      Ok (mk_Match
            (str (get_or match_data "vw_matches___id" (VStr "")))
            (str (get_or match_data "vw_matches___player_a_id" (VStr "")))
            (get_or match_data "vw_matches___name_a" (VStr ""))
            opponent
            (get_or match_data "vw_matches___name_x" (VStr ""))
            (get_or match_data "vw_matches___assoc_a" (VStr ""))
            (get_or match_data "vw_matches___assoc_x" (VStr ""))
            (get_none match_data "vw_matches___tournament_id")
            (get_none match_data "vw_matches___event")
            (get_none match_data "vw_matches___stage")
            (get_none match_data "vw_matches___round")
            (str (get_or match_data "vw_matches___yr_raw" (VStr "")))
            (parse_game_scores games_raw)
            winner
            (truthy (get_or match_data "vw_matches___wo" (VInt 0))))
  | _ => Raise (AttributeError "strip")
  end.

Definition match_of_item (it : Fabrik.item) : result Match :=
  match it with
  | Fabrik.Obj r => match_of_row r
  | Fabrik.Arr _ => Raise (AttributeError "get")
  end.

(** The [for match_data in matches] loop: appends to [all_matches]. *)
Fixpoint convert (matches : list Fabrik.item) (all_matches : list Match)
  : result (list Match) :=
  match matches with
  | [] => Ok all_matches
  | it :: r => let* m := match_of_item it in convert r (all_matches ++ [m])%list
  end.

(** The [while len(all_matches) < max_matches] loop of [scrape_year].
    [offset] is initialised in the source and never read; [limit] is 100.
    [None] means the fuel ran out before the loop ended. *)
Fixpoint scrape_loop (fuel : nat) (net : Fabrik.server) (year max_matches : Z)
    (l : Fabrik.log) (all_matches : list Match)
  : option (Fabrik.log * result (list Match)) :=
  if Z.of_nat (List.length all_matches) <? max_matches then
    match fuel with
    | O => None
    | S fuel' =>
        let '(l', matches) := fetch_matches net l year 100 in
        match matches with
        | [] => Some (l', Ok all_matches)
        | _ :: _ =>
            match convert matches all_matches with
            | Ok all' => scrape_loop fuel' net year max_matches l' all'
            | Raise e => Some (l', Raise e)
            end
        end
    end
  else Some (l, Ok all_matches).

(** [scrape_year]; every pass adds at least one match, so [max_matches]
    passes are enough (lemma [fabrik_scrape_loop_total]). *)
Definition scrape_year (net : Fabrik.server) (l : Fabrik.log)
    (year max_matches : Z) : Fabrik.log * result (list Match) :=
  match scrape_loop (Z.to_nat max_matches) net year max_matches l [] with
  | Some r => r
  | None => (l, Ok [])
  end.

(** Loop body of [extract_player_ids]. *)
Definition extract_step (players : Dict.t string value) (m : Match)
  : Dict.t string value :=
  let players :=
    if negb (Dict.mem String.eqb players (player_id m))
    then Dict.set String.eqb players (player_id m) (player_name m)
    else players in
  match opponent_id m with
  | Some oid =>
      if (nonempty oid && negb (Dict.mem String.eqb players oid))%bool
      then Dict.set String.eqb players oid (opponent_name m)
      else players
  | None => players
  end.

Definition extract_player_ids (matches : list Match)
  : Dict.t string value :=
  fold_left extract_step matches [].

(** What the module-level function [scrape_year] saves for a year:
    matches_<year>.json and players_from_matches_<year>.json. *)
Record year_files : Type := mk_year_files {
  yf_year : Z;
  yf_matches : list Match;
  yf_players : Dict.t string value
}.

(** The module-level [scrape_year(year, config, max_matches)] (the class
    has a method of the same name, [scrape_year] above). *)
Definition scrape_year_and_save (net : Fabrik.server) (l : Fabrik.log)
    (year max_matches : Z) : Fabrik.log * result year_files :=
  let '(l', r) := scrape_year net l year max_matches in
  (l', let* matches := r in
       Ok (mk_year_files year matches (extract_player_ids matches))).

(** The [for year in years] loop of [main]: what has been saved, year by
    year, or the exception that leaves [main]. *)
Fixpoint main_years (net : Fabrik.server) (years : list Z) (max_matches : Z)
    (l : Fabrik.log) (saved : list year_files)
  : Fabrik.log * result (list year_files) :=
  match years with
  | [] => (l, Ok saved)
  | year :: rest =>
      match scrape_year_and_save net l year max_matches with
      | (l', Ok files) => main_years net rest max_matches l' (saved ++ [files])%list
      | (l', Raise e) => (l', Raise e)
      end
  end.

(** How the argument handling of [main] ends: [sys.exit(code)], or the
    years to scrape with the bound on the matches of each. *)
Inductive cli : Type :=
| Exit (code : Z)
| Scrape (years : list Z) (max_matches : Z).

(** The [while i < len(sys.argv)] loop of [main].  A flag that is the last
    argument leaves [i] as it is.  [None] means the fuel ran out before
    the loop ended. *)
Fixpoint args_loop (fuel : nat) (argv : list string) (i : nat)
    (years : list Z) (max_matches : Z) : option cli :=
  match nth_error argv i with
  | None => Some (Scrape years max_matches)
  | Some arg =>
      match fuel with
      | O => None
      | S fuel' =>
          if String.eqb arg "--year" then
            match nth_error argv (S i) with
            | Some v =>
                match int v with
                | Some y => args_loop fuel' argv (i + 2) (years ++ [y])%list max_matches
                | None => Some (Exit 1)
                end
            | None => args_loop fuel' argv i years max_matches
            end
          else if String.eqb arg "--max-matches" then
            match nth_error argv (S i) with
            | Some v =>
                match int v with
                | Some n => args_loop fuel' argv (i + 2) years n
                | None => Some (Exit 1)
                end
            | None => args_loop fuel' argv i years max_matches
            end
          else args_loop fuel' argv (S i) years max_matches
      end
  end.

(** [main] up to the loop over the years: the usage exit, the argument
    loop, the exit when no year was given. *)
Definition main_args (fuel : nat) (argv : list string) : option cli :=
  if (List.length argv <? 3)%nat then Some (Exit 1)
  else
    match args_loop fuel argv 1 [] 1000 with
    | Some (Scrape [] _) => Some (Exit 1)
    | r => r
    end.

End FabrikMatchScraper.

(* ================================================================== *)
(** * ITTF/WTT/scripts/comprehensive_collector.py                   *)
(* ================================================================== *)

Module ComprehensiveCollector.
Import Py.

Record game : Type := mk_game {
  game_number : Z;
  player_score : Z;
  opponent_score : Z
}.

(** Loop body of [FabrikAPIClient.parse_game_scores]: the index already
    starts at 1 and the record stores [i + 1]. *)
Definition parse_step (games : list game) (it : Z * string) : list game :=
  let '(i, game_str) := it in
  if negb (nonempty game_str) then games
  else if contains ":" game_str then
    match split_on ":" game_str with
    | [p0; p1] =>
        match int (strip p0) with
        | Some player =>
            match int (strip p1) with
            | Some opponent => games ++ [mk_game (i + 1) player opponent]
            | None => games
            end
        | None => games
        end
    | _ => games
    end
  else games.

Definition parse_game_scores (games_string : string) : list game :=
  let games_string := strip games_string in
  let game_strs := split games_string in
  fold_left parse_step (enumerate 1 game_strs) [].

Record Player : Type := mk_Player {
  ittf_id : string;
  first_name : option string;
  last_name : option string;
  full_name : value;
  nationality : option string;
  gender : option string;
  source : string
}.

Record Match : Type := mk_Match {
  match_id : string;
  player_id : string;
  player_name : value;
  opponent_id : option string;
  opponent_name : value;
  player_association : value;
  opponent_association : value;
  tournament : value;
  event : value;
  stage : value;
  round_num : value;
  date : value;
  year : string;
  games : list game;
  winner_id : option Z;
  walkover : bool
}.

(** What an attribute of a [Match] instance can hold. *)
Inductive attr : Type :=
| AValue (v : value)
| AGames (g : list game)
| AMethod.

Definition of_opt_str (o : option string) : value :=
  match o with Some s => VStr s | None => VNone end.

Definition of_opt_int (o : option Z) : value :=
  match o with Some z => VInt z | None => VNone end.

(** The instance dictionary [Match.__init__] fills. *)
Definition instance_dict (m : Match) : Dict.t string attr :=
  [ ("match_id", AValue (VStr (match_id m)));
    ("player_id", AValue (VStr (player_id m)));
    ("player_name", AValue (player_name m));
    ("opponent_id", AValue (of_opt_str (opponent_id m)));
    ("opponent_name", AValue (opponent_name m));
    ("player_association", AValue (player_association m));
    ("opponent_association", AValue (opponent_association m));
    ("tournament", AValue (tournament m));
    ("event", AValue (event m));
    ("stage", AValue (stage m));
    ("round_num", AValue (round_num m));
    ("date", AValue (date m));
    ("year", AValue (VStr (year m)));
    ("games", AGames (games m));
    ("winner_id", AValue (of_opt_int (winner_id m)));
    ("walkover", AValue (VBool (walkover m))) ].

(** [getattr(match, name)] without a default: the instance dictionary,
    then the class ([to_dict]); anything else is an [AttributeError].
    The attributes every Python object inherits are left out. *)
Definition getattr (m : Match) (name : string) : result attr :=
  match Dict.get String.eqb (instance_dict m) name with
  | Some a => Ok a
  | None =>
      if String.eqb name "to_dict" then Ok AMethod
      else Raise (AttributeError name)
  end.

(** [WTTAPIClient.extract_gender_from_event_code]: a lookup of the whole
    code in [gender_map]. *)
Definition gender_map : Dict.t string string :=
  [ ("MS", "M"); ("WS", "W"); ("MDI", "M"); ("WDI", "W");
    ("XD", "mixed"); ("XDI", "mixed") ].

Definition extract_gender_from_event_code (event_code : string) : option string :=
  Dict.get String.eqb gender_map event_code.

(** [ComprehensiveDataCollector.parse_player_name]: (first, last). *)
Definition parse_player_name (full_name : string)
  : option string * option string :=
  if negb (nonempty full_name) then (None, None)
  else
    let parts := split (strip full_name) in
    match parts with
    | [p0] => (Some p0, None)
    | [p0; p1] => (Some p1, Some p0)
    | p0 :: rest =>
        if forallb isupper parts then (Some (join rest), Some p0)
        else (Some (join rest), Some p0)
    | [] => (Some full_name, None)
    end.

Definition fetch_matches (net : Fabrik.server) (l : Fabrik.log)
    (year limit : Z) : Fabrik.log * list Fabrik.item :=
  let '(l', r) := Fabrik.send net l (Fabrik.mk_request year limit None) in
  (l', match r with
       | Ok (Fabrik.Items data) => data
       | Ok Fabrik.NotAList => []
       | Raise _ => []
       end).

(** The [Match(...)] call of [scrape_matches_by_year]. *)
Definition match_of_row (match_data : row) : result Match :=
  let opponent :=
    if truthy (get_none match_data "vw_matches___player_x_id")
    then Some (str (get_or match_data "vw_matches___player_x_id" (VStr "")))
    else None in
  match get_or match_data "vw_matches___games_raw" (VStr "") with
  | VStr games_raw =>
      let* winner :=
        (if truthy (get_none match_data "vw_matches___winner")
         then let* w := int_of_value (get_or match_data "vw_matches___winner" (VInt 0)) in
              Ok (Some w)
         else Ok None) in
      Ok (mk_Match
            (str (get_or match_data "vw_matches___id" (VStr "")))
            (str (get_or match_data "vw_matches___player_a_id" (VStr "")))
            (get_or match_data "vw_matches___name_a" (VStr ""))
            opponent
            (get_or match_data "vw_matches___name_x" (VStr ""))
            (get_or match_data "vw_matches___assoc_a" (VStr ""))
            (get_or match_data "vw_matches___assoc_x" (VStr ""))
            (get_none match_data "vw_matches___tournament_id")
            (get_none match_data "vw_matches___event")
            (get_none match_data "vw_matches___stage")
            (get_none match_data "vw_matches___round")
            VNone
            (str (get_or match_data "vw_matches___yr_raw" (VStr "")))
            (parse_game_scores games_raw)
            winner
            (truthy (get_or match_data "vw_matches___wo" (VInt 0))))
  | _ => Raise (AttributeError "strip")
  end.

Definition match_of_item (it : Fabrik.item) : result Match :=
  match it with
  | Fabrik.Obj r => match_of_row r
  | Fabrik.Arr _ => Raise (AttributeError "get")
  end.

Fixpoint convert (matches : list Fabrik.item) (all_matches : list Match)
  : result (list Match) :=
  match matches with
  | [] => Ok all_matches
  | it :: r => let* m := match_of_item it in convert r (all_matches ++ [m])%list
  end.

(** The [while] loop of [scrape_matches_by_year]; same shape as in
    fabrik_match_scraper.py: [offset] is never read, [limit] is 100. *)
Fixpoint scrape_loop (fuel : nat) (net : Fabrik.server) (year max_matches : Z)
    (l : Fabrik.log) (all_matches : list Match)
  : option (Fabrik.log * result (list Match)) :=
  if Z.of_nat (List.length all_matches) <? max_matches then
    match fuel with
    | O => None
    | S fuel' =>
        let '(l', matches) := fetch_matches net l year 100 in
        match matches with
        | [] => Some (l', Ok all_matches)
        | _ :: _ =>
            match convert matches all_matches with
            | Ok all' => scrape_loop fuel' net year max_matches l' all'
            | Raise e => Some (l', Raise e)
            end
        end
    end
  else Some (l, Ok all_matches).

Definition scrape_matches_by_year (net : Fabrik.server) (l : Fabrik.log)
    (year max_matches : Z) : Fabrik.log * result (list Match) :=
  match scrape_loop (Z.to_nat max_matches) net year max_matches l [] with
  | Some r => r
  | None => (l, Ok [])
  end.

(** State of [discover_players_from_matches]: [self.players_db] and the
    local [discovered_ids]. *)
Definition discovery : Type := Dict.t string Player * list string.

Definition attr_truthy (a : attr) : bool :=
  match a with
  | AValue v => truthy v
  | AGames g => match g with [] => false | _ => true end
  | AMethod => true
  end.

(** [str(a)]; the text Python prints for a list of games or a bound
    method is not reproduced. *)
Definition attr_str (a : attr) : string :=
  match a with
  | AValue v => str v
  | AGames _ => "[...]"
  | AMethod => "<bound method Match.to_dict>"
  end.

(** [Player(..., scraped_at=...)]: [Player.__init__] has no such
    parameter. *)
Definition Player_with_scraped_at (id : string)
    (name : option string * option string) (full : attr) : result Player :=
  Raise (TypeError "scraped_at").

(** [self.parse_player_name(player_name)] on an attribute value. *)
Definition parse_attr_name (a : attr)
  : result (option string * option string) :=
  match a with
  | AValue (VStr s) => Ok (parse_player_name s)
  | _ => if attr_truthy a then Raise (AttributeError "strip") else Ok (None, None)
  end.

(** Body of [for player_field in ["player_a", "player_x", "player_y"]]. *)
Definition discover_field (m : Match) (st : discovery) (player_field : string)
  : result discovery :=
  let '(players_db, discovered_ids) := st in
  let* pid := getattr m (player_field ++ "_id") in
  let* pname := getattr m (player_field ++ "_name") in
  let key := attr_str pid in
  if (attr_truthy pid && negb (existsb (String.eqb key) discovered_ids))%bool
  then
    let* names := parse_attr_name pname in
    let* player := Player_with_scraped_at key names pname in
    Ok (Dict.set String.eqb players_db key player,
        (discovered_ids ++ [key])%list)
  else Ok st.

Fixpoint for_each {A S} (body : S -> A -> result S) (l : list A) (st : S)
  : result S :=
  match l with
  | [] => Ok st
  | x :: r => let* st' := body st x in for_each body r st'
  end.

Definition discover_match (st : discovery) (m : Match) : result discovery :=
  for_each (discover_field m) ["player_a"; "player_x"; "player_y"] st.

(** [discover_players_from_matches]: the years in order, each scraped with
    [max_matches=200]. *)
Fixpoint discover_years (net : Fabrik.server) (years : list Z)
    (l : Fabrik.log) (st : discovery) : Fabrik.log * result discovery :=
  match years with
  | [] => (l, Ok st)
  | y :: ys =>
      match scrape_matches_by_year net l y 200 with
      | (l', Ok matches) =>
          match for_each discover_match matches st with
          | Ok st' => discover_years net ys l' st'
          | Raise e => (l', Raise e)
          end
      | (l', Raise e) => (l', Raise e)
      end
  end.

Definition discover_players_from_matches (net : Fabrik.server)
    (l : Fabrik.log) (players_db : Dict.t string Player) (years : list Z)
  : Fabrik.log * result discovery :=
  discover_years net years l (players_db, []).

(** Step 3 of [run_full_collection]: [for year in years_to_scan], each
    year scraped with the default [max_matches=500] and added to
    [matches_db]. *)
Fixpoint scrape_years (net : Fabrik.server) (years : list Z)
    (l : Fabrik.log) (matches_db : list Match)
  : Fabrik.log * result (list Match) :=
  match years with
  | [] => (l, Ok matches_db)
  | year :: rest =>
      match scrape_matches_by_year net l year 500 with
      | (l', Ok year_matches) =>
          scrape_years net rest l' (matches_db ++ year_matches)%list
      | (l', Raise e) => (l', Raise e)
      end
  end.

(** The rankings endpoint as [WTTAPIClient.get_player_rankings] reads a
    reply.  The decoded document is a JSON object, given by its "Result"
    member (absent, null, or an array of objects with scalar members), or
    something else, on which [data.get] raises. *)
Inductive rankings_doc : Type :=
| RObject (result_member : option (option (list row)))
| ROther.

(** [json] is [None] when [response.json()] raises. *)
Record reply : Type := mk_reply {
  status_code : Z;
  json : option rankings_doc
}.

(** The reply to the [n]-th request of the run, or what [session.get]
    raises. *)
Definition wtt : Type := nat -> string -> result reply.

(** [WTTAPIClient.get_player_rankings]: whatever is raised is logged and
    turned into [None]. *)
Definition get_player_rankings (net : wtt) (n : nat) (ittf_id : string)
  : option (list row) :=
  match net n ittf_id with
  | Raise _ => None
  | Ok response =>
      if status_code response =? 200 then
        match json response with
        | Some (RObject (Some result_member)) => result_member
        | Some (RObject None) => Some []
        | Some ROther => None
        | None => None
        end
      else None
  end.

(** The [Player] that [build_player_from_rankings] constructs: [full_name]
    and [nationality] are whatever the first ranking entry holds, [dob] is
    [None] and [source] is "rankings_api". *)
Record profile : Type := mk_profile {
  p_ittf_id : string;
  p_first_name : option string;
  p_last_name : option string;
  p_full_name : value;
  p_nationality : value;
  p_gender : option string
}.

(** [self.parse_player_name(full_name)] on a value of a ranking entry. *)
Definition parse_name_value (full_name : value)
  : result (option string * option string) :=
  match full_name with
  | VStr s => Ok (parse_player_name s)
  | _ => if truthy full_name then Raise (AttributeError "strip") else Ok (None, None)
  end.

(** [extract_gender_from_event_code] on the "SubEventCode" of an entry;
    a code that is not a string is not a key of [gender_map]. *)
Definition event_gender (ranking_entry : row) : option string :=
  match get_or ranking_entry "SubEventCode" (VStr "") with
  | VStr event_code => extract_gender_from_event_code event_code
  | _ => None
  end.

(** The [for ranking_entry in rankings] loop with its [break]. *)
Fixpoint first_gender (rankings : list row) : option string :=
  match rankings with
  | [] => None
  | ranking_entry :: rest =>
      match event_gender ranking_entry with
      | Some inferred_gender =>
          if (nonempty inferred_gender
              && negb (String.eqb inferred_gender "mixed"))%bool
          then Some inferred_gender
          else first_gender rest
      | None => first_gender rest
      end
  end.

Definition build_player_from_rankings (net : wtt) (n : nat) (ittf_id : string)
  : result (option profile) :=
  match get_player_rankings net n ittf_id with
  | Some ((entry :: _) as rankings) =>
      let full_name := get_or entry "PlayerName" (VStr "") in
      let nationality := get_or entry "CountryCode" (VStr "") in
      let* names := parse_name_value full_name in
      Ok (Some (mk_profile ittf_id (fst names) (snd names) full_name
                  nationality (first_gender rankings)))
  | _ => Ok None
  end.

(** [p.gender == g] and [p.gender is None]. *)
Definition gender_is (g : option string) (p : profile) : bool :=
  match p_gender p, g with
  | Some a, Some b => String.eqb a b
  | None, None => true
  | _, _ => false
  end.

(** [_save_players_by_gender]: the files written, as (gender, players);
    an empty group gets no file. *)
Definition save_players_by_gender (players : list profile)
  : list (string * list profile) :=
  let men := filter (gender_is (Some "M")) players in
  let women := filter (gender_is (Some "W")) players in
  let mixed := filter (gender_is (Some "mixed")) players in
  let unknown := filter (gender_is None) players in
  filter (fun f => match snd f with [] => false | _ :: _ => true end)
    [("men", men); ("women", women); ("mixed", mixed); ("unknown", unknown)].

(** State of the loop of [scan_player_ids_from_file]: the requests sent,
    the set [ittf_ids], the list [players] and [self.players_db]. *)
Record scan : Type := mk_scan {
  calls : nat;
  ittf_ids : list string;
  scanned : list profile;
  players_db : Dict.t string profile
}.

(** Body of [for player_data in data.get("players", [])]; a [Player] object
    is always true. *)
Definition scan_step (net : wtt) (st : scan) (player_data : row) : result scan :=
  let ittf_id := str (get_or player_data "IttfId" (VStr "")) in
  if nonempty ittf_id then
    let ids :=
      if existsb (String.eqb ittf_id) (ittf_ids st) then ittf_ids st
      else (ittf_ids st ++ [ittf_id])%list in
    let* player := build_player_from_rankings net (calls st) ittf_id in
    match player with
    | Some p =>
        Ok (mk_scan (S (calls st)) ids (scanned st ++ [p])%list
              (Dict.set String.eqb (players_db st) ittf_id p))
    | None => Ok (mk_scan (S (calls st)) ids (scanned st) (players_db st))
    end
  else Ok st.

(** [scan_player_ids_from_file] on the "players" array of the file: the
    final state and the gender files written. *)
Definition scan_player_ids_from_file (net : wtt) (players_db : Dict.t string profile)
    (file_players : list row) : result (scan * list (string * list profile)) :=
  let* st := for_each (scan_step net) file_players (mk_scan 0 [] [] players_db) in
  Ok (st, save_players_by_gender (scanned st)).

End ComprehensiveCollector.

(* ================================================================== *)
(** * ITTF/WTT/scripts/master_scrape.py                             *)
(* ================================================================== *)

Module MasterScrape.
Import Py.

(** [safe_int]: [int(str(value))], any exception turned into [None]. *)
Definition safe_int (v : value) : option Z :=
  match v with
  | VNone => None
  | _ => int (str v)
  end.

Record game : Type := mk_game {
  game_number : Z;
  a_points : Z;
  x_points : Z
}.

(** Loop body of [parse_games]. *)
Definition parse_step (games : list game) (it : Z * string) : list game :=
  let '(idx, token) := it in
  if negb (contains ":" token) then games
  else
    match split_once ":" token with
    | (left_, Some right_) =>
        match safe_int (VStr (strip left_)), safe_int (VStr (strip right_)) with
        | Some a, Some b => games ++ [mk_game idx a b]
        | _, _ => games
        end
    | (_, None) => games
    end.

(** [parse_games] on a string. *)
Definition parse_games_str (games_raw : string) : list game :=
  let games_raw := strip games_raw in
  if negb (nonempty games_raw) then []
  else fold_left parse_step (enumerate 1 (split games_raw)) [].

(** [parse_games] on whatever the row holds: [(games_raw or "").strip()]
    fails on a truthy value that is not a string. *)
Definition parse_games (games_raw : value) : result (list game) :=
  match or_empty games_raw with
  | VStr s => Ok (parse_games_str s)
  | _ => Raise (AttributeError "strip")
  end.

(** Loop body of [compute_set_score]; the points stored by [parse_games]
    are ints and go through [safe_int] again. *)
Definition score_step (acc : Z * Z) (g : game) : Z * Z :=
  let '(a_sets, x_sets) := acc in
  match safe_int (VInt (a_points g)), safe_int (VInt (x_points g)) with
  | Some a, Some x =>
      if a >? x then (a_sets + 1, x_sets)
      else if x >? a then (a_sets, x_sets + 1)
      else (a_sets, x_sets)
  | _, _ => (a_sets, x_sets)
  end.

Definition compute_set_score (games : list game) : Z * Z :=
  fold_left score_step games (0, 0).

(** [normalize_name]: (first_name, last_name, full_name).  [parts[-1]] is
    read from a list that cannot be empty there. *)
Definition normalize_name (full_name : string)
  : option string * option string * option string :=
  let full_name := strip full_name in
  if negb (nonempty full_name) then (None, None, None)
  else
    let parts := filter nonempty (split full_name) in
    match parts with
    | [p] => (None, Some p, Some full_name)
    | _ =>
        let caps := filter (fun p => (isupper p && any_isalpha p)%bool) parts in
        match caps with
        | last :: _ =>
            let first_parts :=
              filter (fun p => negb (String.eqb p last)) parts in
            let first :=
              match first_parts with
              | [] => None
              | _ => or_none (join first_parts)
              end in
            (first, or_none last, Some full_name)
        | [] =>
            (or_none (join (removelast parts)),
             or_none (List.last parts ""), Some full_name)
        end
    end.

(** The fields of [FabrikConfig] the pagination reads. *)
Record FabrikConfig : Type := mk_FabrikConfig {
  page_size : Z;
  max_pages_per_year : Z
}.

(** [FabrikConfig()] with its defaults. *)
Definition default_config : FabrikConfig := mk_FabrikConfig 500 500.

(** [fetch_fabrik_page]: nothing is caught here. *)
Definition fetch_fabrik_page (net : Fabrik.server) (l : Fabrik.log)
    (cfg : FabrikConfig) (year offset : Z)
  : Fabrik.log * result (list Fabrik.item) :=
  let '(l', r) :=
    Fabrik.send net l (Fabrik.mk_request year (page_size cfg) (Some offset)) in
  (l', let* data := r in
       match data with
       | Fabrik.Items [Fabrik.Arr inner] => Ok (map Fabrik.Obj inner)
       | Fabrik.Items d => Ok d
       | Fabrik.NotAList => Ok []
       end).

(** Why [iter_fabrik_matches] stopped. *)
Inductive stop : Type := EmptyPage | Stagnant | PageLimit.

(** [iter_fabrik_matches] is a generator; [for row in iter_fabrik_matches(..)]
    is modelled with the loop body [body] run at every [yield], on the
    consumer's state [S]. *)
Section Iter.
Context {S : Type} (body : S -> row -> result S).

(** The [for row in rows] loop of one page. *)
Fixpoint page_loop (rows : list Fabrik.item) (seen_ids : list string)
    (new_count : Z) (s : S) : result (list string * Z * S) :=
  match rows with
  | [] => Ok (seen_ids, new_count, s)
  | Fabrik.Arr _ :: _ => Raise (AttributeError "get")
  | Fabrik.Obj r :: rest =>
      let match_id := strip (str (get_or r "vw_matches___id" (VStr ""))) in
      if negb (nonempty match_id) then page_loop rest seen_ids new_count s
      else if existsb (String.eqb match_id) seen_ids
      then page_loop rest seen_ids new_count s
      else let* s' := body s r in
           page_loop rest (match_id :: seen_ids) (new_count + 1) s'
  end.

(** The [for page in range(cfg.max_pages_per_year)] loop. *)
Fixpoint pages (n : nat) (net : Fabrik.server) (cfg : FabrikConfig) (year : Z)
    (l : Fabrik.log) (seen_ids : list string) (offset stagnant_pages : Z)
    (s : S) : Fabrik.log * result (S * stop) :=
  match n with
  | O => (l, Ok (s, PageLimit))
  | Datatypes.S n' =>
      match fetch_fabrik_page net l cfg year offset with
      | (l', Raise e) => (l', Raise e)
      | (l', Ok []) => (l', Ok (s, EmptyPage))
      | (l', Ok rows) =>
          match page_loop rows seen_ids 0 s with
          | Raise e => (l', Raise e)
          | Ok (seen_ids', new_count, s') =>
              let stagnant_pages' :=
                if new_count =? 0 then stagnant_pages + 1 else 0 in
              if stagnant_pages' >=? 2 then (l', Ok (s', Stagnant))
              else pages n' net cfg year l' seen_ids'
                     (offset + page_size cfg) stagnant_pages' s'
          end
      end
  end.

Definition iter_fabrik_matches (net : Fabrik.server) (cfg : FabrikConfig)
    (year : Z) (l : Fabrik.log) (s : S) : Fabrik.log * result (S * stop) :=
  pages (Z.to_nat (max_pages_per_year cfg)) net cfg year l [] 0 0 s.

End Iter.

(** [list(iter_fabrik_matches(...))]: the rows yielded, in order. *)
Definition collect (acc : list row) (r : row) : result (list row) :=
  Ok (acc ++ [r])%list.

Record player_ref : Type := mk_player_ref {
  ref_ittf_id : option string;
  ref_name : option string;
  ref_association : option string
}.

(** The dict [row_to_match] returns (the constant [source] entry is left
    out). *)
Record match_rec : Type := mk_match_rec {
  match_id : string;
  year : option string;
  tournament : value;
  event : value;
  stage : value;
  round : value;
  walkover : bool;
  winner_raw : option Z;
  winner_inferred : option string;
  final_sets : Z * Z;
  games : list game;
  player_a : player_ref;
  player_x : player_ref
}.

(** Lines 246-248 of [row_to_match]. *)
Definition inferred_winner (a_sets x_sets : Z) (a_id x_id : option string)
  : option string :=
  if (negb (a_sets =? x_sets) && (truthy_opt a_id || truthy_opt x_id))%bool
  then Some (if a_sets >? x_sets then "A" else "X")
  else None.

(** [a or b or ""]. *)
Definition first_truthy (a b : value) : value :=
  if truthy a then a else if truthy b then b else VStr "".

Definition row_to_match (r : row) : result match_rec :=
  let match_id := strip (str (get_or r "vw_matches___id" (VStr ""))) in
  let a_id := or_none (strip (str (get_or r "vw_matches___player_a_id" (VStr "")))) in
  let x_id_raw := get_none r "vw_matches___player_x_id" in
  let x_id := if truthy x_id_raw then Some (strip (str x_id_raw)) else None in
  let* a_name := strip_value (or_empty (get_none r "vw_matches___name_a")) in
  let* x_name := strip_value (or_empty (get_none r "vw_matches___name_x")) in
  let* a_assoc := strip_value (or_empty (get_none r "vw_matches___assoc_a")) in
  let* x_assoc := strip_value (or_empty (get_none r "vw_matches___assoc_x")) in
  let* games := parse_games (or_empty (get_none r "vw_matches___games_raw")) in
  let '(a_sets, x_sets) := compute_set_score games in
  let walkover := truthy (get_or r "vw_matches___wo" (VInt 0)) in
  let winner_id := safe_int (get_none r "vw_matches___winner") in
  let year :=
    or_none (strip (str (first_truthy (get_none r "vw_matches___yr_raw")
                                      (get_none r "vw_matches___yr")))) in
  Ok (mk_match_rec match_id year
        (get_none r "vw_matches___tournament_id")
        (get_none r "vw_matches___event")
        (get_none r "vw_matches___stage")
        (get_none r "vw_matches___round")
        walkover winner_id
        (inferred_winner a_sets x_sets a_id x_id)
        (a_sets, x_sets) games
        (mk_player_ref a_id (or_none a_name) (or_none a_assoc))
        (mk_player_ref x_id (or_none x_name) (or_none x_assoc))).

Record stats : Type := mk_stats {
  matches_played : Z;
  wins : Z;
  losses : Z
}.

(** A value of [players]; [dob] and [team] are always [None] and left
    out; [last_seen] is the reading of the clock. *)
Record player : Type := mk_player {
  ittf_id : string;
  first_name : option string;
  last_name : option string;
  full_name : option string;
  nationality : option string;
  player_stats : stats;
  sources : list string;
  last_seen : Z
}.

Definition opt_or_empty (o : option string) : string :=
  match o with Some s => s | None => "" end.

(** [sources.add(x)]. *)
Definition set_add (x : string) (l : list string) : list string :=
  if existsb (String.eqb x) l then l else (l ++ [x])%list.

(** [upsert_player]; [now] is what [utc_now_iso()] returns during the
    call. *)
Definition upsert_player (players : Dict.t string player)
    (id name association : option string) (now : Z) : Dict.t string player :=
  if negb (truthy_opt id) then players
  else
    let key := opt_or_empty id in
    let record :=
      match Dict.get String.eqb players key with
      | Some record => record
      | None =>
          let '(first, last, full) := normalize_name (opt_or_empty name) in
          mk_player key first last full association
            (mk_stats 0 0 0) [] now
      end in
    let record :=
      if (truthy_opt association && negb (truthy_opt (nationality record)))%bool
      then mk_player (ittf_id record) (first_name record) (last_name record)
             (full_name record) association (player_stats record)
             (sources record) (last_seen record)
      else record in
    let record :=
      if (truthy_opt name && negb (truthy_opt (full_name record)))%bool
      then let '(first, last, full) := normalize_name (opt_or_empty name) in
           mk_player (ittf_id record) first last full (nationality record)
             (player_stats record) (sources record) (last_seen record)
      else record in
    let record :=
      mk_player (ittf_id record) (first_name record) (last_name record)
        (full_name record) (nationality record) (player_stats record)
        (set_add "fabrik_matches" (sources record)) now in
    Dict.set String.eqb players key record.

(** State of the loops of [main]; [clock] counts the matches handled and
    stands for the time of day. *)
Record run : Type := mk_run {
  matches : list match_rec;
  players : Dict.t string player;
  player_match_index : Dict.t string (list string);
  clock : Z
}.

Definition bump (f : stats -> stats) (players : Dict.t string player)
    (id : string) : Dict.t string player :=
  match Dict.get String.eqb players id with
  | Some p =>
      Dict.set String.eqb players id
        (mk_player (ittf_id p) (first_name p) (last_name p) (full_name p)
           (nationality p) (f (player_stats p)) (sources p) (last_seen p))
  | None => players
  end.

Definition played (s : stats) : stats :=
  mk_stats (matches_played s + 1) (wins s) (losses s).
Definition won (s : stats) : stats :=
  mk_stats (matches_played s) (wins s + 1) (losses s).
Definition lost (s : stats) : stats :=
  mk_stats (matches_played s) (wins s) (losses s + 1).

(** [index.setdefault(id, []).append(match_id)]. *)
Definition index_append (index : Dict.t string (list string))
    (id match_id : string) : Dict.t string (list string) :=
  match Dict.get String.eqb index id with
  | Some l => Dict.set String.eqb index id (l ++ [match_id])%list
  | None => Dict.set String.eqb index id [match_id]
  end.

(** Body of [for row in iter_fabrik_matches(...)] in [main]. *)
Definition main_body (st : run) (r : row) : result run :=
  let* m := row_to_match r in
  let a := player_a m in
  let x := player_x m in
  let now := clock st in
  let players := upsert_player (players st) (ref_ittf_id a) (ref_name a)
                   (ref_association a) now in
  let players := upsert_player players (ref_ittf_id x) (ref_name x)
                   (ref_association x) now in
  let a_id := opt_or_empty (ref_ittf_id a) in
  let x_id := opt_or_empty (ref_ittf_id x) in
  let has_a := truthy_opt (ref_ittf_id a) in
  let has_x := truthy_opt (ref_ittf_id x) in
  let index := player_match_index st in
  let '(players, index) :=
    if nonempty (match_id m) then
      let '(players, index) :=
        if has_a then (bump played players a_id, index_append index a_id (match_id m))
        else (players, index) in
      let '(players, index) :=
        if has_x then (bump played players x_id, index_append index x_id (match_id m))
        else (players, index) in
      let players :=
        match winner_inferred m with
        | Some w =>
            if (String.eqb w "A" && has_a && has_x)%bool
            then bump lost (bump won players a_id) x_id
            else if (String.eqb w "X" && has_a && has_x)%bool
            then bump lost (bump won players x_id) a_id
            else players
        | None => players
        end in
      (players, index)
    else (players, index) in
  Ok (mk_run (matches st ++ [m])%list players index (clock st + 1)).

(** The [for year in years] loop of [main]; on [Ok] the four JSON files
    are written from the final state, on [Raise] the exception leaves
    [main] and nothing is written. *)
Fixpoint main_years (net : Fabrik.server) (cfg : FabrikConfig)
    (years : list Z) (l : Fabrik.log) (st : run) : Fabrik.log * result run :=
  match years with
  | [] => (l, Ok st)
  | y :: ys =>
      match iter_fabrik_matches main_body net cfg y l st with
      | (l', Ok (st', _)) => main_years net cfg ys l' st'
      | (l', Raise e) => (l', Raise e)
      end
  end.

Definition main (net : Fabrik.server) (cfg : FabrikConfig) (years : list Z)
  : Fabrik.log * result run :=
  main_years net cfg years [] (mk_run [] [] [] 0).

(** The [for part in years_csv.split(",")] loop of [parse_years_arg]:
    blank parts are skipped, [int(part)] raising [ValueError] leaves the
    function. *)
Fixpoint years_loop (parts : list string) (years : list Z) : result (list Z) :=
  match parts with
  | [] => Ok years
  | part :: rest =>
      let part := strip part in
      if negb (nonempty part) then years_loop rest years
      else match int part with
           | Some y => years_loop rest (years ++ [y])%list
           | None => Raise (ValueError "invalid literal for int()")
           end
  end.

(** [set(years)]: every year once.  The order in which Python iterates a
    set plays no role, the set is sorted next. *)
Definition set_of (years : list Z) : list Z := nodup Z.eq_dec years.

(** [sorted(s, reverse=True)] on integers. *)
Fixpoint insort_desc (x : Z) (l : list Z) : list Z :=
  match l with
  | [] => [x]
  | y :: r => if y >? x then y :: insort_desc x r else x :: l
  end.

Definition sorted_reverse (l : list Z) : list Z := fold_right insort_desc [] l.

Definition parse_years_arg (years_csv : string) : result (list Z) :=
  let* years := years_loop (split_on "," years_csv) [] in
  Ok (sorted_reverse (set_of years)).

(** [list(range(start, stop, -1))]. *)
Definition range_down (start stop : Z) : list Z :=
  map (fun i => start - Z.of_nat i) (seq 0 (Z.to_nat (start - stop))).

(** The years [main] goes through, from its arguments [--years],
    [--start-year] and [--end-year]; [now_year] is the current year. *)
Definition years_of_args (years : option string) (start_year end_year : option Z)
    (now_year : Z) : result (list Z) :=
  if truthy_opt years then parse_years_arg (opt_or_empty years)
  else
    let start := match start_year with Some y => y | None => now_year end in
    let end_ := match end_year with Some y => y | None => now_year end in
    let '(start, end_) := if start <? end_ then (end_, start) else (start, end_) in
    Ok (range_down start (end_ - 1)).

End MasterScrape.

(* ================================================================== *)
(** * ITTF/WTT/scrapers/comprehensive_scraper.py                    *)
(* ================================================================== *)

Module ComprehensiveScraper.
Import Py.

(** [ITTFComprehensiveScraper.determine_player_gender]; [player_id] is
    not read. *)
Definition determine_player_gender (player_id event_code : string) : string :=
  if (startswith "MS" event_code || startswith "MD" event_code)%bool then "male"
  else if (startswith "WS" event_code || startswith "WD" event_code)%bool
  then "female"
  else if startswith "XD" event_code then "mixed"
  else "unknown".


(** One entry of the list [parse_game_scores] returns. *)
Record game : Type := mk_game {
  game_number : Z;
  player_score : Z;
  opponent_score : Z
}.

(** Body of [for i, game_str in enumerate(games_string.split())]: the
    index starts at 0 and the record stores [i + 1].  The unpacking of
    [game_str.split(":")] into two names and either [int()] raise
    [ValueError], which is caught. *)
Definition parse_step (games : list game) (it : Z * string) : list game :=
  let '(i, game_str) := it in
  if (negb (nonempty game_str) || negb (contains ":" game_str))%bool then games
  else
    match split_on ":" game_str with
    | [left_; right_] =>
        match int left_, int right_ with
        | Some player, Some opponent => (games ++ [mk_game (i + 1) player opponent])%list
        | _, _ => games
        end
    | _ => games
    end.

(** [parse_game_scores] on a string. *)
Definition parse_game_scores_str (games_string : string) : list game :=
  if negb (nonempty games_string) then []
  else fold_left parse_step (enumerate 0 (split (strip games_string))) [].

(** [parse_game_scores] on whatever the row holds: a false value gives no
    game, [.strip()] fails on a true value that is not a string. *)
Definition parse_game_scores (games_string : value) : result (list game) :=
  if negb (truthy games_string) then Ok []
  else match games_string with
       | VStr s => Ok (parse_game_scores_str s)
       | _ => Raise (AttributeError "strip")
       end.

(** The query parameters of [fetch_all_fabrik_matches_for_year] that vary:
    this scraper pages with [start]. *)
Record request : Type := mk_request {
  req_year : Z;
  req_limit : Z;
  req_start : Z
}.

(** The reply to the [n]-th request of the run. *)
Definition server : Type := nat -> request -> result Fabrik.payload.

(** The [while True] loop of [fetch_all_fabrik_matches_for_year], with the
    requests sent so far.  Whatever is raised inside the loop ends it, and
    so does a reply that is not a non-empty array; [limit] is 100.  [None]
    means the fuel ran out before the loop ended. *)
Fixpoint fetch_loop (fuel : nat) (net : server) (year : Z) (l : list request)
    (start : Z) (all_matches : list Fabrik.item)
  : option (list request * list Fabrik.item) :=
  match fuel with
  | O => None
  | S fuel' =>
      let q := mk_request year 100 start in
      let l' := (l ++ [q])%list in
      match net (List.length l) q with
      | Ok (Fabrik.Items (Fabrik.Arr inner :: _)) =>
          match inner with
          | [] => Some (l', all_matches)
          | _ :: _ =>
              fetch_loop fuel' net year l' (start + 100)
                (all_matches ++ map Fabrik.Obj inner)%list
          end
      | Ok (Fabrik.Items ((Fabrik.Obj _ :: _) as data)) =>
          fetch_loop fuel' net year l' (start + 100) (all_matches ++ data)%list
      | Ok (Fabrik.Items []) => Some (l', all_matches)
      | Ok Fabrik.NotAList => Some (l', all_matches)
      | Raise _ => Some (l', all_matches)
      end
  end.

End ComprehensiveScraper.

(* ================================================================== *)
(** * ITTF/WTT/scripts/wtt_ittf_scraper.py                          *)
(* ================================================================== *)

Module WttIttfScraper.
Import Py.

(** The platform the interpreter runs on, as far as [time.sleep] shows
    it: the longest pause, in seconds, that its sleep call accepts.  With
    CPython 3.11 on Linux a pause of 9223372035 seconds, which fits
    [_PyTime_t], is refused with [OSError: [Errno 22] Invalid argument]:
    the deadline, clock plus pause, no longer fits. *)
Class Platform : Type := { sleep_limit : Z }.

Section Retry.
(** The decoded JSON documents; their content plays no role here. *)
Context {json : Type} {os : Platform}.

(** What [_request_with_retry] reads of a [requests.Response]:
    [json_doc] is [None] when [response.json()] raises [ValueError]. *)
Record response : Type := mk_response {
  status_code : Z;
  retry_after : option string;
  json_doc : option json
}.

(** The outcome of the [attempt]-th [session.request] call (counted
    from 0): a response or an exception. *)
Definition exchange : Type := nat -> result response.

(** [except requests.RequestException]. *)
Definition is_request_exception (e : exn) : bool :=
  match e with RequestException _ => true | _ => false end.

(** [time.sleep(t)] for a whole number of seconds, as CPython has it.  The
    duration is first converted to [_PyTime_t], a signed 64-bit count of
    nanoseconds, and an [OverflowError] is raised when it does not fit;
    then a negative duration is a [ValueError]; then the pause is handed to
    the operating system, which refuses with an [OSError] what is beyond
    its limit.  The durations slept are appended to the trace. *)
Definition sleep (trace : list Z) (t : Z) : result (list Z) :=
  let ns := t * 10 ^ 9 in
  if ((ns <? - 2 ^ 63) || (2 ^ 63 - 1 <? ns))%bool
  then Raise (OverflowError "timestamp too large to convert to C _PyTime_t")
  else if t <? 0 then Raise (ValueError "sleep length must be non-negative")
  else if sleep_limit <? t then Raise (OSError "[Errno 22] Invalid argument")
  else Ok (trace ++ [t])%list.

(** [int(response.headers.get("Retry-After", 5))]. *)
Definition retry_after_seconds (r : response) : result Z :=
  match retry_after r with
  | None => Ok 5
  | Some h =>
      match int h with
      | Some z => Ok z
      | None => Raise (ValueError "invalid literal for int()")
      end
  end.

(** The [for attempt in range(max_retries)] loop, [n] attempts left.
    The result is the trace of sleeps and either the returned value
    ([None] on failure) or the exception that leaves the function. *)
Fixpoint attempts (n : nat) (attempt : nat) (net : exchange) (trace : list Z)
  : list Z * result (option json) :=
  match n with
  | O => (trace, Ok None)
  | S n' =>
      let backoff (trace : list Z) :=
        (* the [except requests.RequestException] clause *)
        match sleep trace (2 ^ Z.of_nat attempt) with
        | Ok trace' => attempts n' (S attempt) net trace'
        | Raise e => (trace, Raise e)
        end in
      match net attempt with
      | Raise e =>
          if is_request_exception e then backoff trace else (trace, Raise e)
      | Ok r =>
          if status_code r =? 429 then
            match retry_after_seconds r with
            | Raise e => (trace, Raise e)
            | Ok retry =>
                match sleep trace (retry * 2 ^ Z.of_nat attempt) with
                | Ok trace' => attempts n' (S attempt) net trace'
                | Raise e => (trace, Raise e)
                end
            end
          else if status_code r =? 200 then (trace, Ok (json_doc r))
          else if ((status_code r =? 401) || (status_code r =? 403)
                   || (status_code r =? 404))%bool
          then (trace, Ok None)
          else if ((500 <=? status_code r) && (status_code r <? 600))%bool
          then backoff trace
          else (trace, Ok None)
      end
  end.

(** [WTTRestScraper._request_with_retry]. *)
Definition request_with_retry (max_retries : Z) (net : exchange)
  : list Z * result (option json) :=
  attempts (Z.to_nat max_retries) 0 net [].

End Retry.
Arguments response json : clear implicits.
Arguments exchange json : clear implicits.

Section Rankings.
Context {os : Platform}.

(** The rankings document [get_player_rankings] receives: a JSON object,
    given by its "Result" member: absent, null, or an array of objects
    with scalar members. *)
Definition rankings_doc : Type := option (option (list row)).

(** [WTTRestScraper.get_player_rankings], with the pauses of the request. *)
Definition get_player_rankings (max_retries : Z) (net : exchange rankings_doc)
  : list Z * result (option (list row)) :=
  let '(trace, r) := request_with_retry max_retries net in
  (trace, let* data := r in
          Ok (match data with
              | Some (Some rankings) => rankings
              | _ => None
              end)).

(** [test_ittf_id]: (is_valid, player_name). *)
Definition test_ittf_id (max_retries : Z) (net : exchange rankings_doc)
  : list Z * result (bool * option value) :=
  let '(trace, r) := get_player_rankings max_retries net in
  (trace, let* rankings := r in
          Ok (match rankings with
              | Some (entry :: _) =>
                  (true, Some (get_or entry "PlayerName" (VStr "Unknown")))
              | _ => (false, None)
              end)).

(** The network during a batch: the exchange of the [k]-th call of
    [get_player_rankings] (counted from 0), made for a given id. *)
Definition network : Type := nat -> string -> exchange rankings_doc.

(** Body of [for i, ittf_id in enumerate(ittf_ids, 1)] in
    [batch_fetch_rankings], on the pauses so far and [results]; [delay]
    is in whole seconds.  Everything raised in the body, the pause
    included, ends in [results[ittf_id] = None]. *)
Definition batch_step (max_retries delay total : Z) (net : network)
    (acc : list Z * Dict.t string (option (list row))) (it : Z * string)
  : list Z * Dict.t string (option (list row)) :=
  let '(trace, results) := acc in
  let '(i, ittf_id) := it in
  let '(slept, r) :=
    get_player_rankings max_retries (net (Z.to_nat (i - 1)) ittf_id) in
  let trace := (trace ++ slept)%list in
  match r with
  | Raise _ => (trace, Dict.set String.eqb results ittf_id None)
  | Ok rankings =>
      let results := Dict.set String.eqb results ittf_id rankings in
      if i <? total then
        match sleep trace delay with
        | Ok trace' => (trace', results)
        | Raise _ => (trace, Dict.set String.eqb results ittf_id None)
        end
      else (trace, results)
  end.

Definition batch_fetch_rankings (max_retries delay : Z) (net : network)
    (ittf_ids : list string) : list Z * Dict.t string (option (list row)) :=
  fold_left
    (batch_step max_retries delay (Z.of_nat (List.length ittf_ids)) net)
    (enumerate 1 ittf_ids) ([], []).

(** [event_types[event_code] = event_types.get(event_code, 0) + 1]. *)
Definition count_event (event_types : Dict.t value Z) (entry : row)
  : Dict.t value Z :=
  let event_code := get_or entry "SubEventCode" (VStr "Unknown") in
  Dict.set Py.eqb event_types event_code
    (match Dict.get Py.eqb event_types event_code with
     | Some n => n
     | None => 0
     end + 1).

(** The "metadata" of [get_all_rankings], without the timestamp. *)
Record rankings_stats : Type := mk_rankings_stats {
  total_players : Z;
  players_with_rankings : Z;
  total_ranking_entries : Z;
  event_types : Dict.t value Z
}.

(** The loop over [rankings_data.items()]: a [None] or empty value is
    skipped. *)
Definition analyse (acc : Dict.t value Z * list row)
    (kv : string * option (list row)) : Dict.t value Z * list row :=
  match snd kv with
  | Some ((_ :: _) as rankings) =>
      fold_left
        (fun acc entry => (count_event (fst acc) entry, (snd acc ++ [entry])%list))
        rankings acc
  | _ => acc
  end.

Definition get_all_rankings (max_retries delay : Z) (net : network)
    (ittf_ids : list string)
  : rankings_stats * Dict.t string (option (list row)) :=
  let rankings_data := snd (batch_fetch_rankings max_retries delay net ittf_ids) in
  let '(event_types, all_entries) := fold_left analyse rankings_data ([], []) in
  (mk_rankings_stats
     (Z.of_nat (List.length ittf_ids))
     (Z.of_nat (List.length
                  (filter (fun kv => match snd kv with Some _ => true | None => false end)
                     rankings_data)))
     (Z.of_nat (List.length all_entries))
     event_types,
   rankings_data).

End Rankings.

End WttIttfScraper.

(* ================================================================== *)
(** * scrape_ttbl_enhanced.py                                       *)
(* ================================================================== *)

Module ScrapeTtblEnhanced.
Import Py.

Definition BASE_URL : string := "https://www.ttbl.de".
Definition API_ENDPOINT : string := (BASE_URL ++ "/api/internal/match")%string.
Definition SEASON : string := "2025-2026".
Definition NUM_GAMEDAYS : nat := 18.

(** The web: what [fetch_url(url)] returns or raises. *)
Definition web : Type := string -> result string.

Definition schedule_url (gameday : nat) : string :=
  (BASE_URL ++ "/bundesliga/gameschedule/" ++ SEASON ++ "/"
   ++ str_of_nat gameday ++ "/all")%string.

(** The gameday discovery loop.  [match_ids_of] stands for the two
    [re.findall] passes that pull the match ids out of a page; it cannot
    raise.  The call of [fetch_url] is not inside any [try]. *)
Fixpoint discover (match_ids_of : string -> list string) (net : web)
    (gamedays : list nat) (all_match_ids : list string)
  : result (list string) :=
  match gamedays with
  | [] => Ok all_match_ids
  | gameday :: rest =>
      let* html := net (schedule_url gameday) in
      discover match_ids_of net rest (all_match_ids ++ match_ids_of html)%list
  end.

Definition discover_all (match_ids_of : string -> list string) (net : web)
  : result (list string) :=
  discover match_ids_of net (seq 1 NUM_GAMEDAYS) [].

(** A game of a match document: an entry of "games" that is an object
    whose player members are missing, null ([None]) or objects.  "index",
    "gameState", "winnerSide" and the members of a player are scalars;
    an id that is an array or an object, which could not be a key of
    [player_stats], is outside the model. *)
Record game_obj : Type := mk_game_obj {
  g_index : value;
  g_gameState : value;
  g_winnerSide : value;
  g_homePlayer : option row;
  g_homeLeaguePlayer : option row;
  g_awayPlayer : option row;
  g_awayLeaguePlayer : option row
}.

(** How a value that the loop body takes for an object presents itself:
    [Object] when it is one, [NotObject] when it is null, a number, a
    string, a boolean or an array, on which [.get] raises AttributeError.
    A member read with [.get(key, {})] that is missing is an [Object]. *)
Inductive shape : Type := Object | NotObject.

(** An entry that [for game in games] meets.  [NoGame] is an entry on
    which the body raises AttributeError before it records anything:
    one that is not an object ([game.get]), or an object one of whose
    player members is true without being an object ([home_player.get],
    [away_player.get]). *)
Inductive game_entry : Type :=
| Game (game : game_obj)
| NoGame.

(** The decoded match document.  [md_shape] tells whether it is a JSON
    object at all (if not, the other fields play no role);
    [md_gameday_name] is the "name" of "gameday", "Unknown" by default.
    [md_games] is [None] when "games" is null, a number or a boolean, of
    which [len] raises TypeError; else it holds the entries gone
    through: those of an array, none when the member is missing; of a
    string or an object the characters or the keys, none of them a
    game. *)
Record match_data : Type := mk_match_data {
  md_shape : shape;
  md_homeTeam : shape;
  md_awayTeam : shape;
  md_gameday : shape;
  md_timeStamp : value;
  md_gameday_name : value;
  md_games : option (list game_entry);
  (* homePlayerOne/Two/Three, guestPlayerOne/Two/Three *)
  md_roster : list (option row)
}.

(** [json.loads(fetch_url(f"{API_ENDPOINT}/{match_id}"))]: [Raise] is
    what [fetch_url] or [json.loads] raises. *)
Definition api : Type := string -> result match_data.

Record player_tag : Type := mk_player_tag {
  tag_id : value;
  tag_name : string
}.

Record game_record : Type := mk_game_record {
  gr_matchId : string;
  gr_gameday : value;
  gr_timestamp : value;
  gr_gameIndex : value;
  gr_gameState : value;
  gr_winnerSide : value;
  gr_homePlayer : player_tag;
  gr_awayPlayer : player_tag
}.

(** An entry of [player_stats]. *)
Record stats : Type := mk_stats {
  id : value;
  name : string;
  gamesPlayed : Z;
  wins : Z;
  losses : Z;
  lastMatch : string
}.

(** [a or b or {}] on two optional objects: an empty object is false. *)
Definition obj_truthy (o : option row) : bool :=
  match o with Some (_ :: _) => true | _ => false end.

Definition pick_player (a b : option row) : row :=
  if obj_truthy a then match a with Some r => r | None => [] end
  else if obj_truthy b then match b with Some r => r | None => [] end
  else [].

Definition player_id_of (p : row) : value :=
  match p with [] => VNone | _ => get_none p "id" end.

Definition player_name_of (p : row) : string :=
  match p with
  | [] => "Unknown"
  | _ => strip (str (get_or p "firstName" (VStr "")) ++ " "
                ++ str (get_or p "lastName" (VStr "")))%string
  end.

(** The update of [player_stats] for one side of a finished game. *)
Definition record_game (player_stats : Dict.t value stats)
    (pid : value) (pname : string) (match_id : string) (won : bool)
  : Dict.t value stats :=
  if (truthy pid && negb (Py.eqb pid (VStr "null")))%bool then
    let player_stats :=
      if negb (Dict.mem Py.eqb player_stats pid)
      then Dict.set Py.eqb player_stats pid (mk_stats pid pname 0 0 0 match_id)
      else player_stats in
    match Dict.get Py.eqb player_stats pid with
    | Some s =>
        Dict.set Py.eqb player_stats pid
          (mk_stats (id s) (name s) (gamesPlayed s + 1)
             (if won then wins s + 1 else wins s)
             (if won then losses s else losses s + 1)
             match_id)
    | None => player_stats
    end
  else player_stats.

(** State of the match loop: the match files written, [player_stats],
    [games_data] and the matches whose handler ran. *)
Record state : Type := mk_state {
  files : Dict.t string match_data;
  player_stats : Dict.t value stats;
  games_data : list game_record;
  errors : list (string * exn)
}.

(** Body of [for game in games]. *)
Definition game_step (match_id : string) (md : match_data)
    (acc : Dict.t value stats * list game_record) (game : game_obj)
  : Dict.t value stats * list game_record :=
  let '(player_stats, games_data) := acc in
  let home_player := pick_player (g_homePlayer game) (g_homeLeaguePlayer game) in
  let away_player := pick_player (g_awayPlayer game) (g_awayLeaguePlayer game) in
  let home_player_id := player_id_of home_player in
  let away_player_id := player_id_of away_player in
  let home_player_name := player_name_of home_player in
  let away_player_name := player_name_of away_player in
  let games_data :=
    (games_data ++
     [mk_game_record match_id (md_gameday_name md) (md_timeStamp md)
        (g_index game) (g_gameState game) (g_winnerSide game)
        (mk_player_tag home_player_id home_player_name)
        (mk_player_tag away_player_id away_player_name)])%list in
  if Py.eqb (g_gameState game) (VStr "Finished") then
    let player_stats :=
      record_game player_stats home_player_id home_player_name match_id
        (Py.eqb (g_winnerSide game) (VStr "Home")) in
    let player_stats :=
      record_game player_stats away_player_id away_player_name match_id
        (Py.eqb (g_winnerSide game) (VStr "Away")) in
    (player_stats, games_data)
  else (player_stats, games_data).

(** [x.get(...)] on a value taken for an object. *)
Definition read (x : shape) : result unit :=
  match x with
  | Object => Ok tt
  | NotObject => Raise (AttributeError "get")
  end.

(** Lines 76-86, from [match_data.get("matchState")] to [len(games)]:
    the entries of "games", unless one of the reads raises. *)
Definition read_header (md : match_data) : result (list game_entry) :=
  let* _ := read (md_shape md) in
  let* _ := read (md_homeTeam md) in
  let* _ := read (md_awayTeam md) in
  let* _ := read (md_gameday md) in
  match md_games md with
  | Some games => Ok games
  | None => Raise (TypeError "len")
  end.

(** [for game in games]: what has been collected when the loop ends, and
    the exception that ended it, if one did. *)
Fixpoint games_loop (match_id : string) (md : match_data)
    (games : list game_entry) (acc : Dict.t value stats * list game_record)
  : Dict.t value stats * list game_record * option exn :=
  match games with
  | [] => (acc, None)
  | Game game :: rest =>
      games_loop match_id md rest (game_step match_id md acc game)
  | NoGame :: _ => (acc, Some (AttributeError "get"))
  end.

(** Body of [for i, match_id in enumerate(all_match_ids)]: the whole of
    it is inside [try: ... except Exception: ... continue].  The match
    file is written as soon as the document is decoded; an exception
    raised after that leaves the file, and what the games before it
    have added, in place. *)
Definition match_step (net : api) (st : state) (match_id : string) : state :=
  let handler (e : exn) := (errors st ++ [(match_id, e)])%list in
  match net match_id with
  | Raise e =>
      mk_state (files st) (player_stats st) (games_data st) (handler e)
  | Ok md =>
      let files := Dict.set String.eqb (files st) match_id md in
      match read_header md with
      | Raise e => mk_state files (player_stats st) (games_data st) (handler e)
      | Ok games =>
          let '(ps, gd, raised) :=
            games_loop match_id md games (player_stats st, games_data st) in
          mk_state files ps gd
            (match raised with Some e => handler e | None => errors st end)
      end
  end.

Definition match_loop (net : api) (all_match_ids : list string) (st : state)
  : state :=
  fold_left (match_step net) all_match_ids st.

Definition initial : state := mk_state [] [] [] [].

(** Binary64 arithmetic, as CPython's [float]. *)
Definition prec : Z := 53.
Definition emax : Z := 1024.

(** [float(n)]; exact for the counts that occur (below 2^53). *)
Definition float_of_Z (n : Z) : spec_float := binary_normalize prec emax n 0 false.

(** [int(x)] for a float: truncation towards zero. *)
Definition int_of_float (x : spec_float) : Z :=
  match x with
  | S754_finite s m e =>
      let a := if 0 <=? e then Z.pos m * 2 ^ e else Z.pos m / 2 ^ (- e) in
      if s then - a else a
  | _ => 0
  end.

(** [int(wins / gamesPlayed * 100)] when [gamesPlayed > 0], else 0.
    Python's [/] on two ints is the correctly rounded quotient, which for
    operands below 2^53 is the binary64 quotient of the converted
    operands. *)
Definition win_rate (wins gamesPlayed : Z) : Z :=
  if gamesPlayed >? 0 then
    int_of_float
      (SFmul prec emax
         (SFdiv prec emax (float_of_Z wins) (float_of_Z gamesPlayed))
         (float_of_Z 100))
  else 0.

(** An entry of [player_stats_final]: the copy with [winRate] added. *)
Record final : Type := mk_final {
  f_stats : stats;
  winRate : Z
}.

Definition with_win_rate (s : stats) : final :=
  mk_final s (win_rate (wins s) (gamesPlayed s)).

(** [l.sort(key=..., reverse=True)]: stable, largest key first. *)
Fixpoint insert_desc {A} (key : A -> Z) (x : A) (l : list A) : list A :=
  match l with
  | [] => [x]
  | y :: r => if key y >? key x then y :: insert_desc key x r else x :: l
  end.

Definition sort_desc {A} (key : A -> Z) (l : list A) : list A :=
  fold_right (insert_desc key) [] l.

(** The list dumped to stats/player_stats_final.json. *)
Definition player_stats_final (st : state) : list final :=
  sort_desc winRate (map with_win_rate (Dict.values (player_stats st))).

(** An entry of [all_players]. *)
Record roster_entry : Type := mk_roster_entry {
  re_id : value;
  re_firstName : value;
  re_lastName : value;
  re_imageUrl : value;
  re_matchId : string
}.

(** The entries one match file adds to [all_players]; the six
    [match_data.get] are outside any [try]. *)
Definition roster_of (match_id : string) (md : match_data)
  : result (list roster_entry) :=
  let* _ := read (md_shape md) in
  Ok (flat_map
        (fun p => match p with
                  | Some ((_ :: _) as r) =>
                      [mk_roster_entry (get_none r "id") (get_none r "firstName")
                         (get_none r "lastName") (get_none r "imageUrl") match_id]
                  | _ => []
                  end)
        (md_roster md)).

(** [all_players]: read back from the match files that exist. *)
Fixpoint all_players (files : Dict.t string match_data)
    (all_match_ids : list string) : result (list roster_entry) :=
  match all_match_ids with
  | [] => Ok []
  | match_id :: rest =>
      let* players :=
        match Dict.get String.eqb files match_id with
        | Some md => roster_of match_id md
        | None => Ok []
        end in
      let* more := all_players files rest in
      Ok (players ++ more)%list
  end.

(** The loop that fills [unique_players]. *)
Definition unique_step (unique_players : Dict.t value roster_entry)
    (player : roster_entry) : Dict.t value roster_entry :=
  if (truthy (re_id player)
      && negb (Dict.mem Py.eqb unique_players (re_id player)))%bool
  then Dict.set Py.eqb unique_players (re_id player) player
  else unique_players.

Definition unique_players (all_players : list roster_entry)
  : Dict.t value roster_entry :=
  fold_left unique_step all_players [].

(** [top_players]: the entries with at least five games, the first
    twenty of them. *)
Definition top_players (player_stats_final : list final) : list final :=
  firstn 20 (filter (fun p => gamesPlayed (f_stats p) >=? 5) player_stats_final).

End ScrapeTtblEnhanced.

(* ================================================================== *)
(** * Vocabulary of the statements                                  *)
(* ================================================================== *)

Section TokenSpec.
Import Py.

(** A token as [str.split()] delivers it: no blank in it, not empty. *)
Definition clean (t : string) : Prop :=
  existsb_str isspace t = false /\ nonempty t = true.

(** A token of the form a:b, with [a] and [b] integer literals. *)
Definition is_score (tok : string) (a b : Z) : Prop :=
  exists l r, tok = (l ++ String ":" r)%string /\ int l = Some a /\ int r = Some b.

(** What the specification asks of a parser: one record per valid token,
    in order, malformed tokens skipped, each record numbered by the
    position of its token, positions counted from [i]. *)
Inductive numbered : Z -> list string -> list (Z * Z * Z) -> Prop :=
| numbered_nil i : numbered i [] []
| numbered_valid i tok toks a b out :
    is_score tok a b -> numbered (i + 1) toks out ->
    numbered i (tok :: toks) ((i, a, b) :: out)
| numbered_skip i tok toks out :
    (forall a b, ~ is_score tok a b) -> numbered (i + 1) toks out ->
    numbered i (tok :: toks) out.

(** The same reading of a token, as a function. *)
Definition token_score (tok : string) : option (Z * Z) :=
  match split_once ":" tok with
  | (l, Some r) =>
      match int l, int r with
      | Some a, Some b => Some (a, b)
      | _, _ => None
      end
  | (_, None) => None
  end.

(** A game record as (game number, first score, second score). *)
Definition fabrik_triple (g : FabrikMatchScraper.game) : Z * Z * Z :=
  (FabrikMatchScraper.game_number g, FabrikMatchScraper.player_score g,
   FabrikMatchScraper.opponent_score g).

Definition collector_triple (g : ComprehensiveCollector.game) : Z * Z * Z :=
  (ComprehensiveCollector.game_number g, ComprehensiveCollector.player_score g,
   ComprehensiveCollector.opponent_score g).

Definition master_triple (g : MasterScrape.game) : Z * Z * Z :=
  (MasterScrape.game_number g, MasterScrape.a_points g, MasterScrape.x_points g).

End TokenSpec.

Section WinnerSpec.
Import Py MasterScrape.

(** Games won by each side, counted directly on the point pairs. *)
Definition games_won_a (games : list game) : Z :=
  Z.of_nat (List.length (filter (fun g => a_points g >? x_points g) games)).

Definition games_won_x (games : list game) : Z :=
  Z.of_nat (List.length (filter (fun g => x_points g >? a_points g) games)).

(** A match carries a player id when one of the two ids is a non-empty
    string. *)
Definition has_player_id (m : match_rec) : bool :=
  (truthy_opt (ref_ittf_id (player_a m)) || truthy_opt (ref_ittf_id (player_x m)))%bool.

End WinnerSpec.

Section WritesSpec.
Import Py.
Context {K V : Type} (eqb : K -> K -> bool).

(** A write that does not replace an existing entry. *)
Definition write_if_absent (d : Dict.t K V) (kv : K * V) : Dict.t K V :=
  if Dict.mem eqb d (fst kv) then d else Dict.set eqb d (fst kv) (snd kv).

(** The writes the [unique_players] loop attempts, in order. *)
Definition roster_writes (all_players : list ScrapeTtblEnhanced.roster_entry)
  : list (value * ScrapeTtblEnhanced.roster_entry) :=
  flat_map
    (fun p => if truthy (ScrapeTtblEnhanced.re_id p)
              then [(ScrapeTtblEnhanced.re_id p, p)] else [])
    all_players.

(** The writes [extract_player_ids] attempts for one match: player A,
    then the opponent when it has an id. *)
Definition match_writes (m : FabrikMatchScraper.Match) : list (string * value) :=
  (FabrikMatchScraper.player_id m, FabrikMatchScraper.player_name m)
  :: match FabrikMatchScraper.opponent_id m with
     | Some oid =>
         if nonempty oid then [(oid, FabrikMatchScraper.opponent_name m)] else []
     | None => []
     end.

(** What [upsert_player] leaves under an id that already had a record:
    every field keeps its value unless it was empty; only [last_seen]
    (and the source tag) is written again. *)
Definition merged (rec : MasterScrape.player) (name association : option string)
    (now : Z) : MasterScrape.player :=
  let nat :=
    if (truthy_opt association && negb (truthy_opt (MasterScrape.nationality rec)))%bool
    then association else MasterScrape.nationality rec in
  let '(first, last, full) :=
    if (truthy_opt name && negb (truthy_opt (MasterScrape.full_name rec)))%bool
    then MasterScrape.normalize_name (MasterScrape.opt_or_empty name)
    else (MasterScrape.first_name rec, MasterScrape.last_name rec,
          MasterScrape.full_name rec) in
  MasterScrape.mk_player (MasterScrape.ittf_id rec) first last full nat
    (MasterScrape.player_stats rec)
    (MasterScrape.set_add "fabrik_matches" (MasterScrape.sources rec)) now.

End WritesSpec.

Section DiscoverySpec.
Import Py ComprehensiveCollector.

(** [reaches net years l l' m]: scraping [years] in order from the log
    [l], every year before some year [y] returns no match and [y] returns
    the matches [m :: _], the log then being [l']. *)
Inductive reaches (net : Fabrik.server)
  : list Z -> Fabrik.log -> Fabrik.log -> Match -> Prop :=
| reaches_here y ys l l' m ms :
    scrape_matches_by_year net l y 200 = (l', Ok (m :: ms)) ->
    reaches net (y :: ys) l l' m
| reaches_later y ys l l1 l' m :
    scrape_matches_by_year net l y 200 = (l1, Ok []) ->
    reaches net ys l1 l' m ->
    reaches net (y :: ys) l l' m.

End DiscoverySpec.

Section PaginationSpec.
Import Py MasterScrape.

(** The id [iter_fabrik_matches] reads off a row. *)
Definition row_id (r : row) : string :=
  strip (str (get_or r "vw_matches___id" (VStr ""))).

(** The request for the [i]-th page after [offset]. *)
Definition page_request (cfg : FabrikConfig) (year offset : Z) (i : nat)
  : Fabrik.request :=
  Fabrik.mk_request year (page_size cfg)
    (Some (offset + Z.of_nat i * page_size cfg)).

(** Invariant of the de-duplication: [seen] holds exactly the ids of the
    rows yielded so far, each once and none empty. *)
Definition deduplicated (seen : list string) (yielded : list row) : Prop :=
  NoDup (map row_id yielded) /\
  Forall (fun r => nonempty (row_id r) = true) yielded /\
  (forall x, In x seen <-> In x (map row_id yielded)).

(** [f] on the list a loop returned, an exception left as it is. *)
Definition map_result {A B} (f : A -> B) (r : result (list A)) : result (list B) :=
  match r with Ok l => Ok (map f l) | Raise e => Raise e end.

End PaginationSpec.

Section RetrySpec.
Import Py WttIttfScraper.
Context {json : Type} {os : Platform}.

(** A pause [time.sleep] goes through with: not negative, and short
    enough for [_PyTime_t] and for the platform. *)
Definition sleeps (t : Z) : Prop :=
  0 <= t /\ t * 10 ^ 9 < 2 ^ 63 /\ t <= sleep_limit.

(** An outcome that makes [_request_with_retry] try again, with the
    number of seconds the backoff doubles from: a request exception or a
    5xx status (1 second), or a 429 whose Retry-After header is absent
    (5 seconds) or a non-negative integer. *)
Definition retryable (o : result (response json)) (base : Z) : Prop :=
  (exists msg, o = Raise (RequestException msg) /\ base = 1) \/
  (exists r, o = Ok r /\ 500 <= status_code r < 600 /\ base = 1) \/
  (exists r, o = Ok r /\ status_code r = 429 /\
             retry_after_seconds r = Ok base /\ 0 <= base).

(** An outcome that ends the request for good. *)
Definition terminal (o : result (response json)) : Prop :=
  exists r, o = Ok r /\
            (status_code r = 401 \/ status_code r = 403 \/ status_code r = 404).

(** The sleeps of successive retries from attempt [a] on. *)
Fixpoint backoff_waits (a : nat) (bases : list Z) : list Z :=
  match bases with
  | [] => []
  | b :: r => b * 2 ^ Z.of_nat a :: backoff_waits (S a) r
  end.

End RetrySpec.

Section FailureSpec.
Import Py.

(** The server that answers with an empty list where [net] fails. *)
Definition quiet (net : Fabrik.server) : Fabrik.server :=
  fun n q =>
    match net n q with
    | Raise _ => Ok (Fabrik.Items [])
    | reply => reply
    end.

(** The request [fetch_matches] sends for a year in the unpaginated
    loops. *)
Definition year_request (year : Z) : Fabrik.request :=
  Fabrik.mk_request year 100 None.

(** Every request of the log was answered. *)
Definition answered (net : Fabrik.server) (l : Fabrik.log) : Prop :=
  forall i q, nth_error l i = Some q -> exists p, net i q = Ok p.

(** The last request of the log raised [e], those before it were
    answered. *)
Definition failed_with (net : Fabrik.server) (l : Fabrik.log) (e : exn) : Prop :=
  exists l0 q, l = (l0 ++ [q])%list /\ answered net l0 /\
               net (List.length l0) q = Raise e.

(** A log and an outcome that fit: no request failed, unless the
    outcome is the exception of the last request. *)
Definition sound {A} (net : Fabrik.server) (l : Fabrik.log) (r : result A) : Prop :=
  match r with
  | Ok _ => answered net l
  | Raise e => answered net l \/ failed_with net l e
  end.

End FailureSpec.

Section StatsSpec.
Import Py ScrapeTtblEnhanced.

(** What the match loop has collected, apart from the list of failures. *)
Definition collected (st : state) :=
  (files st, player_stats st, games_data st).

(** The matches whose request succeeds. *)
Definition succeeds (net : api) (match_id : string) : bool :=
  match net match_id with Ok _ => true | Raise _ => false end.

(** Every game counted for a player is a win or a loss. *)
Definition balanced (s : stats) : Prop :=
  wins s + losses s = gamesPlayed s /\ 0 <= wins s /\ 0 <= losses s.

(** The figures of an entry of [player_stats_final]. *)
Definition summary (f : final) : Z * Z * Z * Z :=
  (gamesPlayed (f_stats f), wins (f_stats f), losses (f_stats f), winRate f).

(** How far the winRate computed in floating point is below the exact
    quotient. *)
Definition rate_gap (w g : nat) : Z :=
  100 * Z.of_nat w / Z.of_nat g - win_rate (Z.of_nat w) (Z.of_nat g).

(** The pairs (wins, games) of up to [n] games with a gap. *)
Definition rate_gaps (n : nat) : list (nat * nat) :=
  flat_map
    (fun g => flat_map
                (fun w => if rate_gap w g =? 0 then [] else [(w, g)])
                (seq 0 (S g)))
    (seq 1 n).

End StatsSpec.

Section ParserSpec.
Import Py.

Definition scraper_triple (g : ComprehensiveScraper.game) : Z * Z * Z :=
  (ComprehensiveScraper.game_number g, ComprehensiveScraper.player_score g,
   ComprehensiveScraper.opponent_score g).

(** The records of the valid tokens of [toks], numbered by position from
    [i]: the list that [numbered i toks] describes. *)
Fixpoint scores (i : Z) (toks : list string) : list (Z * Z * Z) :=
  match toks with
  | [] => []
  | tok :: rest =>
      match token_score tok with
      | Some (a, b) => (i, a, b) :: scores (i + 1) rest
      | None => scores (i + 1) rest
      end
  end.

(** A record with its game number raised by one. *)
Definition next_number (t : Z * Z * Z) : Z * Z * Z :=
  let '(n, a, b) := t in (n + 1, a, b).

End ParserSpec.

Section YearsSpec.
Import Py.

(** The parts of a [--years] argument that are not blank, stripped. *)
Definition year_parts (years_csv : string) : list string :=
  filter nonempty (map strip (split_on "," years_csv)).

(** A start or end year, the current year when the option is absent. *)
Definition year_or (o : option Z) (now_year : Z) : Z :=
  match o with Some y => y | None => now_year end.

End YearsSpec.

Section RowSpec.
Import Py MasterScrape.

(** A value [row_to_match] can strip: a string, or a false value, which
    it replaces by the empty string. *)
Definition textual (v : value) : bool :=
  match v with
  | VStr _ => true
  | _ => negb (truthy v)
  end.

(** The members of a row that [row_to_match] strips. *)
Definition text_fields : list string :=
  [ "vw_matches___name_a"; "vw_matches___name_x"; "vw_matches___assoc_a";
    "vw_matches___assoc_x"; "vw_matches___games_raw" ].

End RowSpec.

Section BooksSpec.
Import Py MasterScrape.

(** The match ids filed for a player in [player_match_index]. *)
Definition indexed (st : run) (id : string) : list string :=
  match Dict.get String.eqb (player_match_index st) id with
  | Some l => l
  | None => []
  end.

(** The books of [main] agree: a player has played as many matches as
    the index lists for the id, has at most that many wins and losses,
    and only a player with a record has an index entry. *)
Definition books_agree (st : run) : Prop :=
  forall id,
    match Dict.get String.eqb (players st) id with
    | Some p =>
        matches_played (player_stats p) = Z.of_nat (List.length (indexed st id)) /\
        0 <= wins (player_stats p) /\ 0 <= losses (player_stats p) /\
        wins (player_stats p) + losses (player_stats p)
        <= matches_played (player_stats p)
    | None => Dict.get String.eqb (player_match_index st) id = None
    end.

(** The statistics kept for an id. *)
Definition stats_of (players : Dict.t string player) (id : string) : option stats :=
  option_map player_stats (Dict.get String.eqb players id).

(** The sum of a figure over all the entries of a dictionary. *)
Definition dict_sum {K V} (m : V -> Z) (d : Dict.t K V) : Z :=
  fold_right Z.add 0 (map (fun kv => m (snd kv)) d).

Definition total_wins (st : run) : Z :=
  dict_sum (fun p => wins (player_stats p)) (players st).

Definition total_losses (st : run) : Z :=
  dict_sum (fun p => losses (player_stats p)) (players st).

End BooksSpec.

Section TtblSpec.
Import Py ScrapeTtblEnhanced.

(** The entries [top_players] chooses from. *)
Definition five_games (p : final) : bool := gamesPlayed (f_stats p) >=? 5.

Definition is_object (x : shape) : bool :=
  match x with Object => true | NotObject => false end.

Definition is_game (entry : game_entry) : bool :=
  match entry with Game _ => true | NoGame => false end.

(** The games at the head of a list of entries, up to the first entry
    that is no game. *)
Fixpoint leading_games (games : list game_entry) : list game_obj :=
  match games with
  | Game game :: rest => game :: leading_games rest
  | _ => []
  end.

(** A document whose head the loop body can read: an object whose
    "homeTeam", "awayTeam" and "gameday" are objects and whose "games"
    has a length. *)
Definition readable (md : match_data) : bool :=
  (is_object (md_shape md) && is_object (md_homeTeam md)
   && is_object (md_awayTeam md) && is_object (md_gameday md)
   && match md_games md with Some _ => true | None => false end)%bool.

(** A document as the loop body expects it: readable, and every entry
    of "games" a game. *)
Definition as_expected (md : match_data) : bool :=
  (readable md
   && match md_games md with
      | Some games => forallb is_game games
      | None => false
      end)%bool.

(** The games of a document that get recorded. *)
Definition recorded (md : match_data) : list game_obj :=
  match md_games md with
  | Some games => if readable md then leading_games games else []
  | None => []
  end.

(** The matches the loop body gets through without its handler: the
    request succeeds and the document is as expected. *)
Definition completes (net : api) (match_id : string) : bool :=
  match net match_id with Ok md => as_expected md | Raise _ => false end.

(** The match ids of the game records a match contributes: one for each
    game recorded when its request succeeds, none otherwise. *)
Definition game_ids (net : api) (match_id : string) : list string :=
  match net match_id with
  | Ok md => repeat match_id (List.length (recorded md))
  | Raise _ => []
  end.

(** The figures kept for a player: (gamesPlayed, wins, losses), all zero
    for a player without an entry. *)
Definition tally (player_stats : Dict.t value stats) (pid : value) : Z * Z * Z :=
  match Dict.get Py.eqb player_stats pid with
  | Some s => (gamesPlayed s, wins s, losses s)
  | None => (0, 0, 0)
  end.

(** An id under which statistics are kept. *)
Definition counted (pid : value) : bool :=
  (truthy pid && negb (Py.eqb pid (VStr "null")))%bool.

(** One more game, lost. *)
Definition one_loss (t : Z * Z * Z) : Z * Z * Z :=
  let '(g, w, l) := t in (g + 1, w, l + 1).

(** The ids of the two players of a game. *)
Definition home_id (game : game_obj) : value :=
  player_id_of (pick_player (g_homePlayer game) (g_homeLeaguePlayer game)).

Definition away_id (game : game_obj) : value :=
  player_id_of (pick_player (g_awayPlayer game) (g_awayLeaguePlayer game)).

End TtblSpec.

Section ArgsSpec.
Import Py.

(** The two options of fabrik_match_scraper.py. *)
Definition is_flag (arg : string) : bool :=
  (String.eqb arg "--year" || String.eqb arg "--max-matches")%bool.

(** The arguments [--year y] for each year of a list. *)
Definition year_args (years : list Z) : list string :=
  flat_map (fun y => ["--year"; str_of_Z y]) years.

End ArgsSpec.

Section RepeatSpec.
Import Py.

(** The number of passes after which [per_pass] new rows a pass reach
    [wanted] rows. *)
Definition passes (wanted : Z) (per_pass : nat) : nat :=
  Z.to_nat ((wanted + Z.of_nat per_pass - 1) / Z.of_nat per_pass).

(** An endpoint that holds [data] and honours [start] and [limit]. *)
Definition start_server (data : list row) : ComprehensiveScraper.server :=
  fun _ q =>
    Ok (Fabrik.Items
          (map Fabrik.Obj
             (firstn (Z.to_nat (ComprehensiveScraper.req_limit q))
                (skipn (Z.to_nat (ComprehensiveScraper.req_start q)) data)))).

(** The request for the [i]-th page of hundred rows. *)
Definition start_request (year : Z) (i : nat) : ComprehensiveScraper.request :=
  ComprehensiveScraper.mk_request year 100 (100 * Z.of_nat i).

End RepeatSpec.

Section ProfilesSpec.
Import Py ComprehensiveCollector.

(** The genders [build_player_from_rankings] can give a player. *)
Definition man_woman_or_none (p : profile) : Prop :=
  p_gender p = Some "M" \/ p_gender p = Some "W" \/ p_gender p = None.

(** The profile built last for an id. *)
Definition last_built (players : list profile) (id : string) : option profile :=
  find (fun p => String.eqb (p_ittf_id p) id) (rev players).

End ProfilesSpec.

Section BatchSpec.
Import Py WttIttfScraper.
Context {os : Platform}.



(** The ranking entries a batch holds. *)
Definition entries_of (data : Dict.t string (option (list row))) : list row :=
  flat_map (fun kv => match snd kv with Some l => l | None => [] end) data.

End BatchSpec.

(* ================================================================== *)
(** * Sample inputs                                                 *)
(* ================================================================== *)

Section Samples.
Import Py.

(** A Fabrik row with both player ids; side A wins three games to one. *)
Definition row_with_ids : row :=
  [ ("vw_matches___id", VStr "77");
    ("vw_matches___player_a_id", VStr "121404");
    ("vw_matches___player_x_id", VStr "112074");
    ("vw_matches___games_raw", VStr "11:5 9:11 11:7 11:8") ].

(** A row without player ids: side A won the only game. *)
Definition row_without_ids : row :=
  [ ("vw_matches___id", VStr "78");
    ("vw_matches___games_raw", VStr "11:5") ].

(** Two roster entries with the same player id. *)
Definition entry_first : ScrapeTtblEnhanced.roster_entry :=
  ScrapeTtblEnhanced.mk_roster_entry (VStr "p-17") (VStr "Timo") (VStr "Boll")
    VNone "match-1".

Definition entry_last : ScrapeTtblEnhanced.roster_entry :=
  ScrapeTtblEnhanced.mk_roster_entry (VStr "p-17") (VStr "T.") (VStr "Boll")
    (VStr "https://cdn.example/boll.png") "match-2".

(** Two matches of the same player A under two spellings. *)
Definition match_first : FabrikMatchScraper.Match :=
  FabrikMatchScraper.mk_Match "1" "121404" (VStr "WANG Chuqin") None (VStr "")
    (VStr "CHN") (VStr "") VNone VNone VNone VNone "2025" [] None false.

Definition match_last : FabrikMatchScraper.Match :=
  FabrikMatchScraper.mk_Match "2" "121404" (VStr "WANG C.") None (VStr "")
    (VStr "CHN") (VStr "") VNone VNone VNone VNone "2025" [] None false.

(** The same id upserted twice, with two names and two associations. *)
Definition upserted_twice : Dict.t string MasterScrape.player :=
  MasterScrape.upsert_player
    (MasterScrape.upsert_player [] (Some "121404") (Some "WANG Chuqin") (Some "CHN") 1)
    (Some "121404") (Some "WANG C.") (Some "PRC") 2.

(** A server with a single match for 2025 and none for 2024. *)
Definition one_match_server : Fabrik.server :=
  fun n q =>
    if ((Fabrik.req_year q =? 2025) && Nat.eqb n 1)%bool
    then Ok (Fabrik.Items
               [Fabrik.Obj [("vw_matches___id", VStr "9001");
                            ("vw_matches___player_a_id", VStr "121404");
                            ("vw_matches___name_a", VStr "WANG Chuqin");
                            ("vw_matches___games_raw", VStr "11:9 11:7 11:5")]])
    else Ok (Fabrik.Items []).

(** A well-behaved server: it holds [data] and answers every request
    with the page of [limit] rows that starts at [limitstart] (0 when the
    request carries none). *)
Definition paging_server (data : list row) : Fabrik.server :=
  fun _ q =>
    let start := match Fabrik.req_limitstart q with Some o => o | None => 0 end in
    Ok (Fabrik.Items
          (map Fabrik.Obj
             (firstn (Z.to_nat (Fabrik.req_limit q))
                (skipn (Z.to_nat start) data)))).

Definition two_rows : list row :=
  [ [("vw_matches___id", VStr "1"); ("vw_matches___games_raw", VStr "11:9")];
    [("vw_matches___id", VStr "2"); ("vw_matches___games_raw", VStr "9:11")] ].

(** The Fabrik endpoint refuses the first request. *)
Definition refusing_server : Fabrik.server :=
  fun n _ =>
    if Nat.eqb n 0 then Raise (RequestException "503 Server Error")
    else Ok (Fabrik.Items []).

(** The Fabrik endpoint answers the first request with one row and
    fails at the second. *)
Definition failing_second_page : Fabrik.server :=
  fun n _ =>
    if Nat.eqb n 1 then Raise (RequestException "504 Gateway Timeout")
    else Ok (Fabrik.Items [Fabrik.Obj [("vw_matches___id", VStr "1")]]).

(** A rate-limited reply whose Retry-After header is an HTTP date. *)
Definition rate_limited_until_date : WttIttfScraper.response unit :=
  WttIttfScraper.mk_response 429 (Some "Wed, 21 Oct 2015 07:28:00 GMT") None.

(** 429 without header, then 503, then 404. *)
Definition flaky_then_missing : WttIttfScraper.exchange unit :=
  fun attempt =>
    match attempt with
    | 0%nat => Ok (WttIttfScraper.mk_response 429 None None)
    | 1%nat => Ok (WttIttfScraper.mk_response 503 None None)
    | _ => Ok (WttIttfScraper.mk_response 404 None None)
    end.

(** A platform whose sleep call takes pauses of up to a year. *)
Definition a_platform : WttIttfScraper.Platform :=
  WttIttfScraper.Build_Platform 31536000.

(** A finished game of player p-17 on the home side. *)
Definition home_game (winner : string) : ScrapeTtblEnhanced.game_obj :=
  ScrapeTtblEnhanced.mk_game_obj (VInt 1) (VStr "Finished") (VStr winner)
    (Some [("id", VStr "p-17"); ("firstName", VStr "Timo"); ("lastName", VStr "Boll")])
    None None None.

(** One match document with fifty finished games of player p-17 on the
    home side, 29 of them won. *)
Definition fifty_games : ScrapeTtblEnhanced.match_data :=
  ScrapeTtblEnhanced.mk_match_data
    ScrapeTtblEnhanced.Object ScrapeTtblEnhanced.Object
    ScrapeTtblEnhanced.Object ScrapeTtblEnhanced.Object
    (VInt 0) (VStr "1. Spieltag")
    (Some (map ScrapeTtblEnhanced.Game
             (repeat (home_game "Home") 29 ++ repeat (home_game "Away") 21)%list))
    [].

(** The schedule pages answer, except the one of gameday 3. *)
Definition web_without_gameday_3 : ScrapeTtblEnhanced.web :=
  fun url =>
    if String.eqb url (ScrapeTtblEnhanced.schedule_url 3)
    then Raise (URLError "timed out")
    else Ok "<html></html>".

(** The match API answers for every match but m-2. *)
Definition api_without_m2 : ScrapeTtblEnhanced.api :=
  fun match_id =>
    if String.eqb match_id "m-2" then Raise (URLError "HTTP Error 500")
    else Ok (ScrapeTtblEnhanced.mk_match_data
               ScrapeTtblEnhanced.Object ScrapeTtblEnhanced.Object
               ScrapeTtblEnhanced.Object ScrapeTtblEnhanced.Object
               (VInt 0) (VStr "1. Spieltag") (Some []) []).

End Samples.

Section MoreSamples.
Import Py.

(** A walkover: the row carries no games. *)
Definition walkover_row : row :=
  [ ("vw_matches___id", VStr "79");
    ("vw_matches___player_a_id", VStr "121404");
    ("vw_matches___games_raw", VNone) ].

(** An endpoint whose only page holds the walkover. *)
Definition walkover_server : Fabrik.server :=
  fun _ _ => Ok (Fabrik.Items [Fabrik.Obj walkover_row]).

(** A row whose first name member is a number. *)
Definition numeric_name_row : row :=
  [ ("vw_matches___id", VStr "80");
    ("vw_matches___name_a", VInt 7) ].

(** A finished game between p-17 and p-23 without a winner side. *)
Definition undecided_game : ScrapeTtblEnhanced.game_obj :=
  ScrapeTtblEnhanced.mk_game_obj (VInt 2) (VStr "Finished") VNone
    (Some [("id", VStr "p-17"); ("firstName", VStr "Timo"); ("lastName", VStr "Boll")])
    None
    (Some [("id", VStr "p-23"); ("firstName", VStr "Dang"); ("lastName", VStr "Qiu")])
    None.

(** The match API fails for m-2 and answers m-3 with a document whose
    "homeTeam" is null; every document lists the undecided game twice. *)
Definition api_with_null_team : ScrapeTtblEnhanced.api :=
  fun match_id =>
    if String.eqb match_id "m-2" then Raise (URLError "HTTP Error 500")
    else Ok (ScrapeTtblEnhanced.mk_match_data
               ScrapeTtblEnhanced.Object
               (if String.eqb match_id "m-3" then ScrapeTtblEnhanced.NotObject
                else ScrapeTtblEnhanced.Object)
               ScrapeTtblEnhanced.Object ScrapeTtblEnhanced.Object
               (VInt 0) (VStr "1. Spieltag")
               (Some [ScrapeTtblEnhanced.Game undecided_game;
                      ScrapeTtblEnhanced.Game undecided_game])
               []).

(** A document whose "games" are the undecided game, null, and the
    undecided game again. *)
Definition half_read_match : ScrapeTtblEnhanced.match_data :=
  ScrapeTtblEnhanced.mk_match_data
    ScrapeTtblEnhanced.Object ScrapeTtblEnhanced.Object
    ScrapeTtblEnhanced.Object ScrapeTtblEnhanced.Object
    (VInt 0) (VStr "1. Spieltag")
    (Some [ScrapeTtblEnhanced.Game undecided_game; ScrapeTtblEnhanced.NoGame;
           ScrapeTtblEnhanced.Game undecided_game])
    [].

(** A rankings endpoint: the first reply lists a mixed doubles and a
    men's singles ranking, every later reply a single mixed doubles
    ranking under a shorter name. *)
Definition rankings_wtt : ComprehensiveCollector.wtt :=
  fun n _ =>
    Ok (ComprehensiveCollector.mk_reply 200
          (Some (ComprehensiveCollector.RObject
                   (Some (Some
                      (if Nat.eqb n 0
                       then [ [("PlayerName", VStr "WANG Chuqin");
                               ("CountryCode", VStr "CHN");
                               ("SubEventCode", VStr "XD")];
                              [("PlayerName", VStr "WANG Chuqin");
                               ("CountryCode", VStr "CHN");
                               ("SubEventCode", VStr "MS")] ]
                       else [ [("PlayerName", VStr "WANG C.");
                               ("CountryCode", VStr "CHN");
                               ("SubEventCode", VStr "XD")] ])))))).

(** The "players" array of a file that names one id twice. *)
Definition file_with_repeat : list row :=
  [ [("IttfId", VInt 121404)]; [("IttfId", VStr "121404")] ].

(** The rankings service during a batch: id 121404 has one ranking, any
    other id is answered with a rate limit until a date. *)
Definition rankings_network : WttIttfScraper.network :=
  fun _ id _ =>
    if String.eqb id "121404"
    then Ok (WttIttfScraper.mk_response 200 None
               (Some (Some (Some [[("PlayerName", VStr "WANG Chuqin");
                                   ("SubEventCode", VStr "MS")]]))))
    else Ok (WttIttfScraper.mk_response 429
               (Some "Wed, 21 Oct 2015 07:28:00 GMT") None).

(** An endpoint that answers every request with the same row. *)
Definition stuck_server : ComprehensiveScraper.server :=
  fun _ _ => Ok (Fabrik.Items [Fabrik.Obj [("vw_matches___id", VStr "1")]]).

End MoreSamples.

(* ================================================================== *)
(** * Facts about the builtins                                      *)
(* ================================================================== *)

Section PyFacts.
Import Py.

Ltac eval_digit :=
  match goal with
  | |- context [digit_val ?c] =>
      let v := eval vm_compute in (digit_val c) in
      change (digit_val c) with v; cbv iota
  end.

Lemma int_digits_pos_acc (d : Decimal.uint) (acc : positive) :
  int_digits (NilEmpty.string_of_uint d) (Z.pos acc) true
  = Some (Z.pos (Pos.of_uint_acc d acc)).
Proof.
  revert acc; induction d; intros acc;
    cbn [NilEmpty.string_of_uint int_digits Pos.of_uint_acc];
    try reflexivity; eval_digit; rewrite <- IHd; f_equal; lia.
Qed.

Lemma int_digits_uint (d : Decimal.uint) (prev : bool) :
  (d <> Decimal.Nil \/ prev = true) ->
  int_digits (NilEmpty.string_of_uint d) 0 prev = Some (Z.of_N (Pos.of_uint d)).
Proof.
  revert prev; induction d; intros prev H;
    cbn [NilEmpty.string_of_uint int_digits Pos.of_uint];
    try eval_digit;
    try (change (10 * 0 + 0) with 0);
    try exact (int_digits_pos_acc d _).
  - destruct H as [H | ->]; [congruence | reflexivity].
  - apply IHd; now right.
Qed.

Lemma lstrip_by_none p s : existsb_str p s = false -> lstrip_by p s = s.
Proof.
  destruct s as [|c r]; simpl; [reflexivity|].
  intros H; apply orb_false_iff in H as [-> _]; reflexivity.
Qed.

Lemma rstrip_by_none p s : existsb_str p s = false -> rstrip_by p s = s.
Proof.
  induction s as [|c r IH]; simpl; [reflexivity|].
  intros H; apply orb_false_iff in H as [Hc Hr].
  rewrite (IH Hr), Hc; destruct r; reflexivity.
Qed.

Lemma uint_no_int_space d :
  existsb_str int_space (NilEmpty.string_of_uint d) = false.
Proof. induction d; simpl; auto. Qed.

Lemma int_unsigned d :
  d <> Decimal.Nil ->
  int (NilEmpty.string_of_uint d) = Some (Z.of_N (Pos.of_uint d)).
Proof.
  intros Hd. rewrite <- (int_digits_uint d false) by now left.
  unfold int.
  rewrite (lstrip_by_none _ _ (uint_no_int_space d)).
  rewrite (rstrip_by_none _ _ (uint_no_int_space d)).
  destruct d; try reflexivity; congruence.
Qed.

Lemma int_negated d :
  d <> Decimal.Nil ->
  int (String "-" (NilEmpty.string_of_uint d))
  = Some (- Z.of_N (Pos.of_uint d)).
Proof.
  intros Hd. unfold int.
  assert (H : existsb_str int_space (String "-" (NilEmpty.string_of_uint d)) = false)
    by (simpl; apply uint_no_int_space).
  rewrite (lstrip_by_none _ _ H), (rstrip_by_none _ _ H).
  rewrite (int_digits_uint d false) by now left. reflexivity.
Qed.

Lemma string_of_uint_nonnil d :
  d <> Decimal.Nil -> NilZero.string_of_uint d = NilEmpty.string_of_uint d.
Proof. destruct d; congruence || reflexivity. Qed.

(** [int(str(n)) == n] for every integer. *)
Lemma int_str_of_Z (z : Z) : int (str_of_Z z) = Some z.
Proof.
  unfold str_of_Z. destruct z as [|p|p]; [reflexivity| |];
    cbn [Z.to_int NilZero.string_of_int];
    rewrite string_of_uint_nonnil by apply Unsigned.to_uint_nonnil.
  - rewrite int_unsigned by apply Unsigned.to_uint_nonnil.
    now rewrite Unsigned.of_to.
  - rewrite int_negated by apply Unsigned.to_uint_nonnil.
    now rewrite Unsigned.of_to.
Qed.

End PyFacts.

Section SplitFacts.
Import Py.

Lemma rstrip_by_head p c r c1 r1 :
  rstrip_by p (String c r) = String c1 r1 -> c1 = c.
Proof.
  simpl. destruct (rstrip_by p r); [destruct (p c)|]; congruence.
Qed.

Lemma split_lstrip s : split (lstrip_by isspace s) = split s.
Proof.
  induction s as [|c r IH]; [reflexivity|].
  cbn [lstrip_by]. destruct (isspace c) eqn:Hc; [|reflexivity].
  rewrite IH. cbn [split]. now rewrite Hc.
Qed.

Lemma split_cons c r :
  split (String c r)
  = if isspace c then split r
    else match r with
         | EmptyString => [String c EmptyString]
         | String c' _ =>
             if isspace c' then String c EmptyString :: split r
             else match split r with
                  | t :: ts => String c t :: ts
                  | [] => [String c EmptyString]
                  end
         end.
Proof. destruct r; reflexivity. Qed.

Lemma split_rstrip s : split (rstrip_by isspace s) = split s.
Proof.
  induction s as [|c r IH]; [reflexivity|].
  cbn [rstrip_by]. destruct (rstrip_by isspace r) as [|c1 r1] eqn:Hr.
  - (* the tail is blank *)
    change (split EmptyString) with (@nil string) in IH.
    rewrite (split_cons c r), <- IH.
    destruct (isspace c) eqn:Hc; [reflexivity|].
    rewrite (split_cons c EmptyString), Hc.
    destruct r as [|c' r2]; [reflexivity|].
    destruct (isspace c'); reflexivity.
  - destruct r as [|c' r2]; [discriminate|].
    assert (c1 = c') by (eapply rstrip_by_head; eassumption); subst c1.
    rewrite (split_cons c (String c' r1)), (split_cons c (String c' r2)).
    now rewrite IH.
Qed.

Lemma split_strip s : split (strip s) = split s.
Proof. unfold strip. now rewrite split_rstrip, split_lstrip. Qed.

Lemma split_clean s : Forall clean (split s).
Proof.
  induction s as [|c r IH]; [constructor|].
  cbn [split]. destruct (isspace c) eqn:Hc; [exact IH|].
  assert (Hone : clean (String c EmptyString))
    by (split; simpl; [now rewrite Hc | reflexivity]).
  destruct r as [|c' r2]; [now constructor|].
  destruct (isspace c') eqn:Hc'; [now constructor|].
  destruct (split (String c' r2)) as [|t ts]; [now constructor|].
  inversion IH as [|? ? [Ht _] Hts]; subst.
  constructor; [|exact Hts].
  split; simpl; [now rewrite Hc, Ht | reflexivity].
Qed.

Lemma strip_clean t : existsb_str isspace t = false -> strip t = t.
Proof.
  intros H. unfold strip.
  now rewrite (lstrip_by_none _ _ H), (rstrip_by_none _ _ H).
Qed.

Lemma split_nonempty_strip s : split s <> [] -> nonempty (strip s) = true.
Proof.
  intros H. destruct (strip s) eqn:E; [|reflexivity].
  exfalso; apply H. rewrite <- split_strip, E. reflexivity.
Qed.

Lemma lstrip_by_head p s c r : lstrip_by p s = String c r -> p c = false.
Proof.
  induction s as [|c0 s IH]; [discriminate|].
  cbn [lstrip_by]. destruct (p c0) eqn:E; [exact IH|].
  now intros [= <- _].
Qed.

(** A string that is not blank has a token: [parts[-1]] in
    [normalize_name] is always defined. *)
Lemma strip_nonempty_split s : nonempty (strip s) = true -> split s <> [].
Proof.
  rewrite <- split_strip. unfold strip.
  destruct (lstrip_by isspace s) as [|c r] eqn:L; [discriminate|].
  destruct (rstrip_by isspace (String c r)) as [|c' r'] eqn:R; [discriminate|].
  intros _. apply rstrip_by_head in R; subst c'.
  apply lstrip_by_head in L. rewrite split_cons, L.
  destruct r' as [|c1 r1]; [discriminate|].
  destruct (isspace c1); [discriminate|].
  now destruct (split (String c1 r1)).
Qed.

Lemma strip_nonempty s : nonempty (strip s) = true -> nonempty s = true.
Proof. destruct s; [discriminate | reflexivity]. Qed.

Lemma filter_nonempty_split s : filter nonempty (split s) = split s.
Proof.
  assert (H := split_clean s). induction H as [|t ts [_ Ht] _ IH];
    [reflexivity|]. simpl. now rewrite Ht, IH.
Qed.

Lemma isupper_any_isalpha s : isupper s = true -> any_isalpha s = true.
Proof.
  unfold isupper, any_isalpha. intros H.
  apply andb_true_iff in H as [H _].
  induction s as [|c r IH]; [discriminate|].
  cbn [existsb_str] in *. unfold c_isalpha at 1.
  destruct (c_isupper c); [reflexivity|]. cbn [orb] in H.
  rewrite (IH H). apply orb_true_r.
Qed.

Lemma or_none_nonempty s : nonempty s = true -> or_none s = Some s.
Proof. unfold or_none. now intros ->. Qed.

End SplitFacts.

(* ================================================================== *)
(** * Game-score parsing                                            *)
(* ================================================================== *)

Section ScoreTokens.
Import Py.

Lemma existsb_str_app p s t :
  existsb_str p (s ++ t)%string = (existsb_str p s || existsb_str p t)%bool.
Proof.
  induction s as [|c s IH]; [reflexivity|].
  cbn [String.append existsb_str]. now rewrite IH, orb_assoc.
Qed.

Lemma digit_not_colon c d : digit_val c = Some d -> Ascii.eqb ":" c = false.
Proof.
  destruct c as [[] [] [] [] [] [] [] []]; vm_compute; congruence.
Qed.

Lemma int_digits_no_colon s acc prev z :
  int_digits s acc prev = Some z -> contains ":" s = false.
Proof.
  unfold contains. revert acc prev; induction s as [|c s IH]; intros acc prev H;
    [reflexivity|].
  cbn [int_digits] in H. cbn [existsb_str].
  destruct (digit_val c) as [d|] eqn:Hd.
  - rewrite (digit_not_colon _ _ Hd). exact (IH _ _ H).
  - destruct (Ascii.eqb c "_") eqn:Hu; [|discriminate H].
    apply Ascii.eqb_eq in Hu; subst c.
    destruct prev; [|discriminate H]. exact (IH _ _ H).
Qed.

Lemma lstrip_keeps p ch s :
  p ch = false -> contains ch s = true -> contains ch (lstrip_by p s) = true.
Proof.
  unfold contains. intros Hp. induction s as [|c s IH]; [discriminate|].
  cbn [lstrip_by]. destruct (p c) eqn:Hc; [|trivial].
  cbn [existsb_str]. destruct (Ascii.eqb ch c) eqn:E; [|exact IH].
  apply Ascii.eqb_eq in E; subst c. congruence.
Qed.

Lemma rstrip_keeps p ch s :
  p ch = false -> contains ch s = true -> contains ch (rstrip_by p s) = true.
Proof.
  unfold contains. intros Hp. induction s as [|c s IH]; [discriminate|].
  cbn [rstrip_by existsb_str]. intros H.
  destruct (Ascii.eqb ch c) eqn:E.
  - apply Ascii.eqb_eq in E; subst c. rewrite Hp.
    destruct (rstrip_by p s); cbn [existsb_str]; now rewrite Ascii.eqb_refl.
  - cbn [orb] in H. specialize (IH H).
    destruct (rstrip_by p s); [discriminate IH|].
    cbn [existsb_str] in *. rewrite E. exact IH.
Qed.

(** A string [int()] accepts has no colon in it. *)
Lemma int_no_colon s z : int s = Some z -> contains ":" s = false.
Proof.
  intros H. destruct (contains ":" s) eqn:C; [|reflexivity]. exfalso.
  apply (lstrip_keeps int_space) in C; [|reflexivity].
  apply (rstrip_keeps int_space) in C; [|reflexivity].
  unfold int in H.
  destruct (rstrip_by int_space (lstrip_by int_space s)) as [|c r];
    [discriminate C|].
  assert (D : forall t acc prev y,
             int_digits t acc prev = Some y -> contains ":" t = true -> False)
    by (intros t acc prev y Ht Hc; rewrite (int_digits_no_colon _ _ _ _ Ht) in Hc;
        discriminate).
  destruct (Ascii.eqb c "+") eqn:Ep; [apply Ascii.eqb_eq in Ep; subst c|].
  { apply (D _ _ _ _ H). exact C. }
  destruct (Ascii.eqb c "-") eqn:Em; [apply Ascii.eqb_eq in Em; subst c|].
  { destruct (int_digits r 0 false) eqn:E; [|discriminate H].
    apply (D _ _ _ _ E). exact C. }
  assert (H' : int_digits (String c r) 0 false = Some z).
  { destruct c as [[] [] [] [] [] [] [] []]; try exact H;
      vm_compute in Ep, Em; discriminate. }
  exact (D _ _ _ _ H' C).
Qed.

Lemma split_once_none s : contains ":" s = false -> split_once ":" s = (s, None).
Proof.
  unfold contains. induction s as [|c s IH]; [reflexivity|].
  cbn [existsb_str split_once]. intros H. apply orb_false_iff in H as [Hc Hs].
  rewrite Ascii.eqb_sym, Hc, (IH Hs). reflexivity.
Qed.

Lemma split_once_app l r :
  contains ":" l = false -> split_once ":" (l ++ String ":" r) = (l, Some r).
Proof.
  unfold contains. induction l as [|c l IH]; [reflexivity|].
  cbn [existsb_str String.append split_once]. intros H.
  apply orb_false_iff in H as [Hc Hl].
  rewrite Ascii.eqb_sym, Hc, (IH Hl). reflexivity.
Qed.

Lemma split_once_inv s l r :
  split_once ":" s = (l, Some r) ->
  s = (l ++ String ":" r)%string /\ contains ":" l = false.
Proof.
  unfold contains. revert l; induction s as [|c s IH]; intros l H;
    [discriminate|].
  cbn [split_once] in H. destruct (Ascii.eqb c ":") eqn:E.
  - apply Ascii.eqb_eq in E; subst c. injection H as <- <-. now split.
  - destruct (split_once ":" s) as [l' o]. injection H as <- ->.
    destruct (IH l' eq_refl) as [-> Hl]. split; [reflexivity|].
    cbn [existsb_str]. now rewrite Ascii.eqb_sym, E.
Qed.

Lemma split_once_colon s :
  contains ":" s
  = match snd (split_once ":" s) with Some _ => true | None => false end.
Proof.
  unfold contains. induction s as [|c s IH]; [reflexivity|].
  cbn [existsb_str split_once]. rewrite Ascii.eqb_sym.
  destruct (Ascii.eqb c ":"); [reflexivity|].
  rewrite IH. now destruct (split_once ":" s).
Qed.

Lemma token_score_spec tok a b : token_score tok = Some (a, b) <-> is_score tok a b.
Proof.
  unfold token_score, is_score. split.
  - destruct (split_once ":" tok) as [l [r|]] eqn:E; [|discriminate].
    destruct (split_once_inv _ _ _ E) as [-> _].
    destruct (int l) eqn:El; [|discriminate].
    destruct (int r) eqn:Er; [|discriminate].
    intros [= <- <-]. now exists l, r.
  - intros (l & r & -> & Hl & Hr).
    rewrite (split_once_app l r (int_no_colon _ _ Hl)). now rewrite Hl, Hr.
Qed.

Lemma token_score_none tok :
  token_score tok = None -> forall a b, ~ is_score tok a b.
Proof. intros H a b Hs. apply token_score_spec in Hs. congruence. Qed.

(** [split(":")] against [split(":", 1)]. *)
Lemma split_on_head s :
  exists p ps, split_on ":" s = p :: ps.
Proof.
  destruct s as [|c s]; cbn; [now eexists _, _|].
  destruct (Ascii.eqb c ":"); [now eexists _, _|].
  destruct (split_on ":" s); now eexists _, _.
Qed.

Lemma split_on_once s :
  split_on ":" s
  = match split_once ":" s with
    | (l, Some r) => l :: split_on ":" r
    | (l, None) => [l]
    end.
Proof.
  induction s as [|c s IH]; [reflexivity|].
  cbn [split_on split_once]. destruct (Ascii.eqb c ":"); [reflexivity|].
  rewrite IH. now destruct (split_once ":" s) as [l [r|]].
Qed.

Lemma split_on_single s p :
  split_on ":" s = [p] -> s = p /\ contains ":" s = false.
Proof.
  unfold contains. revert p; induction s as [|c s IH]; intros p H.
  - injection H as <-. now split.
  - cbn [split_on] in H. cbn [existsb_str].
    destruct (Ascii.eqb c ":") eqn:E.
    + destruct (split_on_head s) as (q & qs & Hq). rewrite Hq in H. discriminate.
    + destruct (split_on ":" s) as [|q qs] eqn:Hq; [injection H as <-|].
      * destruct (split_on_head s) as (q & qs & Hq'). congruence.
      * injection H as <- ->. destruct (IH q eq_refl) as [-> Hs].
        split; [reflexivity|]. now rewrite Ascii.eqb_sym, E.
Qed.

Lemma split_on_none s : contains ":" s = false -> split_on ":" s = [s].
Proof. intros H. now rewrite split_on_once, (split_once_none _ H). Qed.

Lemma clean_parts l r :
  existsb_str isspace (l ++ String ":" r) = false ->
  strip l = l /\ strip r = r.
Proof.
  rewrite existsb_str_app. cbn [existsb_str]. intros H.
  apply orb_false_iff in H as [Hl H]. apply orb_false_iff in H as [_ Hr].
  split; now apply strip_clean.
Qed.

(** On a token without blanks the three loop bodies read the token as
    [token_score] does. *)
Lemma fabrik_step tok games i :
  clean tok ->
  FabrikMatchScraper.parse_step games (i, tok)
  = match token_score tok with
    | Some (a, b) => (games ++ [FabrikMatchScraper.mk_game i a b])%list
    | None => games
    end.
Proof.
  intros [Hb Hn]. unfold FabrikMatchScraper.parse_step, token_score.
  rewrite Hn. cbn [negb]. rewrite split_on_once.
  destruct (split_once ":" tok) as [l [r|]] eqn:E.
  - destruct (split_once_inv _ _ _ E) as [-> Hl].
    destruct (clean_parts _ _ Hb) as [Sl Sr].
    assert (C : contains ":" (l ++ String ":" r) = true).
    { unfold contains. rewrite existsb_str_app. cbn. apply orb_true_r. }
    rewrite C. destruct (contains ":" r) eqn:Cr.
    + (* a second colon: more than two parts, and [int] rejects [r] *)
      assert (int r = None) as ->.
      { destruct (int r) eqn:Er; [|reflexivity].
        rewrite (int_no_colon _ _ Er) in Cr. discriminate. }
      rewrite split_on_once.
      destruct (split_once ":" r) as [r1 [r2|]] eqn:Er.
      * destruct (split_on_head r2) as (q & qs & ->).
        now destruct (int l).
      * rewrite split_once_colon, Er in Cr. discriminate.
    + rewrite (split_on_none _ Cr), Sl, Sr.
      destruct (int l); [|reflexivity]. now destruct (int r).
  - assert (C : contains ":" tok = false).
    { now rewrite split_once_colon, E. }
    now rewrite C.
Qed.

Lemma collector_step tok games i :
  clean tok ->
  ComprehensiveCollector.parse_step games (i, tok)
  = match token_score tok with
    | Some (a, b) => (games ++ [ComprehensiveCollector.mk_game (i + 1) a b])%list
    | None => games
    end.
Proof.
  intros [Hb Hn]. unfold ComprehensiveCollector.parse_step, token_score.
  rewrite Hn. cbn [negb]. rewrite split_on_once.
  destruct (split_once ":" tok) as [l [r|]] eqn:E.
  - destruct (split_once_inv _ _ _ E) as [-> Hl].
    destruct (clean_parts _ _ Hb) as [Sl Sr].
    assert (C : contains ":" (l ++ String ":" r) = true).
    { unfold contains. rewrite existsb_str_app. cbn. apply orb_true_r. }
    rewrite C. destruct (contains ":" r) eqn:Cr.
    + assert (int r = None) as ->.
      { destruct (int r) eqn:Er; [|reflexivity].
        rewrite (int_no_colon _ _ Er) in Cr. discriminate. }
      rewrite split_on_once.
      destruct (split_once ":" r) as [r1 [r2|]] eqn:Er.
      * destruct (split_on_head r2) as (q & qs & ->).
        now destruct (int l).
      * rewrite split_once_colon, Er in Cr. discriminate.
    + rewrite (split_on_none _ Cr), Sl, Sr.
      destruct (int l); [|reflexivity]. now destruct (int r).
  - assert (C : contains ":" tok = false).
    { now rewrite split_once_colon, E. }
    now rewrite C.
Qed.

Lemma master_step tok games i :
  clean tok ->
  MasterScrape.parse_step games (i, tok)
  = match token_score tok with
    | Some (a, b) => (games ++ [MasterScrape.mk_game i a b])%list
    | None => games
    end.
Proof.
  intros [Hb Hn]. unfold MasterScrape.parse_step, token_score.
  rewrite split_once_colon.
  destruct (split_once ":" tok) as [l [r|]] eqn:E; [|reflexivity].
  cbn [snd negb].
  destruct (split_once_inv _ _ _ E) as [-> Hl].
  destruct (clean_parts _ _ Hb) as [-> ->].
  unfold MasterScrape.safe_int; cbn [str].
  destruct (int l); [|reflexivity]. now destruct (int r).
Qed.

(** A loop that reads each token as [token_score] does and numbers it
    [k] above its index produces the records [numbered] asks for. *)
Lemma fold_numbered {G} (step : list G -> Z * string -> list G)
    (mk : Z -> Z -> Z -> G) (triple : G -> Z * Z * Z) (k : Z) :
  (forall j a b, triple (mk j a b) = (j, a, b)) ->
  (forall tok games i, clean tok ->
     step games (i, tok)
     = match token_score tok with
       | Some (a, b) => (games ++ [mk (i + k) a b])%list
       | None => games
       end) ->
  forall toks i acc, Forall clean toks ->
    exists out, fold_left step (enumerate i toks) acc = (acc ++ out)%list /\
                numbered (i + k) toks (map triple out).
Proof.
  intros Hmk Hstep toks. induction toks as [|tok toks IH]; intros i acc Hc.
  - exists []. split; [now rewrite app_nil_r | constructor].
  - inversion Hc as [|? ? Ht Hts]; subst.
    cbn [enumerate fold_left]. rewrite (Hstep _ _ _ Ht).
    destruct (token_score tok) as [[a b]|] eqn:E.
    + destruct (IH (i + 1) (acc ++ [mk (i + k) a b])%list Hts) as (out & Ho & Hn).
      exists (mk (i + k) a b :: out). split.
      * now rewrite Ho, <- app_assoc.
      * cbn [map]. rewrite Hmk. constructor; [now apply token_score_spec|].
        now replace (i + k + 1) with (i + 1 + k) by lia.
    + destruct (IH (i + 1) acc Hts) as (out & Ho & Hn).
      exists out. split; [exact Ho|].
      apply numbered_skip; [now apply token_score_none|].
      now replace (i + k + 1) with (i + 1 + k) by lia.
Qed.

Lemma fabrik_step_0 tok games i :
  clean tok ->
  FabrikMatchScraper.parse_step games (i, tok)
  = match token_score tok with
    | Some (a, b) => (games ++ [FabrikMatchScraper.mk_game (i + 0) a b])%list
    | None => games
    end.
Proof. rewrite Z.add_0_r. apply fabrik_step. Qed.

Lemma master_step_0 tok games i :
  clean tok ->
  MasterScrape.parse_step games (i, tok)
  = match token_score tok with
    | Some (a, b) => (games ++ [MasterScrape.mk_game (i + 0) a b])%list
    | None => games
    end.
Proof. rewrite Z.add_0_r. apply master_step. Qed.

(** The parsers of fabrik_match_scraper.py and master_scrape.py do what
    C1 says, on every input: one record per valid token of the input, in
    order, malformed tokens skipped, numbered from 1 by position. *)
Theorem parsers_number_tokens_from_one (s : string) :
  numbered 1 (split s) (map fabrik_triple (FabrikMatchScraper.parse_game_scores s)) /\
  numbered 1 (split s) (map master_triple (MasterScrape.parse_games_str s)).
Proof.
  split.
  - unfold FabrikMatchScraper.parse_game_scores. rewrite split_strip.
    destruct (fold_numbered FabrikMatchScraper.parse_step
                FabrikMatchScraper.mk_game fabrik_triple 0
                (fun _ _ _ => eq_refl) fabrik_step_0
                (split s) 1 [] (split_clean s)) as (out & -> & Hn).
    exact Hn.
  - unfold MasterScrape.parse_games_str.
    destruct (nonempty (strip s)) eqn:Hs; cbn [negb].
    + rewrite split_strip.
      destruct (fold_numbered MasterScrape.parse_step
                  MasterScrape.mk_game master_triple 0
                  (fun _ _ _ => eq_refl) master_step_0
                  (split s) 1 [] (split_clean s)) as (out & -> & Hn).
      exact Hn.
    + destruct (strip s) eqn:E; [|discriminate].
      rewrite <- split_strip, E. constructor.
Qed.

(** [FabrikAPIClient.parse_game_scores] of comprehensive_collector.py
    produces the same records numbered from 2: every game number is one
    above the position of its token. *)
Theorem collector_numbers_tokens_from_two (s : string) :
  numbered 2 (split s)
    (map collector_triple (ComprehensiveCollector.parse_game_scores s)).
Proof.
  unfold ComprehensiveCollector.parse_game_scores. rewrite split_strip.
  destruct (fold_numbered ComprehensiveCollector.parse_step
              ComprehensiveCollector.mk_game collector_triple 1
              (fun _ _ _ => eq_refl) collector_step
              (split s) 1 [] (split_clean s)) as (out & -> & Hn).
  exact Hn.
Qed.

End ScoreTokens.

Section GameScores.
Import Py.

(** C1 fails on the code for [FabrikAPIClient.parse_game_scores] of
    comprehensive_collector.py: the tokens 11:9 and 8:11 stand at the
    1-based positions 1 and 2, its records carry the game numbers 2 and 3
    (the loop index starts at 1 and 1 is added again), while the two
    sibling parsers number them 1 and 2. *)
Theorem C1_collector_game_number_off_by_one :
  split "11:9 8:11" = ["11:9"; "8:11"] /\
  ComprehensiveCollector.parse_game_scores "11:9 8:11"
  = [ComprehensiveCollector.mk_game 2 11 9; ComprehensiveCollector.mk_game 3 8 11] /\
  FabrikMatchScraper.parse_game_scores "11:9 8:11"
  = [FabrikMatchScraper.mk_game 1 11 9; FabrikMatchScraper.mk_game 2 8 11] /\
  MasterScrape.parse_games (VStr "11:9 8:11")
  = Ok [MasterScrape.mk_game 1 11 9; MasterScrape.mk_game 2 8 11].
Proof. repeat split; vm_compute; reflexivity. Qed.

End GameScores.

(* ================================================================== *)
(** * Name normalisation                                            *)
(* ================================================================== *)

Section Names.
Import Py.

(** [normalize_name] on a single token. *)
Lemma normalize_name_single s t :
  split s = [t] ->
  MasterScrape.normalize_name s = (None, Some t, Some (strip s)).
Proof.
  intros H. unfold MasterScrape.normalize_name.
  rewrite split_nonempty_strip by (rewrite H; discriminate).
  cbn [negb]. rewrite split_strip, filter_nonempty_split, H. reflexivity.
Qed.

(** [normalize_name] on SURNAME Firstname with two different tokens. *)
Lemma normalize_name_pair s sn fn :
  split s = [sn; fn] -> isupper sn = true -> sn <> fn ->
  MasterScrape.normalize_name s = (Some fn, Some sn, Some (strip s)).
Proof.
  intros H Hup Hne. unfold MasterScrape.normalize_name.
  rewrite split_nonempty_strip by (rewrite H; discriminate).
  cbn [negb]. rewrite split_strip, filter_nonempty_split, H.
  assert (Hc := split_clean s). rewrite H in Hc.
  inversion Hc as [|? ? [_ Hsn] Hc']; subst.
  inversion Hc' as [|? ? [_ Hfn] _]; subst.
  cbn [filter]. rewrite Hup, (isupper_any_isalpha _ Hup). cbn [andb].
  rewrite String.eqb_refl. cbn [negb].
  assert (E : String.eqb fn sn = false)
    by (apply String.eqb_neq; congruence).
  destruct (isupper fn && any_isalpha fn)%bool;
    rewrite E; cbn [negb join]; now rewrite !or_none_nonempty.
Qed.

Lemma parse_player_name_single s t :
  split s = [t] ->
  ComprehensiveCollector.parse_player_name s = (Some t, None).
Proof.
  intros H. unfold ComprehensiveCollector.parse_player_name.
  rewrite strip_nonempty
    by (apply split_nonempty_strip; rewrite H; discriminate).
  cbn [negb]. now rewrite split_strip, H.
Qed.

Lemma parse_player_name_pair s sn fn :
  split s = [sn; fn] ->
  ComprehensiveCollector.parse_player_name s = (Some fn, Some sn).
Proof.
  intros H. unfold ComprehensiveCollector.parse_player_name.
  rewrite strip_nonempty
    by (apply split_nonempty_strip; rewrite H; discriminate).
  cbn [negb]. now rewrite split_strip, H.
Qed.

(** C2, as the code has it: on a two-token input SURNAME Firstname (the
    surname in capitals, the two tokens different) both normalisers give
    first = Firstname and last = SURNAME; on a single-token input
    [normalize_name] gives first = None and last = token, while
    [parse_player_name] gives first = token and last = None. *)
Theorem C2_name_normalizers (s2 sn fn s1 t : string) :
  split s2 = [sn; fn] -> isupper sn = true -> sn <> fn ->
  split s1 = [t] ->
  (MasterScrape.normalize_name s2 = (Some fn, Some sn, Some (strip s2)) /\
   ComprehensiveCollector.parse_player_name s2 = (Some fn, Some sn)) /\
  (MasterScrape.normalize_name s1 = (None, Some t, Some (strip s1)) /\
   ComprehensiveCollector.parse_player_name s1 = (Some t, None)).
Proof.
  intros H2 Hup Hne H1. repeat split.
  - now apply normalize_name_pair.
  - now apply parse_player_name_pair.
  - now apply normalize_name_single.
  - now apply parse_player_name_single.
Qed.

(** C2 at WANG Chuqin and at Madonna. *)
Lemma C2_name_normalizers_witness :
  (MasterScrape.normalize_name " WANG Chuqin "
     = (Some "Chuqin", Some "WANG", Some "WANG Chuqin") /\
   ComprehensiveCollector.parse_player_name " WANG Chuqin "
     = (Some "Chuqin", Some "WANG")) /\
  (MasterScrape.normalize_name "Madonna" = (None, Some "Madonna", Some "Madonna") /\
   ComprehensiveCollector.parse_player_name "Madonna" = (Some "Madonna", None)).
Proof.
  apply (C2_name_normalizers " WANG Chuqin " "WANG" "Chuqin" "Madonna" "Madonna");
    try reflexivity.
  intros H; discriminate H.
Defined.

(** C2 as stated fails: on a single token [parse_player_name] puts the
    token in the first name, and [normalize_name] loses the first name
    when it is spelled like the surname. *)
Lemma C2_counterexample :
  (split "Madonna" = ["Madonna"] /\
   ComprehensiveCollector.parse_player_name "Madonna" <> (None, Some "Madonna")) /\
  (split "LI LI" = ["LI"; "LI"] /\ isupper "LI" = true /\
   fst (fst (MasterScrape.normalize_name "LI LI")) <> Some "LI").
Proof.
  repeat split; try reflexivity; vm_compute; discriminate.
Qed.

End Names.

(* ================================================================== *)
(** * Winner inference (master_scrape.py)                           *)
(* ================================================================== *)

Section Winner.
Import Py MasterScrape.

Lemma safe_int_VInt z : safe_int (VInt z) = Some z.
Proof. unfold safe_int. cbn [str]. apply int_str_of_Z. Qed.

Lemma score_fold games a0 x0 :
  fold_left score_step games (a0, x0)
  = (a0 + games_won_a games, x0 + games_won_x games).
Proof.
  revert a0 x0; induction games as [|g gs IH]; intros a0 x0.
  - unfold games_won_a, games_won_x; simpl. f_equal; lia.
  - cbn [fold_left]. unfold score_step at 2. rewrite !safe_int_VInt.
    unfold games_won_a, games_won_x in *. cbn [filter].
    destruct (a_points g >? x_points g) eqn:Ha.
    + assert ((x_points g >? a_points g) = false) as -> by lia.
      rewrite IH. cbn [List.length]. f_equal; lia.
    + destruct (x_points g >? a_points g) eqn:Hx;
        rewrite IH; cbn [List.length]; f_equal; lia.
Qed.

Lemma compute_set_score_counts games :
  compute_set_score games = (games_won_a games, games_won_x games).
Proof. unfold compute_set_score. now rewrite score_fold. Qed.

Ltac unbind H :=
  match type of H with
  | Py.bind ?m _ = Ok _ =>
      let E := fresh "E" in
      destruct m eqn:E; cbn [Py.bind] in H; [|discriminate H]
  end.

Lemma row_to_match_winner r m :
  row_to_match r = Ok m ->
  final_sets m = (games_won_a (games m), games_won_x (games m)) /\
  winner_inferred m
  = inferred_winner (games_won_a (games m)) (games_won_x (games m))
      (ref_ittf_id (player_a m)) (ref_ittf_id (player_x m)).
Proof.
  unfold row_to_match. intros H.
  do 5 unbind H.
  rewrite compute_set_score_counts in H.
  injection H as <-. cbn. split; reflexivity.
Qed.

(** C3, as the code has it: for every row that [row_to_match] accepts,
    the set score counts the games each side won; when the row carries a
    player id the inferred winner is the side with strictly more games
    won and there is none on a tie; when the row carries no player id
    nothing is inferred, whatever the games say. *)
Theorem C3_winner_inference (r : row) (m : match_rec) :
  row_to_match r = Ok m ->
  let a := games_won_a (games m) in
  let x := games_won_x (games m) in
  final_sets m = (a, x) /\
  (has_player_id m = true -> a > x -> winner_inferred m = Some "A") /\
  (has_player_id m = true -> x > a -> winner_inferred m = Some "X") /\
  (a = x -> winner_inferred m = None) /\
  (has_player_id m = false -> winner_inferred m = None).
Proof.
  intros H a x. destruct (row_to_match_winner r m H) as [Hs Hw].
  split; [exact Hs|]. rewrite Hw. fold a x. unfold inferred_winner, has_player_id.
  repeat split.
  - intros -> Hgt. assert ((a =? x) = false) as -> by lia.
    assert ((a >? x) = true) as -> by lia. reflexivity.
  - intros -> Hgt. assert ((a =? x) = false) as -> by lia.
    assert ((a >? x) = false) as -> by lia. reflexivity.
  - intros ->. now rewrite Z.eqb_refl.
  - intros ->. now rewrite andb_false_r.
Qed.

(** C3 at a row with both ids and the games 11:5 9:11 11:7 11:8. *)
Lemma C3_winner_inference_witness :
  exists m, row_to_match row_with_ids = Ok m /\
            final_sets m = (3, 1) /\ winner_inferred m = Some "A".
Proof.
  destruct (row_to_match row_with_ids) as [m|e] eqn:E;
    [|vm_compute in E; discriminate E].
  exists m. split; [reflexivity|].
  destruct (C3_winner_inference row_with_ids m E) as (Hs & Ha & _).
  assert (Em : Ok m = row_to_match row_with_ids) by (symmetry; exact E).
  vm_compute in Em. injection Em as ->.
  split; [reflexivity|]. apply Ha; reflexivity.
Defined.

(** C3 as stated fails: side A won strictly more games, yet no winner is
    inferred, because of the guard on the player ids. *)
Lemma C3_counterexample :
  exists m, row_to_match row_without_ids = Ok m /\
            games m = [mk_game 1 11 5] /\
            compute_set_score (games m) = (1, 0) /\
            winner_inferred m = None.
Proof.
  exists (mk_match_rec "78" None VNone VNone VNone VNone false None None (1, 0)
            [mk_game 1 11 5] (mk_player_ref None None None)
            (mk_player_ref None None None)).
  repeat split; vm_compute; reflexivity.
Qed.

End Winner.

(* ================================================================== *)
(** * Failed requests                                               *)
(* ================================================================== *)

Section Failures.
Import Py.

Lemma match_step_failure net st match_id e :
  net match_id = Raise e ->
  ScrapeTtblEnhanced.match_step net st match_id
  = ScrapeTtblEnhanced.mk_state (ScrapeTtblEnhanced.files st)
      (ScrapeTtblEnhanced.player_stats st) (ScrapeTtblEnhanced.games_data st)
      (ScrapeTtblEnhanced.errors st ++ [(match_id, e)])%list.
Proof. unfold ScrapeTtblEnhanced.match_step. now intros ->. Qed.

Lemma match_step_collected net st1 st2 match_id :
  collected st1 = collected st2 ->
  collected (ScrapeTtblEnhanced.match_step net st1 match_id)
  = collected (ScrapeTtblEnhanced.match_step net st2 match_id).
Proof.
  unfold collected, ScrapeTtblEnhanced.match_step. intros [= Hf Hp Hg].
  destruct (net match_id) as [md|e]; cbn.
  - rewrite Hf, Hp, Hg.
    destruct (ScrapeTtblEnhanced.read_header md) as [games|e]; [|reflexivity].
    now destruct (ScrapeTtblEnhanced.games_loop _ _ _ _) as [[ps gd] raised].
  - now rewrite Hf, Hp, Hg.
Qed.

(** The match loop collects exactly what it would collect had the
    failing matches not been in the list. *)
Lemma match_loop_skips_failures net ids st1 st2 :
  collected st1 = collected st2 ->
  collected (ScrapeTtblEnhanced.match_loop net ids st1)
  = collected (ScrapeTtblEnhanced.match_loop net (filter (succeeds net) ids) st2).
Proof.
  unfold ScrapeTtblEnhanced.match_loop.
  revert st1 st2; induction ids as [|match_id ids IH]; intros st1 st2 H;
    [exact H|].
  cbn [fold_left filter]. unfold succeeds at 1.
  destruct (net match_id) as [md|e] eqn:E.
  - cbn [fold_left]. apply IH. now apply match_step_collected.
  - apply IH. rewrite (match_step_failure _ _ _ _ E). exact H.
Qed.

Lemma discover_raises f net days1 day days2 acc e :
  Forall (fun d => exists html, net (ScrapeTtblEnhanced.schedule_url d) = Ok html) days1 ->
  net (ScrapeTtblEnhanced.schedule_url day) = Raise e ->
  ScrapeTtblEnhanced.discover f net (days1 ++ day :: days2) acc = Raise e.
Proof.
  intros H He. revert acc; induction H as [|d days1 [html Hd] _ IH]; intros acc.
  - cbn [app ScrapeTtblEnhanced.discover]. now rewrite He.
  - cbn [app ScrapeTtblEnhanced.discover]. rewrite Hd.
    cbn [Py.bind]. apply IH.
Qed.

Lemma fetch_fabrik_page_raises net l cfg year offset e :
  net (List.length l)
    (Fabrik.mk_request year (MasterScrape.page_size cfg) (Some offset)) = Raise e ->
  MasterScrape.fetch_fabrik_page net l cfg year offset
  = ((l ++ [Fabrik.mk_request year (MasterScrape.page_size cfg) (Some offset)])%list,
     Raise e).
Proof.
  unfold MasterScrape.fetch_fabrik_page, Fabrik.send. now intros ->.
Qed.

Lemma fabrik_fetch_matches_quiet net l year limit :
  FabrikMatchScraper.fetch_matches (quiet net) l year limit
  = FabrikMatchScraper.fetch_matches net l year limit.
Proof.
  unfold FabrikMatchScraper.fetch_matches, Fabrik.send, quiet.
  now destruct (net (List.length l) _) as [[data|]|e].
Qed.

Lemma fabrik_scrape_loop_quiet fuel net year max_matches : forall l acc,
  FabrikMatchScraper.scrape_loop fuel (quiet net) year max_matches l acc
  = FabrikMatchScraper.scrape_loop fuel net year max_matches l acc.
Proof.
  induction fuel as [|fuel IH]; intros l acc;
    cbn [FabrikMatchScraper.scrape_loop]; [reflexivity|].
  rewrite fabrik_fetch_matches_quiet.
  destruct (FabrikMatchScraper.fetch_matches net l year 100) as [l' matches].
  destruct matches as [|it r]; [reflexivity|].
  destruct (FabrikMatchScraper.convert (it :: r) acc); [|reflexivity].
  now rewrite IH.
Qed.

Lemma fabrik_main_years_quiet net years max_matches : forall l saved,
  FabrikMatchScraper.main_years (quiet net) years max_matches l saved
  = FabrikMatchScraper.main_years net years max_matches l saved.
Proof.
  induction years as [|year rest IH]; intros l saved;
    cbn [FabrikMatchScraper.main_years]; [reflexivity|].
  unfold FabrikMatchScraper.scrape_year_and_save, FabrikMatchScraper.scrape_year.
  rewrite fabrik_scrape_loop_quiet.
  destruct (FabrikMatchScraper.scrape_loop _ net _ _ _ _) as [[l' [ms|e]]|];
    cbn [bind]; try reflexivity; apply IH.
Qed.

Lemma collector_fetch_matches_quiet net l year limit :
  ComprehensiveCollector.fetch_matches (quiet net) l year limit
  = ComprehensiveCollector.fetch_matches net l year limit.
Proof.
  unfold ComprehensiveCollector.fetch_matches, Fabrik.send, quiet.
  now destruct (net (List.length l) _) as [[data|]|e].
Qed.

Lemma collector_scrape_loop_quiet fuel net year max_matches : forall l acc,
  ComprehensiveCollector.scrape_loop fuel (quiet net) year max_matches l acc
  = ComprehensiveCollector.scrape_loop fuel net year max_matches l acc.
Proof.
  induction fuel as [|fuel IH]; intros l acc;
    cbn [ComprehensiveCollector.scrape_loop]; [reflexivity|].
  rewrite collector_fetch_matches_quiet.
  destruct (ComprehensiveCollector.fetch_matches net l year 100) as [l' matches].
  destruct matches as [|it r]; [reflexivity|].
  destruct (ComprehensiveCollector.convert (it :: r) acc); [|reflexivity].
  now rewrite IH.
Qed.

Lemma collector_years_quiet net years : forall l,
  (forall st, ComprehensiveCollector.discover_years (quiet net) years l st
              = ComprehensiveCollector.discover_years net years l st) /\
  (forall db, ComprehensiveCollector.scrape_years (quiet net) years l db
              = ComprehensiveCollector.scrape_years net years l db).
Proof.
  induction years as [|year rest IH]; intros l;
    cbn [ComprehensiveCollector.discover_years ComprehensiveCollector.scrape_years];
    [now split|].
  unfold ComprehensiveCollector.scrape_matches_by_year.
  rewrite !collector_scrape_loop_quiet.
  split; intros x.
  - destruct (ComprehensiveCollector.scrape_loop _ net _ _ _ _) as [[l' [ms|e]]|];
      try reflexivity.
    + destruct (ComprehensiveCollector.for_each _ ms x); [apply IH|reflexivity].
    + cbn [ComprehensiveCollector.for_each]. apply IH.
  - destruct (ComprehensiveCollector.scrape_loop _ net _ _ _ _) as [[l' [ms|e]]|];
      try reflexivity; apply IH.
Qed.

Lemma fabrik_scrape_loop_failure fuel net year max_matches l acc e :
  Z.of_nat (List.length acc) < max_matches ->
  net (List.length l) (year_request year) = Raise e ->
  FabrikMatchScraper.scrape_loop (S fuel) net year max_matches l acc
  = Some ((l ++ [year_request year])%list, Ok acc).
Proof.
  intros Hlt He. cbn [FabrikMatchScraper.scrape_loop].
  assert ((Z.of_nat (List.length acc) <? max_matches) = true) as -> by lia.
  unfold FabrikMatchScraper.fetch_matches, Fabrik.send.
  fold (year_request year). now rewrite He.
Qed.

Lemma collector_scrape_loop_failure fuel net year max_matches l acc e :
  Z.of_nat (List.length acc) < max_matches ->
  net (List.length l) (year_request year) = Raise e ->
  ComprehensiveCollector.scrape_loop (S fuel) net year max_matches l acc
  = Some ((l ++ [year_request year])%list, Ok acc).
Proof.
  intros Hlt He. cbn [ComprehensiveCollector.scrape_loop].
  assert ((Z.of_nat (List.length acc) <? max_matches) = true) as -> by lia.
  unfold ComprehensiveCollector.fetch_matches, Fabrik.send.
  fold (year_request year). now rewrite He.
Qed.

Lemma fabrik_main_years_failure net year rest max_matches l saved e :
  0 < max_matches ->
  net (List.length l) (year_request year) = Raise e ->
  FabrikMatchScraper.main_years net (year :: rest) max_matches l saved
  = FabrikMatchScraper.main_years net rest max_matches
      (l ++ [year_request year])%list
      (saved ++ [FabrikMatchScraper.mk_year_files year [] []])%list.
Proof.
  intros Hm He. cbn [FabrikMatchScraper.main_years].
  unfold FabrikMatchScraper.scrape_year_and_save, FabrikMatchScraper.scrape_year.
  destruct (Z.to_nat max_matches) as [|fuel] eqn:Ef; [lia|].
  rewrite (fabrik_scrape_loop_failure fuel net year max_matches l [] e);
    [reflexivity|cbn; lia|exact He].
Qed.

Lemma collector_years_failure net year rest l e :
  net (List.length l) (year_request year) = Raise e ->
  (forall st, ComprehensiveCollector.discover_years net (year :: rest) l st
              = ComprehensiveCollector.discover_years net rest
                  (l ++ [year_request year])%list st) /\
  (forall db, ComprehensiveCollector.scrape_years net (year :: rest) l db
              = ComprehensiveCollector.scrape_years net rest
                  (l ++ [year_request year])%list db).
Proof.
  intros He.
  cbn [ComprehensiveCollector.discover_years ComprehensiveCollector.scrape_years].
  unfold ComprehensiveCollector.scrape_matches_by_year.
  change (Z.to_nat 200) with (S 199). change (Z.to_nat 500) with (S 499).
  rewrite !(collector_scrape_loop_failure _ net year _ l [] e) by (cbn; lia || exact He).
  split; intros x; cbn [ComprehensiveCollector.for_each]; [reflexivity|].
  now rewrite app_nil_r.
Qed.

Lemma answered_snoc net l q p :
  answered net l -> net (List.length l) q = Ok p -> answered net (l ++ [q])%list.
Proof.
  intros Ha Hq i q' Hi.
  destruct (Nat.lt_ge_cases i (List.length l)) as [Hlt|Hge].
  - rewrite nth_error_app1 in Hi by exact Hlt. now apply Ha.
  - rewrite nth_error_app2 in Hi by exact Hge.
    destruct (i - List.length l)%nat as [|k] eqn:Ek.
    + cbn in Hi. injection Hi as <-. replace i with (List.length l) by lia.
      now exists p.
    + cbn in Hi. now destruct k.
Qed.

Lemma sound_failure {A} net l (r : result A) i q e :
  sound net l r -> nth_error l i = Some q -> net i q = Raise e ->
  r = Raise e /\ S i = List.length l.
Proof.
  intros Hs Hi He.
  assert (N : ~ answered net l).
  { intros Ha. destruct (Ha i q Hi) as [p Hp]. congruence. }
  destruct r as [a|e']; cbn [sound] in Hs; [contradiction|].
  destruct Hs as [Ha|(l0 & q0 & -> & Ha & H0)]; [contradiction|].
  destruct (Nat.lt_ge_cases i (List.length l0)) as [Hlt|Hge].
  - rewrite nth_error_app1 in Hi by exact Hlt.
    destruct (Ha i q Hi) as [p Hp]. congruence.
  - rewrite nth_error_app2 in Hi by exact Hge.
    destruct (i - List.length l0)%nat as [|k] eqn:Ek.
    + cbn in Hi. injection Hi as <-.
      replace i with (List.length l0) in He by lia.
      rewrite length_app. cbn [List.length]. split; [congruence|lia].
    + cbn in Hi. now destruct k.
Qed.

Lemma fetch_fabrik_page_sound net l cfg year offset :
  answered net l ->
  sound net (fst (MasterScrape.fetch_fabrik_page net l cfg year offset))
    (snd (MasterScrape.fetch_fabrik_page net l cfg year offset)).
Proof.
  intros Ha. unfold MasterScrape.fetch_fabrik_page, Fabrik.send.
  cbn [fst snd].
  destruct (net (List.length l) _) as [data|e] eqn:E; cbn [bind sound].
  - assert (H : answered net
                  (l ++ [Fabrik.mk_request year (MasterScrape.page_size cfg) (Some offset)])%list)
      by (eapply answered_snoc; eauto).
    destruct data as [[|[r|inner] [|]]|]; exact H.
  - right. now exists l, (Fabrik.mk_request year (MasterScrape.page_size cfg) (Some offset)).
Qed.

Lemma pages_sound {S} (body : S -> row -> result S) n net cfg year :
  forall l seen offset stagnant s,
  answered net l ->
  sound net (fst (MasterScrape.pages body n net cfg year l seen offset stagnant s))
    (snd (MasterScrape.pages body n net cfg year l seen offset stagnant s)).
Proof.
  induction n as [|n IH]; intros l seen offset stagnant s Ha;
    cbn [MasterScrape.pages]; [exact Ha|].
  pose proof (fetch_fabrik_page_sound net l cfg year offset Ha) as Hp.
  destruct (MasterScrape.fetch_fabrik_page net l cfg year offset) as [l' [rows|e]];
    cbn [fst snd] in Hp |- *; [|exact Hp].
  cbn [sound] in Hp.
  destruct rows as [|row rows]; [exact Hp|].
  destruct (MasterScrape.page_loop body (row :: rows) seen 0 s)
    as [[[seen' cnt] s']|e]; cbn [fst snd sound]; [|now left].
  destruct (_ >=? 2); [exact Hp|]. now apply IH.
Qed.

Lemma main_years_sound net cfg years : forall l st,
  answered net l ->
  sound net (fst (MasterScrape.main_years net cfg years l st))
    (snd (MasterScrape.main_years net cfg years l st)).
Proof.
  induction years as [|y ys IH]; intros l st Ha;
    cbn [MasterScrape.main_years]; [exact Ha|].
  unfold MasterScrape.iter_fabrik_matches.
  pose proof (pages_sound MasterScrape.main_body
                (Z.to_nat (MasterScrape.max_pages_per_year cfg)) net cfg y l [] 0 0 st Ha)
    as Hp.
  destruct (MasterScrape.pages _ _ _ _ _ _ _ _ _ _) as [l' [[st' why]|e]];
    cbn [fst snd] in Hp |- *; [|exact Hp].
  now apply IH.
Qed.

Lemma main_failure (net : Fabrik.server) cfg years i q e :
  nth_error (fst (MasterScrape.main net cfg years)) i = Some q ->
  net i q = Raise e ->
  snd (MasterScrape.main net cfg years) = Raise e /\
  S i = List.length (fst (MasterScrape.main net cfg years)).
Proof.
  apply sound_failure. unfold MasterScrape.main. apply main_years_sound.
  intros j q' Hj. now destruct j.
Qed.

(** C4, as the code has it.  Where the request sits in a catch-all
    handler, a failure is recorded and counts as no data: the match loop
    of scrape_ttbl_enhanced.py leaves what it has collected untouched,
    notes the failure and goes on, and [fetch_matches] (both copies)
    returns an empty list, on which the [while] loop of the year ends
    with the matches it has and the loops over the years go on to the
    next year; all in all these loops run as they would had the server
    answered every failed request with an empty list.  Where there is no
    handler, the exception leaves the loop: the gameday discovery loop
    stops at the first gameday whose request fails, and in
    master_scrape.py the exception of any request [fetch_fabrik_page]
    sends leaves [iter_fabrik_matches] and [main]: it is the outcome of
    the run and no request follows. *)
Theorem C4_failed_requests :
  (forall net ids st,
     collected (ScrapeTtblEnhanced.match_loop net ids st)
     = collected (ScrapeTtblEnhanced.match_loop net (filter (succeeds net) ids) st)) /\
  (forall net st match_id e,
     net match_id = Raise e ->
     collected (ScrapeTtblEnhanced.match_step net st match_id) = collected st /\
     ScrapeTtblEnhanced.errors (ScrapeTtblEnhanced.match_step net st match_id)
     = (ScrapeTtblEnhanced.errors st ++ [(match_id, e)])%list) /\
  (forall (net : Fabrik.server) l year limit e,
     net (List.length l) (Fabrik.mk_request year limit None) = Raise e ->
     snd (FabrikMatchScraper.fetch_matches net l year limit) = [] /\
     snd (ComprehensiveCollector.fetch_matches net l year limit) = []) /\
  (forall f net days1 day days2 acc e,
     Forall (fun d => exists html, net (ScrapeTtblEnhanced.schedule_url d) = Ok html)
       days1 ->
     net (ScrapeTtblEnhanced.schedule_url day) = Raise e ->
     ScrapeTtblEnhanced.discover f net (days1 ++ day :: days2) acc = Raise e) /\
  (forall (net : Fabrik.server) cfg year years e,
     0 < MasterScrape.max_pages_per_year cfg ->
     net 0%nat (Fabrik.mk_request year (MasterScrape.page_size cfg) (Some 0)) = Raise e ->
     snd (MasterScrape.main net cfg (year :: years)) = Raise e) /\
  (forall (net : Fabrik.server) fuel year max_matches l e,
     net (List.length l) (year_request year) = Raise e ->
     (forall acc,
        Z.of_nat (List.length acc) < max_matches ->
        FabrikMatchScraper.scrape_loop (S fuel) net year max_matches l acc
        = Some ((l ++ [year_request year])%list, Ok acc)) /\
     (forall acc,
        Z.of_nat (List.length acc) < max_matches ->
        ComprehensiveCollector.scrape_loop (S fuel) net year max_matches l acc
        = Some ((l ++ [year_request year])%list, Ok acc))) /\
  (forall (net : Fabrik.server) year rest l e,
     net (List.length l) (year_request year) = Raise e ->
     (forall max_matches saved,
        0 < max_matches ->
        FabrikMatchScraper.main_years net (year :: rest) max_matches l saved
        = FabrikMatchScraper.main_years net rest max_matches
            (l ++ [year_request year])%list
            (saved ++ [FabrikMatchScraper.mk_year_files year [] []])%list) /\
     (forall st,
        ComprehensiveCollector.discover_years net (year :: rest) l st
        = ComprehensiveCollector.discover_years net rest
            (l ++ [year_request year])%list st) /\
     (forall matches_db,
        ComprehensiveCollector.scrape_years net (year :: rest) l matches_db
        = ComprehensiveCollector.scrape_years net rest
            (l ++ [year_request year])%list matches_db)) /\
  (forall (net : Fabrik.server) years l,
     (forall max_matches saved,
        FabrikMatchScraper.main_years net years max_matches l saved
        = FabrikMatchScraper.main_years (quiet net) years max_matches l saved) /\
     (forall st,
        ComprehensiveCollector.discover_years net years l st
        = ComprehensiveCollector.discover_years (quiet net) years l st) /\
     (forall matches_db,
        ComprehensiveCollector.scrape_years net years l matches_db
        = ComprehensiveCollector.scrape_years (quiet net) years l matches_db)) /\
  (forall (net : Fabrik.server) cfg years i q e,
     nth_error (fst (MasterScrape.main net cfg years)) i = Some q ->
     net i q = Raise e ->
     snd (MasterScrape.main net cfg years) = Raise e /\
     S i = List.length (fst (MasterScrape.main net cfg years))).
Proof.
  split; [|split; [|split; [|split; [|split; [|split; [|split; [|split]]]]]]].
  - intros net ids st. now apply match_loop_skips_failures.
  - intros net st match_id e H. now rewrite (match_step_failure _ _ _ _ H).
  - intros net l year limit e H.
    unfold FabrikMatchScraper.fetch_matches, ComprehensiveCollector.fetch_matches,
      Fabrik.send. now rewrite H.
  - intros. now apply discover_raises.
  - intros net cfg year years e Hp H.
    unfold MasterScrape.main. cbn [MasterScrape.main_years].
    unfold MasterScrape.iter_fabrik_matches.
    destruct (Z.to_nat (MasterScrape.max_pages_per_year cfg)) as [|n] eqn:En; [lia|].
    cbn [MasterScrape.pages].
    now rewrite (fetch_fabrik_page_raises net [] cfg year 0 e H).
  - intros net fuel year max_matches l e H. split; intros acc Hlt.
    + now apply (fabrik_scrape_loop_failure fuel net year max_matches l acc e).
    + now apply (collector_scrape_loop_failure fuel net year max_matches l acc e).
  - intros net year rest l e H. split; [|exact (collector_years_failure net year rest l e H)].
    intros max_matches saved Hm.
    now apply (fabrik_main_years_failure net year rest max_matches l saved e).
  - intros net years l. split; [|split].
    + intros max_matches saved. symmetry. apply fabrik_main_years_quiet.
    + intros st. symmetry. apply collector_years_quiet.
    + intros db. symmetry. apply collector_years_quiet.
  - intros net cfg years i q e. apply main_failure.
Qed.

(** C4 at three matches of which the second fails, at a refusing Fabrik
    endpoint, at a schedule whose third gameday fails, and at an endpoint
    that fails for the first of two years and for the second page of a
    year. *)
Lemma C4_failed_requests_witness :
  map fst (ScrapeTtblEnhanced.files
             (ScrapeTtblEnhanced.match_loop api_without_m2 ["m-1"; "m-2"; "m-3"]
                ScrapeTtblEnhanced.initial))
  = ["m-1"; "m-3"] /\
  snd (FabrikMatchScraper.fetch_matches refusing_server [] 2025 100) = [] /\
  ScrapeTtblEnhanced.discover_all (fun _ => []) web_without_gameday_3
  = Raise (URLError "timed out") /\
  snd (MasterScrape.main refusing_server MasterScrape.default_config [2025; 2024])
  = Raise (RequestException "503 Server Error") /\
  FabrikMatchScraper.main_years refusing_server [2025; 2024] 1000 [] []
  = FabrikMatchScraper.main_years refusing_server [2024] 1000 [year_request 2025]
      [FabrikMatchScraper.mk_year_files 2025 [] []] /\
  snd (MasterScrape.main failing_second_page (MasterScrape.mk_FabrikConfig 1 500) [2025; 2024])
  = Raise (RequestException "504 Gateway Timeout").
Proof.
  destruct C4_failed_requests as (H1 & _ & H3 & H4 & H5 & _ & H7 & _ & H9).
  split.
  { change (map fst (fst (fst (collected
              (ScrapeTtblEnhanced.match_loop api_without_m2 ["m-1"; "m-2"; "m-3"]
                 ScrapeTtblEnhanced.initial)))) = ["m-1"; "m-3"]).
    rewrite H1. reflexivity. }
  split.
  { apply (H3 refusing_server [] 2025 100 (RequestException "503 Server Error")).
    reflexivity. }
  split.
  { apply (H4 (fun _ => []) web_without_gameday_3 [1; 2]%nat 3%nat
             (seq 4 15) [] (URLError "timed out")).
    - repeat constructor; exists "<html></html>"; reflexivity.
    - reflexivity. }
  split.
  { apply (H5 refusing_server MasterScrape.default_config 2025 [2024]
             (RequestException "503 Server Error")); reflexivity. }
  split.
  { destruct (H7 refusing_server 2025 [2024] []
                (RequestException "503 Server Error") eq_refl) as (G & _ & _).
    apply (G 1000 []). lia. }
  apply (H9 failing_second_page (MasterScrape.mk_FabrikConfig 1 500) [2025; 2024] 1%nat
            (Fabrik.mk_request 2025 1 (Some 1))
            (RequestException "504 Gateway Timeout")); reflexivity.
Defined.

(** C4 as stated fails: one failed request ends the gameday discovery of
    scrape_ttbl_enhanced.py, and one failed page request ends
    master_scrape's whole run; neither is caught. *)
Lemma C4_counterexample :
  (web_without_gameday_3 (ScrapeTtblEnhanced.schedule_url 4) = Ok "<html></html>" /\
   ScrapeTtblEnhanced.discover_all (fun _ => []) web_without_gameday_3
   = Raise (URLError "timed out")) /\
  (refusing_server 1%nat (Fabrik.mk_request 2024 500 (Some 0)) = Ok (Fabrik.Items []) /\
   MasterScrape.main refusing_server MasterScrape.default_config [2025; 2024]
   = ([Fabrik.mk_request 2025 500 (Some 0)],
      Raise (RequestException "503 Server Error"))).
Proof. repeat split; vm_compute; reflexivity. Qed.

End Failures.

(* ================================================================== *)
(** * Retry with backoff (wtt_ittf_scraper.py)                      *)
(* ================================================================== *)

Section RetryGeneral.
Import Py WttIttfScraper.
Context {json : Type} {os : Platform}.

Lemma sleep_ok trace t : sleeps t -> sleep trace t = Ok (trace ++ [t])%list.
Proof.
  unfold sleep, sleeps. intros (H0 & H1 & H2).
  assert ((t * 10 ^ 9 <? - 2 ^ 63) = false) as -> by lia.
  assert ((2 ^ 63 - 1 <? t * 10 ^ 9) = false) as -> by lia.
  assert ((t <? 0) = false) as -> by lia.
  now assert ((sleep_limit <? t) = false) as -> by lia.
Qed.

Lemma attempts_retry n a (net : exchange json) trace base :
  retryable (net a) base -> sleeps (base * 2 ^ Z.of_nat a) ->
  attempts (S n) a net trace
  = attempts n (S a) net (trace ++ [base * 2 ^ Z.of_nat a])%list.
Proof.
  intros [(msg & E & ->) | [(r & E & Hs & ->) | (r & E & Hs & Hr & Hb)]] Hw;
    cbn [attempts]; rewrite E.
  - cbn [is_request_exception]. rewrite Z.mul_1_l in *. now rewrite sleep_ok.
  - assert ((status_code r =? 429) = false) as -> by lia.
    assert ((status_code r =? 200) = false) as -> by lia.
    assert ((status_code r =? 401) = false) as -> by lia.
    assert ((status_code r =? 403) = false) as -> by lia.
    assert ((status_code r =? 404) = false) as -> by lia.
    assert ((500 <=? status_code r) = true) as -> by lia.
    assert ((status_code r <? 600) = true) as -> by lia.
    cbn [orb andb]. rewrite Z.mul_1_l in *. now rewrite sleep_ok.
  - assert ((status_code r =? 429) = true) as -> by lia.
    rewrite Hr. now rewrite sleep_ok.
Qed.

Lemma attempts_terminal n a (net : exchange json) trace :
  terminal (net a) -> attempts (S n) a net trace = (trace, Ok None).
Proof.
  intros (r & E & Hs). cbn [attempts]. rewrite E.
  destruct Hs as [H | [H | H]]; rewrite H; reflexivity.
Qed.

Lemma attempts_general bases : forall n a (net : exchange json) trace,
  (List.length bases <= n)%nat ->
  (forall i, (i < List.length bases)%nat ->
     retryable (net (a + i)%nat) (nth i bases 0)) ->
  Forall sleeps (backoff_waits a bases) ->
  (List.length bases = n \/ terminal (net (a + List.length bases)%nat)) ->
  attempts n a net trace = ((trace ++ backoff_waits a bases)%list, Ok None).
Proof.
  induction bases as [|b bases IH]; intros n a net trace Hn Hr Hw Hend.
  - cbn [backoff_waits]. rewrite app_nil_r. cbn [List.length] in Hend.
    destruct Hend as [<- | Ht]; [reflexivity|].
    destruct n; [reflexivity|].
    rewrite Nat.add_0_r in Ht. now apply attempts_terminal.
  - cbn [List.length] in *. destruct n as [|n]; [lia|].
    cbn [backoff_waits] in Hw. inversion Hw as [|? ? Hb Hrest]; subst.
    rewrite (attempts_retry n a net trace b).
    + rewrite (IH n (S a) net).
      * cbn [backoff_waits]. now rewrite <- app_assoc.
      * lia.
      * intros i Hi. specialize (Hr (S i) ltac:(lia)).
        cbn [nth] in Hr. now rewrite Nat.add_succ_r in Hr.
      * exact Hrest.
      * destruct Hend as [H | H]; [left; lia | right].
        now rewrite Nat.add_succ_r in H.
    + specialize (Hr 0%nat ltac:(lia)). now rewrite Nat.add_0_r in Hr.
    + exact Hb.
Qed.

(** X4: [_request_with_retry] does what C5 says whenever every 429 reply
    carries a usable Retry-After header and every pause is one
    [time.sleep] goes through with: after retryable outcomes with the
    bases [bases] it has slept base * 2^attempt seconds after each, and
    it returns None, without any further sleep, as soon as a 401, 403 or
    404 arrives or once [max_retries] attempts are used up. *)
Theorem request_with_retry_backoff (max_retries : Z) (net : exchange json)
    (bases : list Z) :
  (List.length bases <= Z.to_nat max_retries)%nat ->
  (forall i, (i < List.length bases)%nat -> retryable (net i) (nth i bases 0)) ->
  Forall sleeps (backoff_waits 0 bases) ->
  (List.length bases = Z.to_nat max_retries \/ terminal (net (List.length bases))) ->
  request_with_retry max_retries net = (backoff_waits 0 bases, Ok None).
Proof.
  intros Hn Hr Hw Hend. unfold request_with_retry.
  now rewrite (attempts_general bases (Z.to_nat max_retries) 0 net []).
Qed.

End RetryGeneral.

Section RetryExample.
Import Py WttIttfScraper.

(** A 429 without header, a 503, then a 404: sleeps of 5 and 2 seconds. *)
Lemma request_with_retry_backoff_witness :
  request_with_retry (os := a_platform) 5 flaky_then_missing = ([5; 2], Ok None).
Proof.
  apply (request_with_retry_backoff (os := a_platform) 5 flaky_then_missing [5; 1]).
  - cbn. lia.
  - intros [|[|i]] Hi; cbn in Hi; try lia.
    + right; right. exists (mk_response 429 None None).
      cbn. repeat split; reflexivity || lia.
    + right; left. exists (mk_response 503 None None).
      cbn. repeat split; reflexivity || lia.
  - repeat constructor; cbn; lia.
  - right. exists (mk_response 404 None None).
    cbn. split; [reflexivity | lia].
Defined.

End RetryExample.

Section RetryFacts.
Import Py WttIttfScraper.
Context {os : Platform}.

(** C5 fails on the code: on a 429 reply whose Retry-After header is a
    date, [int()] raises ValueError inside the [try]; the only handler
    there is for [requests.RequestException], so the exception leaves
    [_request_with_retry] at the first attempt: no retry, no sleep, no
    [None]. *)
Theorem C5_retry_after_date_raises :
  request_with_retry 3 (fun _ => Ok rate_limited_until_date)
  = ([], Raise (ValueError "invalid literal for int()")).
Proof. vm_compute. reflexivity. Qed.

(** The same with a negative number of seconds: [time.sleep] refuses
    it with a ValueError that nothing catches. *)
Lemma retry_after_negative_raises :
  request_with_retry 3
    (fun _ => Ok (mk_response 429 (Some "-1") (@None unit)))
  = ([], Raise (ValueError "sleep length must be non-negative")).
Proof. vm_compute. reflexivity. Qed.

(** And with ten thousand million seconds, which do not fit in 64 bits
    of nanoseconds: [time.sleep] raises an OverflowError, which is no
    [requests.RequestException] either. *)
Lemma retry_after_overflow_raises :
  request_with_retry 3
    (fun _ => Ok (mk_response 429 (Some "10000000000") (@None unit)))
  = ([], Raise (OverflowError "timestamp too large to convert to C _PyTime_t")).
Proof. vm_compute. reflexivity. Qed.

End RetryFacts.

(* ================================================================== *)
(** * Pagination                                                    *)
(* ================================================================== *)

Section ScrapeTotal.
Import Py.

Lemma fabrik_convert_length matches acc all' :
  FabrikMatchScraper.convert matches acc = Ok all' ->
  List.length all' = (List.length acc + List.length matches)%nat.
Proof.
  revert acc; induction matches as [|it r IH]; intros acc H; cbn in H.
  - injection H as <-. cbn. lia.
  - destruct (FabrikMatchScraper.match_of_item it); [|discriminate].
    cbn in H. apply IH in H. rewrite H, length_app. cbn. lia.
Qed.

(** With [max_matches - len(all_matches)] units of fuel the loop of
    [scrape_year] ends by itself. *)
Lemma fabrik_scrape_loop_total fuel net year max_matches l acc :
  (Z.to_nat (max_matches - Z.of_nat (List.length acc)) <= fuel)%nat ->
  FabrikMatchScraper.scrape_loop fuel net year max_matches l acc <> None.
Proof.
  revert l acc; induction fuel as [|fuel IH]; intros l acc Hf;
    cbn [FabrikMatchScraper.scrape_loop];
    destruct (Z.of_nat (List.length acc) <? max_matches) eqn:Hlt;
    try discriminate.
  - lia.
  - destruct (FabrikMatchScraper.fetch_matches net l year 100) as [l' matches].
    destruct matches as [|it r]; [discriminate|].
    destruct (FabrikMatchScraper.convert (it :: r) acc) as [all'|e] eqn:Hc;
      [|discriminate].
    apply IH. apply fabrik_convert_length in Hc. cbn in Hc. lia.
Qed.

Lemma collector_convert_length matches acc all' :
  ComprehensiveCollector.convert matches acc = Ok all' ->
  List.length all' = (List.length acc + List.length matches)%nat.
Proof.
  revert acc; induction matches as [|it r IH]; intros acc H; cbn in H.
  - injection H as <-. cbn. lia.
  - destruct (ComprehensiveCollector.match_of_item it); [|discriminate].
    cbn in H. apply IH in H. rewrite H, length_app. cbn. lia.
Qed.

Lemma collector_scrape_loop_total fuel net year max_matches l acc :
  (Z.to_nat (max_matches - Z.of_nat (List.length acc)) <= fuel)%nat ->
  ComprehensiveCollector.scrape_loop fuel net year max_matches l acc <> None.
Proof.
  revert l acc; induction fuel as [|fuel IH]; intros l acc Hf;
    cbn [ComprehensiveCollector.scrape_loop];
    destruct (Z.of_nat (List.length acc) <? max_matches) eqn:Hlt;
    try discriminate.
  - lia.
  - destruct (ComprehensiveCollector.fetch_matches net l year 100) as [l' matches].
    destruct matches as [|it r]; [discriminate|].
    destruct (ComprehensiveCollector.convert (it :: r) acc) as [all'|e] eqn:Hc;
      [|discriminate].
    apply IH. apply collector_convert_length in Hc. cbn in Hc. lia.
Qed.

(** [scrape_year] and [scrape_matches_by_year] are the loop's own result:
    the fuel they pass never runs out. *)
Lemma scrape_year_returns net l year max_matches :
  FabrikMatchScraper.scrape_loop (Z.to_nat max_matches) net year max_matches l []
  = Some (FabrikMatchScraper.scrape_year net l year max_matches).
Proof.
  unfold FabrikMatchScraper.scrape_year.
  destruct (FabrikMatchScraper.scrape_loop _ _ _ _ _ _) eqn:E; [reflexivity|].
  exfalso. revert E. apply fabrik_scrape_loop_total. cbn. lia.
Qed.

Lemma scrape_matches_by_year_returns net l year max_matches :
  ComprehensiveCollector.scrape_loop (Z.to_nat max_matches) net year max_matches l []
  = Some (ComprehensiveCollector.scrape_matches_by_year net l year max_matches).
Proof.
  unfold ComprehensiveCollector.scrape_matches_by_year.
  destruct (ComprehensiveCollector.scrape_loop _ _ _ _ _ _) eqn:E; [reflexivity|].
  exfalso. revert E. apply collector_scrape_loop_total. cbn. lia.
Qed.

(** Both loops return: at most [max_matches] passes are made. *)
Theorem unpaginated_loops_return (net : Fabrik.server) (l : Fabrik.log)
    (year max_matches : Z) :
  FabrikMatchScraper.scrape_loop (Z.to_nat max_matches) net year max_matches l []
  = Some (FabrikMatchScraper.scrape_year net l year max_matches) /\
  ComprehensiveCollector.scrape_loop (Z.to_nat max_matches) net year max_matches l []
  = Some (ComprehensiveCollector.scrape_matches_by_year net l year max_matches).
Proof.
  split; [apply scrape_year_returns | apply scrape_matches_by_year_returns].
Qed.

Lemma fabrik_scrape_loop_requests fuel net year max_matches l acc l' r :
  FabrikMatchScraper.scrape_loop fuel net year max_matches l acc = Some (l', r) ->
  exists k, l' = (l ++ repeat (Fabrik.mk_request year 100 None) k)%list.
Proof.
  revert l acc; induction fuel as [|fuel IH]; intros l acc H;
    cbn [FabrikMatchScraper.scrape_loop] in H;
    destruct (Z.of_nat (List.length acc) <? max_matches);
    try discriminate;
    try (injection H as <- _; exists 0%nat; cbn; now rewrite app_nil_r).
  unfold FabrikMatchScraper.fetch_matches, Fabrik.send in H.
  set (q := Fabrik.mk_request year 100 None) in *.
  destruct (match net (List.length l) q with
            | Ok (Fabrik.Items data) => data
            | _ => []
            end) as [|it rest].
  - injection H as <- _. now exists 1%nat.
  - destruct (FabrikMatchScraper.convert (it :: rest) acc) as [all'|e].
    + apply IH in H as [k ->]. exists (S k).
      now rewrite <- app_assoc.
    + injection H as <- _. now exists 1%nat.
Qed.

Lemma collector_scrape_loop_requests fuel net year max_matches l acc l' r :
  ComprehensiveCollector.scrape_loop fuel net year max_matches l acc = Some (l', r) ->
  exists k, l' = (l ++ repeat (Fabrik.mk_request year 100 None) k)%list.
Proof.
  revert l acc; induction fuel as [|fuel IH]; intros l acc H;
    cbn [ComprehensiveCollector.scrape_loop] in H;
    destruct (Z.of_nat (List.length acc) <? max_matches);
    try discriminate;
    try (injection H as <- _; exists 0%nat; cbn; now rewrite app_nil_r).
  unfold ComprehensiveCollector.fetch_matches, Fabrik.send in H.
  set (q := Fabrik.mk_request year 100 None) in *.
  destruct (match net (List.length l) q with
            | Ok (Fabrik.Items data) => data
            | _ => []
            end) as [|it rest].
  - injection H as <- _. now exists 1%nat.
  - destruct (ComprehensiveCollector.convert (it :: rest) acc) as [all'|e].
    + apply IH in H as [k ->]. exists (S k).
      now rewrite <- app_assoc.
    + injection H as <- _. now exists 1%nat.
Qed.

(** Whatever the server answers, [scrape_year] and
    [scrape_matches_by_year] send one and the same request over and over:
    the year, a limit of 100 and no offset. *)
Theorem unpaginated_loops_repeat_one_request (net : Fabrik.server)
    (l : Fabrik.log) (year max_matches : Z) :
  (exists k, fst (FabrikMatchScraper.scrape_year net l year max_matches)
             = (l ++ repeat (Fabrik.mk_request year 100 None) k)%list) /\
  (exists k, fst (ComprehensiveCollector.scrape_matches_by_year net l year max_matches)
             = (l ++ repeat (Fabrik.mk_request year 100 None) k)%list).
Proof.
  split.
  - assert (H := scrape_year_returns net l year max_matches).
    destruct (FabrikMatchScraper.scrape_year net l year max_matches) as [l' r].
    now apply fabrik_scrape_loop_requests in H.
  - assert (H := scrape_matches_by_year_returns net l year max_matches).
    destruct (ComprehensiveCollector.scrape_matches_by_year net l year max_matches)
      as [l' r].
    now apply collector_scrape_loop_requests in H.
Qed.

End ScrapeTotal.

Section MasterPagination.
Import Py MasterScrape.

Lemma fetch_fabrik_page_log net l cfg year offset :
  fst (fetch_fabrik_page net l cfg year offset)
  = (l ++ [page_request cfg year offset 0])%list.
Proof.
  unfold fetch_fabrik_page, Fabrik.send, page_request. cbn.
  now rewrite Z.add_0_r.
Qed.

Lemma page_requests_shift cfg year offset k :
  (page_request cfg year offset 0
   :: map (page_request cfg year (offset + page_size cfg)) (seq 0 k))
  = map (page_request cfg year offset) (seq 0 (S k)).
Proof.
  cbn [seq map]. f_equal. rewrite <- seq_shift, map_map.
  apply map_ext. intros i. unfold page_request. do 2 f_equal.
  rewrite Nat2Z.inj_succ. ring.
Qed.

(** Whatever the loop body does, the requests sent are those for the
    pages 0, 1, 2, ... of [page_size] rows, at most [n] of them. *)
Lemma pages_log {S} (body : S -> row -> result S) n net cfg year l seen
    offset stagnant s :
  exists k, (k <= n)%nat /\
    fst (pages body n net cfg year l seen offset stagnant s)
    = (l ++ map (page_request cfg year offset) (seq 0 k))%list.
Proof.
  revert l seen offset stagnant s; induction n as [|n IH];
    intros l seen offset stagnant s.
  - exists 0%nat. split; [lia|]. cbn. now rewrite app_nil_r.
  - cbn [pages].
    assert (L := fetch_fabrik_page_log net l cfg year offset).
    destruct (fetch_fabrik_page net l cfg year offset) as [l' r].
    cbn [fst] in L. subst l'.
    assert (One : exists k, (k <= Datatypes.S n)%nat /\
              (l ++ [page_request cfg year offset 0])%list
              = (l ++ map (page_request cfg year offset) (seq 0 k))%list)
      by (exists 1%nat; split; [lia | reflexivity]).
    destruct r as [[|it rows]|e]; try exact One.
    destruct (page_loop body (it :: rows) seen 0 s) as [[[seen' cnt] s']|e];
      [|exact One].
    destruct ((if cnt =? 0 then stagnant + 1 else 0) >=? 2); [exact One|].
    destruct (IH (l ++ [page_request cfg year offset 0])%list seen'
                (offset + page_size cfg)
                (if cnt =? 0 then stagnant + 1 else 0) s') as (k & Hk & ->).
    exists (Datatypes.S k). split; [lia|].
    now rewrite <- app_assoc, <- page_requests_shift.
Qed.

Lemma existsb_eqb_In x l : existsb (String.eqb x) l = true <-> In x l.
Proof.
  rewrite existsb_exists. split.
  - intros (y & Hy & E). apply String.eqb_eq in E. now subst.
  - intros H. exists x. split; [exact H | apply String.eqb_refl].
Qed.

Lemma page_loop_deduplicated rows seen cnt yielded seen' cnt' yielded' :
  deduplicated seen yielded ->
  page_loop collect rows seen cnt yielded = Ok (seen', cnt', yielded') ->
  deduplicated seen' yielded'.
Proof.
  revert seen cnt yielded; induction rows as [|[r|inner] rows IH];
    intros seen cnt yielded Hd H; cbn [page_loop] in H.
  - now injection H as <- _ <-.
  - fold (row_id r) in H.
    destruct (nonempty (row_id r)) eqn:Hn; cbn [negb] in H; [|eauto].
    destruct (existsb (String.eqb (row_id r)) seen) eqn:Hs; [eauto|].
    cbn [collect bind] in H. apply IH in H; [exact H|].
    destruct Hd as (Hnd & Hne & Hseen).
    assert (Hnot : ~ In (row_id r) (map row_id yielded)).
    { rewrite <- Hseen, <- existsb_eqb_In. congruence. }
    repeat split.
    + rewrite map_app. cbn [map].
      apply NoDup_app; [exact Hnd | repeat constructor; intros [] |].
      intros x Hx [<-|[]]. contradiction.
    + apply Forall_app. split; [exact Hne | now repeat constructor].
    + rewrite map_app, in_app_iff. cbn. rewrite <- Hseen. tauto.
    + rewrite map_app, in_app_iff. cbn. rewrite <- Hseen. tauto.
  - discriminate.
Qed.

Lemma pages_deduplicated n net cfg year l seen offset stagnant yielded
    yielded' why :
  deduplicated seen yielded ->
  snd (pages collect n net cfg year l seen offset stagnant yielded)
  = Ok (yielded', why) ->
  NoDup (map row_id yielded') /\
  Forall (fun r => nonempty (row_id r) = true) yielded'.
Proof.
  revert l seen offset stagnant yielded; induction n as [|n IH];
    intros l seen offset stagnant yielded Hd H; cbn [pages] in H.
  - injection H as <- _. destruct Hd as (? & ? & _). now split.
  - destruct (fetch_fabrik_page net l cfg year offset) as [l' [[|it rows]|e]];
      cbn [snd] in H; try discriminate.
    + injection H as <- _. destruct Hd as (? & ? & _). now split.
    + destruct (page_loop collect (it :: rows) seen 0 yielded)
        as [[[seen' cnt] y']|e] eqn:Hp; [|discriminate].
      apply (page_loop_deduplicated _ _ _ _ _ _ _ Hd) in Hp.
      destruct ((if cnt =? 0 then stagnant + 1 else 0) >=? 2).
      * injection H as <- _. destruct Hp as (? & ? & _). now split.
      * eapply IH; eassumption.
Qed.

(** [iter_fabrik_matches] does what C6 says of a paginated loop: it asks
    for pages of [page_size] rows at the offsets 0, [page_size],
    2 * [page_size], ..., at most [max_pages_per_year] of them, and the
    rows it yields have non-empty, pairwise different match ids. *)
Theorem iter_fabrik_matches_paginates (net : Fabrik.server)
    (cfg : FabrikConfig) (year : Z) (l : Fabrik.log) :
  (exists k, (k <= Z.to_nat (max_pages_per_year cfg))%nat /\
     fst (iter_fabrik_matches collect net cfg year l [])
     = (l ++ map (page_request cfg year 0) (seq 0 k))%list) /\
  (forall yielded why,
     snd (iter_fabrik_matches collect net cfg year l []) = Ok (yielded, why) ->
     NoDup (map row_id yielded) /\
     Forall (fun r => nonempty (row_id r) = true) yielded).
Proof.
  unfold iter_fabrik_matches. split; [apply pages_log|].
  intros yielded why H. eapply pages_deduplicated; [|exact H].
  repeat split; try constructor; cbn; tauto.
Qed.

End MasterPagination.

Section Pagination.
Import Py.

(** C6 fails on the code for [FabrikMatchScraper.scrape_year] and
    [ComprehensiveDataCollector.scrape_matches_by_year]: against a server
    holding two matches, with [max_matches] = 5, each sends the same
    request three times, none with an offset, and returns the two matches
    three times over; [iter_fabrik_matches] on the same server asks for
    offsets 0 and 500 and yields each match once. *)
Theorem C6_unpaginated_loops_repeat_first_page :
  let q := Fabrik.mk_request 2025 100 None in
  (let '(l, r) := FabrikMatchScraper.scrape_year (paging_server two_rows) [] 2025 5 in
   l = [q; q; q] /\
   map_result FabrikMatchScraper.match_id r = Ok ["1"; "2"; "1"; "2"; "1"; "2"]) /\
  (let '(l, r) :=
     ComprehensiveCollector.scrape_matches_by_year (paging_server two_rows) [] 2025 5 in
   l = [q; q; q] /\
   map_result ComprehensiveCollector.match_id r = Ok ["1"; "2"; "1"; "2"; "1"; "2"]) /\
  MasterScrape.iter_fabrik_matches MasterScrape.collect (paging_server two_rows)
    MasterScrape.default_config 2025 [] []
  = ([Fabrik.mk_request 2025 500 (Some 0); Fabrik.mk_request 2025 500 (Some 500)],
     Ok (two_rows, MasterScrape.EmptyPage)).
Proof. vm_compute. repeat split. Qed.

End Pagination.

(* ================================================================== *)
(** * Dictionaries: which write is kept                             *)
(* ================================================================== *)

Section DictFacts.
Context {K V : Type} (eqb : K -> K -> bool).
Hypothesis eqb_refl : forall k, eqb k k = true.
Hypothesis eqb_sym : forall a b, eqb a b = eqb b a.
Hypothesis eqb_trans : forall a b c, eqb a b = true -> eqb b c = true -> eqb a c = true.

Lemma eqb_false_l a b c : eqb a b = true -> eqb a c = false -> eqb b c = false.
Proof.
  intros Hab Hac. destruct (eqb b c) eqn:E; [|reflexivity].
  now rewrite (eqb_trans _ _ _ Hab E) in Hac.
Qed.

Lemma dict_get_congr (d : Dict.t K V) k1 k2 :
  eqb k1 k2 = true -> Dict.get eqb d k1 = Dict.get eqb d k2.
Proof.
  intros H. induction d as [|[k0 v0] r IH]; [reflexivity|].
  cbn [Dict.get]. destruct (eqb k0 k1) eqn:E1.
  - now rewrite (eqb_trans _ _ _ E1 H).
  - rewrite eqb_sym in E1. rewrite eqb_sym.
    now rewrite (eqb_false_l _ _ _ H E1).
Qed.

Lemma dict_get_set_same (d : Dict.t K V) k k' v :
  eqb k k' = true -> Dict.get eqb (Dict.set eqb d k v) k' = Some v.
Proof.
  intros H. induction d as [|[k0 v0] r IH]; cbn [Dict.set Dict.get].
  - now rewrite H.
  - destruct (eqb k0 k) eqn:E; cbn [Dict.get].
    + now rewrite (eqb_trans _ _ _ E H).
    + rewrite eqb_sym in E. rewrite eqb_sym.
      rewrite eqb_sym in H.
      assert (eqb k' k0 = false) as ->; [|exact IH].
      destruct (eqb k' k0) eqn:E'; [|reflexivity].
      rewrite eqb_sym in H.
      rewrite (eqb_trans _ _ _ H E') in E. discriminate.
Qed.

Lemma dict_get_set_other (d : Dict.t K V) k k' v :
  eqb k k' = false ->
  Dict.get eqb (Dict.set eqb d k v) k' = Dict.get eqb d k'.
Proof.
  intros H. induction d as [|[k0 v0] r IH]; cbn [Dict.set Dict.get].
  - now rewrite H.
  - destruct (eqb k0 k) eqn:E; cbn [Dict.get].
    + rewrite eqb_sym in E. now rewrite (eqb_false_l _ _ _ E H).
    + now rewrite IH.
Qed.

(** After a sequence of such writes a key holds what it held before or,
    failing that, the value of the first write for it. *)
Lemma first_write_kept (l : list (K * V)) (d : Dict.t K V) (k : K) :
  Dict.get eqb (fold_left (write_if_absent eqb) l d) k
  = match Dict.get eqb d k with
    | Some v => Some v
    | None => option_map snd (find (fun kv => eqb (fst kv) k) l)
    end.
Proof.
  revert d; induction l as [|[k0 v0] l IH]; intros d.
  - cbn. now destruct (Dict.get eqb d k).
  - cbn [fold_left find fst]. rewrite IH.
    unfold write_if_absent, Dict.mem; cbn [fst snd].
    destruct (eqb k0 k) eqn:E.
    + rewrite <- (dict_get_congr d _ _ E).
      destruct (Dict.get eqb d k0) eqn:G.
      * now rewrite <- (dict_get_congr d _ _ E), G.
      * now rewrite (dict_get_set_same d _ _ v0 E).
    + destruct (Dict.get eqb d k0) eqn:G; [reflexivity|].
      now rewrite (dict_get_set_other d _ _ v0 E).
Qed.

Lemma fold_left_flat_map {A B S} (f : S -> B -> S) (g : A -> list B)
    (l : list A) (s : S) :
  fold_left f (flat_map g l) s
  = fold_left (fun s x => fold_left f (g x) s) l s.
Proof.
  revert s; induction l as [|x l IH]; intros s; [reflexivity|].
  cbn [flat_map fold_left]. now rewrite fold_left_app, IH.
Qed.

End DictFacts.

Section ValueEq.
Import Py.

Lemma value_eqb_refl v : Py.eqb v v = true.
Proof.
  destruct v as [|b|z|s]; cbn; auto using Z.eqb_refl, String.eqb_refl.
Qed.

Lemma value_eqb_sym a b : Py.eqb a b = Py.eqb b a.
Proof.
  destruct a, b; cbn; auto using Z.eqb_sym, String.eqb_sym.
Qed.

Lemma value_eqb_trans a b c :
  Py.eqb a b = true -> Py.eqb b c = true -> Py.eqb a c = true.
Proof.
  destruct a as [|[]|x|s], b as [|[]|y|t], c as [|[]|z|u];
    cbn -[Z.eqb String.eqb]; try discriminate; try reflexivity;
    rewrite ?Z.eqb_eq, ?String.eqb_eq; intros; subst; auto; discriminate.
Qed.

Lemma value_eqb_truthy a b : Py.eqb a b = true -> truthy a = truthy b.
Proof.
  destruct a as [|[]|x|s], b as [|[]|y|t]; cbn -[Z.eqb String.eqb];
    try discriminate; try reflexivity;
    rewrite ?Z.eqb_eq, ?String.eqb_eq; intros; subst; reflexivity.
Qed.

End ValueEq.

(* ================================================================== *)
(** * Which occurrence of a player is kept                          *)
(* ================================================================== *)

Section FirstWrite.
Import Py.

Lemma unique_players_writes l d :
  fold_left ScrapeTtblEnhanced.unique_step l d
  = fold_left (write_if_absent Py.eqb) (roster_writes l) d.
Proof.
  unfold roster_writes. rewrite fold_left_flat_map.
  revert d; induction l as [|p l IH]; intros d; [reflexivity|].
  cbn [fold_left]. rewrite <- IH. f_equal.
  unfold ScrapeTtblEnhanced.unique_step, write_if_absent.
  destruct (truthy (ScrapeTtblEnhanced.re_id p)); cbn; [|reflexivity].
  now destruct (Dict.mem Py.eqb d (ScrapeTtblEnhanced.re_id p)).
Qed.

Lemma extract_player_ids_writes l d :
  fold_left FabrikMatchScraper.extract_step l d
  = fold_left (write_if_absent String.eqb) (flat_map match_writes l) d.
Proof.
  rewrite fold_left_flat_map.
  revert d; induction l as [|m l IH]; intros d; [reflexivity|].
  cbn [fold_left]. rewrite <- IH. f_equal.
  unfold FabrikMatchScraper.extract_step, match_writes, write_if_absent.
  cbn [fold_left fst snd].
  destruct (Dict.mem String.eqb d (FabrikMatchScraper.player_id m)); cbn [negb];
    destruct (FabrikMatchScraper.opponent_id m) as [oid|]; try reflexivity;
    destruct (nonempty oid); cbn [andb fold_left fst snd]; try reflexivity;
    match goal with
    | |- context [Dict.mem String.eqb ?d' oid] =>
        destruct (Dict.mem String.eqb d' oid); reflexivity
    end.
Qed.

Lemma string_eqb_trans a b c :
  String.eqb a b = true -> String.eqb b c = true -> String.eqb a c = true.
Proof. rewrite !String.eqb_eq. congruence. Qed.

Lemma upsert_player_existing players id name association now rec :
  nonempty id = true ->
  Dict.get String.eqb players id = Some rec ->
  Dict.get String.eqb
    (MasterScrape.upsert_player players (Some id) name association now) id
  = Some (merged rec name association now).
Proof.
  intros Hid Hget. unfold MasterScrape.upsert_player.
  cbn [truthy_opt MasterScrape.opt_or_empty]. rewrite Hid. cbn [negb].
  rewrite Hget.
  rewrite (dict_get_set_same String.eqb String.eqb_sym string_eqb_trans)
    by apply String.eqb_refl.
  f_equal. unfold merged.
  destruct (truthy_opt association && negb (truthy_opt (MasterScrape.nationality rec)))%bool;
    cbn [MasterScrape.full_name MasterScrape.nationality MasterScrape.ittf_id
         MasterScrape.first_name MasterScrape.last_name
         MasterScrape.player_stats MasterScrape.sources MasterScrape.last_seen];
    destruct (truthy_opt name && negb (truthy_opt (MasterScrape.full_name rec)))%bool;
    try reflexivity;
    destruct (MasterScrape.normalize_name (MasterScrape.opt_or_empty name))
      as [[first last] full]; reflexivity.
Qed.

(** C7, as the code has it: the first occurrence of an id wins.  The
    [unique_players] mapping and [extract_player_ids] hold, for every id,
    the value of the first write attempted for it; [upsert_player]
    leaves under an id that already has a record the [merged] record:
    it keeps the name and the nationality the id already has, fills them
    only when they are empty, and writes [last_seen] again. *)
Theorem C7_first_write_wins :
  (forall (all_players : list ScrapeTtblEnhanced.roster_entry) (k : value),
     Dict.get Py.eqb (ScrapeTtblEnhanced.unique_players all_players) k
     = option_map snd
         (find (fun kv => Py.eqb (fst kv) k) (roster_writes all_players))) /\
  (forall (matches : list FabrikMatchScraper.Match) (k : string),
     Dict.get String.eqb (FabrikMatchScraper.extract_player_ids matches) k
     = option_map snd
         (find (fun kv => String.eqb (fst kv) k) (flat_map match_writes matches))) /\
  (forall players id name association now rec,
     nonempty id = true ->
     Dict.get String.eqb players id = Some rec ->
     Dict.get String.eqb
       (MasterScrape.upsert_player players (Some id) name association now) id
     = Some (merged rec name association now)) /\
  (forall players id name association now rec,
     nonempty id = true ->
     Dict.get String.eqb players id = Some rec ->
     truthy_opt (MasterScrape.full_name rec) = true ->
     truthy_opt (MasterScrape.nationality rec) = true ->
     exists rec',
       Dict.get String.eqb
         (MasterScrape.upsert_player players (Some id) name association now) id
       = Some rec' /\
       MasterScrape.first_name rec' = MasterScrape.first_name rec /\
       MasterScrape.last_name rec' = MasterScrape.last_name rec /\
       MasterScrape.full_name rec' = MasterScrape.full_name rec /\
       MasterScrape.nationality rec' = MasterScrape.nationality rec /\
       MasterScrape.last_seen rec' = now).
Proof.
  split; [|split; [|split]].
  - intros l k. unfold ScrapeTtblEnhanced.unique_players.
    rewrite unique_players_writes.
    now rewrite (first_write_kept Py.eqb value_eqb_sym value_eqb_trans).
  - intros l k. unfold FabrikMatchScraper.extract_player_ids.
    rewrite extract_player_ids_writes.
    now rewrite (first_write_kept String.eqb String.eqb_sym string_eqb_trans).
  - intros. now apply upsert_player_existing.
  - intros players id name association now rec Hid Hget Hfull Hnat.
    exists (merged rec name association now).
    split; [now apply upsert_player_existing|].
    unfold merged. rewrite Hfull, Hnat, !andb_false_r. cbn. tauto.
Qed.

(** C7 at two occurrences of one id, for each of the three. *)
Lemma C7_first_write_wins_witness :
  Dict.get Py.eqb
    (ScrapeTtblEnhanced.unique_players [entry_first; entry_last]) (VStr "p-17")
  = Some entry_first /\
  Dict.get String.eqb
    (FabrikMatchScraper.extract_player_ids [match_first; match_last]) "121404"
  = Some (VStr "WANG Chuqin") /\
  exists rec',
    Dict.get String.eqb upserted_twice "121404" = Some rec' /\
    MasterScrape.full_name rec' = Some "WANG Chuqin" /\
    MasterScrape.nationality rec' = Some "CHN" /\
    MasterScrape.last_seen rec' = 2.
Proof.
  destruct C7_first_write_wins as (H1 & H2 & _ & H3).
  split; [rewrite H1; reflexivity|].
  split; [rewrite H2; reflexivity|].
  destruct (H3 (MasterScrape.upsert_player [] (Some "121404")
                  (Some "WANG Chuqin") (Some "CHN") 1)
               "121404" (Some "WANG C.") (Some "PRC") 2
               (MasterScrape.mk_player "121404" (Some "Chuqin") (Some "WANG")
                  (Some "WANG Chuqin") (Some "CHN")
                  (MasterScrape.mk_stats 0 0 0) ["fabrik_matches"] 1))
    as (rec' & Hg & _ & _ & Hf & Hn & Hl); try reflexivity.
  exists rec'. repeat split; assumption.
Defined.

(** C7 as stated fails: with two occurrences of one id, each of the three
    keeps what the first occurrence brought, not the last. *)
Lemma C7_counterexample :
  Dict.get Py.eqb
    (ScrapeTtblEnhanced.unique_players [entry_first; entry_last]) (VStr "p-17")
  <> Some entry_last /\
  Dict.get String.eqb
    (FabrikMatchScraper.extract_player_ids [match_first; match_last]) "121404"
  <> Some (FabrikMatchScraper.player_name match_last) /\
  option_map MasterScrape.full_name (Dict.get String.eqb upserted_twice "121404")
  <> Some (Some "WANG C.").
Proof. repeat split; vm_compute; discriminate. Qed.

End FirstWrite.

(* ================================================================== *)
(** * Gender inference                                              *)
(* ================================================================== *)

Section Gender.
Import Py.

Lemma startswith_two a b s :
  startswith (String a (String b EmptyString)) s = true ->
  exists r, s = String a (String b r).
Proof.
  unfold startswith. destruct s as [|c1 [|c2 r]]; simpl.
  - discriminate.
  - destruct (ascii_dec a c1); discriminate.
  - destruct (ascii_dec a c1); [|discriminate].
    destruct (ascii_dec b c2); [|discriminate].
    subst. intros _. now exists r.
Qed.

(** C8, as the code has it: [determine_player_gender] goes by the prefix
    (MS gives male, WS gives female); [extract_gender_from_event_code]
    looks the whole code up, so that of the codes beginning with MS only
    MS itself gives M, and of those beginning with WS only WS itself
    gives W; any longer code gives no gender. *)
Theorem C8_gender_inference (player_id ms ws : string) :
  startswith "MS" ms = true -> startswith "WS" ws = true ->
  ComprehensiveScraper.determine_player_gender player_id ms = "male" /\
  ComprehensiveScraper.determine_player_gender player_id ws = "female" /\
  ComprehensiveCollector.extract_gender_from_event_code ms
    = (if String.eqb ms "MS" then Some "M" else None) /\
  ComprehensiveCollector.extract_gender_from_event_code ws
    = (if String.eqb ws "WS" then Some "W" else None).
Proof.
  intros Hm Hw.
  destruct (startswith_two _ _ _ Hm) as [r ->].
  destruct (startswith_two _ _ _ Hw) as [q ->].
  split; [unfold ComprehensiveScraper.determine_player_gender;
          now rewrite Hm|].
  split; [unfold ComprehensiveScraper.determine_player_gender;
          now rewrite Hw|].
  unfold ComprehensiveCollector.extract_gender_from_event_code.
  split.
  - destruct r as [|c r]; [reflexivity|]. cbn.
    now rewrite ?andb_false_r.
  - destruct q as [|c q]; [reflexivity|]. cbn.
    now rewrite ?andb_false_r.
Qed.

(** C8 at the codes MSU19 and WS. *)
Lemma C8_gender_inference_witness :
  ComprehensiveScraper.determine_player_gender "121404" "MSU19" = "male" /\
  ComprehensiveScraper.determine_player_gender "121404" "WS" = "female" /\
  ComprehensiveCollector.extract_gender_from_event_code "MSU19" = None /\
  ComprehensiveCollector.extract_gender_from_event_code "WS" = Some "W".
Proof.
  apply (C8_gender_inference "121404" "MSU19" "WS"); reflexivity.
Defined.

(** C8 as stated fails: a code that begins with MS without being MS gets
    no gender from [extract_gender_from_event_code]. *)
Lemma C8_counterexample :
  startswith "MS" "MSU19" = true /\
  ComprehensiveCollector.extract_gender_from_event_code "MSU19" = None.
Proof. split; reflexivity. Qed.

End Gender.

(* ================================================================== *)
(** * Player statistics (scrape_ttbl_enhanced.py)                   *)
(* ================================================================== *)

Section StatsGeneral.
Import Py ScrapeTtblEnhanced.

Lemma dict_set_Forall {K V} (eqb : K -> K -> bool) (P : V -> Prop)
    (d : Dict.t K V) k v :
  Forall (fun kv => P (snd kv)) d -> P v ->
  Forall (fun kv => P (snd kv)) (Dict.set eqb d k v).
Proof.
  intros Hd Hv. induction Hd as [|[k0 v0] r H0 Hr IH]; cbn [Dict.set].
  - now repeat constructor.
  - destruct (eqb k0 k); constructor; auto.
Qed.

Lemma dict_get_Forall {K V} (eqb : K -> K -> bool) (P : V -> Prop)
    (d : Dict.t K V) k v :
  Forall (fun kv => P (snd kv)) d -> Dict.get eqb d k = Some v -> P v.
Proof.
  intros Hd. induction Hd as [|[k0 v0] r H0 Hr IH]; cbn [Dict.get];
    [discriminate|].
  destruct (eqb k0 k); [now intros [= <-] | exact IH].
Qed.

Lemma record_game_balanced d pid pname match_id won :
  Forall (fun kv => balanced (snd kv)) d ->
  Forall (fun kv => balanced (snd kv)) (record_game d pid pname match_id won).
Proof.
  intros Hd. unfold record_game.
  destruct (truthy pid && negb (Py.eqb pid (VStr "null")))%bool; [|exact Hd].
  set (d' := if negb (Dict.mem Py.eqb d pid)
             then Dict.set Py.eqb d pid (mk_stats pid pname 0 0 0 match_id)
             else d).
  assert (Hd' : Forall (fun kv => balanced (snd kv)) d').
  { subst d'. destruct (negb (Dict.mem Py.eqb d pid)); [|exact Hd].
    apply dict_set_Forall; [exact Hd|]. unfold balanced; cbn. lia. }
  destruct (Dict.get Py.eqb d' pid) as [s|] eqn:G; [|exact Hd'].
  apply dict_set_Forall; [exact Hd'|].
  destruct (dict_get_Forall _ _ _ _ _ Hd' G) as (H1 & H2 & H3).
  unfold balanced; cbn. destruct won; lia.
Qed.

Lemma game_step_balanced match_id md acc game :
  Forall (fun kv => balanced (snd kv)) (fst acc) ->
  Forall (fun kv => balanced (snd kv)) (fst (game_step match_id md acc game)).
Proof.
  destruct acc as [d gd]. cbn [fst]. intros Hd. unfold game_step.
  destruct (Py.eqb (g_gameState game) (VStr "Finished")); cbn [fst];
    [|exact Hd].
  now do 2 apply record_game_balanced.
Qed.

Lemma match_loop_balanced net ids st :
  Forall (fun kv => balanced (snd kv)) (player_stats st) ->
  Forall (fun kv => balanced (snd kv)) (player_stats (match_loop net ids st)).
Proof.
  unfold match_loop. revert st; induction ids as [|match_id ids IH];
    intros st Hst; [exact Hst|].
  cbn [fold_left]. apply IH. unfold match_step.
  destruct (net match_id) as [md|e]; [|exact Hst].
  destruct (read_header md) as [entries|e]; [|exact Hst].
  assert (G : forall games acc,
             Forall (fun kv => balanced (snd kv)) (fst acc) ->
             Forall (fun kv => balanced (snd kv))
               (fst (fst (games_loop match_id md games acc)))).
  { induction games as [|[g|] games IHg]; intros acc Ha; cbn [games_loop fst];
      [exact Ha| |exact Ha].
    apply IHg. now apply game_step_balanced. }
  specialize (G entries (player_stats st, games_data st) Hst).
  destruct (games_loop _ _ _ _) as [[ps gd] raised]. exact G.
Qed.

(** The sort keeps every element and puts the larger keys first. *)
Lemma insert_desc_perm {A} (key : A -> Z) x l :
  Permutation (x :: l) (insert_desc key x l).
Proof.
  induction l as [|y l IH]; [reflexivity|].
  cbn [insert_desc]. destruct (key y >? key x); [|reflexivity].
  rewrite perm_swap. now constructor.
Qed.

Lemma sort_desc_perm {A} (key : A -> Z) l : Permutation l (sort_desc key l).
Proof.
  induction l as [|x l IH]; [reflexivity|].
  cbn [sort_desc fold_right]. rewrite <- insert_desc_perm. now constructor.
Qed.

Lemma insert_desc_sorted {A} (key : A -> Z) x l :
  StronglySorted (fun a b => key a >= key b) l ->
  StronglySorted (fun a b => key a >= key b) (insert_desc key x l).
Proof.
  induction 1 as [|y l Hl IH Hy]; cbn [insert_desc].
  - repeat constructor.
  - destruct (key y >? key x) eqn:E.
    + constructor; [exact IH|].
      apply (Permutation_Forall (insert_desc_perm key x l)).
      constructor; [lia | exact Hy].
    + constructor; [now constructor|].
      constructor; [lia|].
      eapply Forall_impl; [|exact Hy]. cbn. intros; lia.
Qed.

Lemma sort_desc_sorted {A} (key : A -> Z) l :
  StronglySorted (fun a b => key a >= key b) (sort_desc key l).
Proof.
  induction l as [|x l IH]; [constructor|].
  cbn [sort_desc fold_right]. now apply insert_desc_sorted.
Qed.

(** What holds of player_stats_final.json on every input: each record
    has wins + losses = gamesPlayed and the winRate the script computes
    from them, and the list is in non-increasing order of winRate. *)
Theorem player_stats_final_balanced_sorted (net : api) (ids : list string) :
  let out := player_stats_final (match_loop net ids initial) in
  Forall (fun f => balanced (f_stats f) /\
                   winRate f = win_rate (wins (f_stats f)) (gamesPlayed (f_stats f)))
    out /\
  StronglySorted (fun a b => winRate a >= winRate b) out.
Proof.
  cbn zeta. unfold player_stats_final. split; [|apply sort_desc_sorted].
  apply (Permutation_Forall (sort_desc_perm _ _)).
  assert (H := match_loop_balanced net ids initial (Forall_nil _)).
  unfold Dict.values. rewrite map_map.
  induction H as [|[k s] r Hs _ IH]; cbn [map]; constructor; auto.
Qed.

(** The pairs of up to 100 games on which the float computation is off. *)
Lemma rate_gaps_100 : rate_gaps 100 = [(29, 50); (29, 100); (57, 100); (58, 100)]%nat.
Proof. vm_compute. reflexivity. Qed.

Lemma rate_gaps_In (w g n : nat) :
  (1 <= g <= n)%nat -> (w <= g)%nat -> rate_gap w g <> 0 -> In (w, g) (rate_gaps n).
Proof.
  intros Hg Hw Hne. unfold rate_gaps.
  apply in_flat_map. exists g. split; [apply in_seq; lia|].
  apply in_flat_map. exists w. split; [apply in_seq; lia|].
  destruct (rate_gap w g =? 0) eqn:E; [lia | now left].
Qed.

(** For every player with at most 100 games the winRate is the exact
    floor(100 * wins / gamesPlayed), except on the four pairs above. *)
Theorem win_rate_exact_up_to_100 (w g : nat) :
  (1 <= g <= 100)%nat -> (w <= g)%nat ->
  ~ In (w, g) [(29, 50); (29, 100); (57, 100); (58, 100)]%nat ->
  win_rate (Z.of_nat w) (Z.of_nat g) = 100 * Z.of_nat w / Z.of_nat g.
Proof.
  intros Hg Hw Hnot. rewrite <- rate_gaps_100 in Hnot.
  destruct (Z.eq_dec (rate_gap w g) 0) as [E|E]; [unfold rate_gap in E; lia|].
  exfalso. apply Hnot. now apply rate_gaps_In.
Qed.

(** 7 wins in 22 games. *)
Lemma win_rate_exact_up_to_100_witness :
  win_rate 7 22 = 100 * 7 / 22.
Proof.
  apply (win_rate_exact_up_to_100 7 22); [lia | lia |].
  cbn. intros [H|[H|[H|[H|[]]]]]; discriminate H.
Defined.

End StatsGeneral.

Section PlayerStats.
Import Py ScrapeTtblEnhanced.

(** C9 fails on the code: a player with 29 wins in 50 finished games is
    written with winRate 57, while floor(100 * 29 / 50) is 58.  The
    quotient 29/50 is rounded to a double below 0.58 and its product
    with 100 to a double below 58, which [int()] truncates. *)
Theorem C9_win_rate_float_truncation :
  map summary
    (player_stats_final (match_loop (fun _ => Ok fifty_games) ["m-1"] initial))
  = [(50, 29, 21, 57)] /\
  100 * 29 / 50 = 58.
Proof. vm_compute. split; reflexivity. Qed.

End PlayerStats.

(* ================================================================== *)
(** * Player discovery from matches (comprehensive_collector.py)    *)
(* ================================================================== *)

Section Discovery.
Import Py ComprehensiveCollector.

(** No [Match] has the attributes the discovery loop asks for. *)
Lemma getattr_player_fields m :
  getattr m "player_a_id" = Raise (AttributeError "player_a_id") /\
  getattr m "player_x_id" = Raise (AttributeError "player_x_id") /\
  getattr m "player_y_id" = Raise (AttributeError "player_y_id").
Proof. repeat split. Qed.

Lemma discover_match_raises st m :
  discover_match st m = Raise (AttributeError "player_a_id").
Proof. destruct st. reflexivity. Qed.

Lemma discover_years_raises net years l l' m st :
  reaches net years l l' m ->
  discover_years net years l st = (l', Raise (AttributeError "player_a_id")).
Proof.
  induction 1 as [y ys l l' m ms H | y ys l l1 l' m H _ IH];
    cbn [discover_years]; rewrite H.
  - cbn [for_each]. now rewrite discover_match_raises.
  - exact IH.
Qed.

(** C10: as soon as [scrape_matches_by_year] returns a match, the
    discovery step stops with an AttributeError raised by the first
    [getattr] on the first match: a [Match] has no attribute
    [player_a_id] (nor [player_x_id], [player_y_id]), and nothing in
    [discover_players_from_matches] catches it. *)
Theorem C10_discovery_raises (net : Fabrik.server) (years : list Z)
    (l l' : Fabrik.log) (m : Match) (players_db : Dict.t string Player) :
  reaches net years l l' m ->
  getattr m "player_a_id" = Raise (AttributeError "player_a_id") /\
  discover_players_from_matches net l players_db years
  = (l', Raise (AttributeError "player_a_id")).
Proof.
  intros H. split; [apply getattr_player_fields|].
  unfold discover_players_from_matches.
  now apply (discover_years_raises net years l l' m).
Qed.

(** C10 at a server with no match for 2024 and one for 2025. *)
Lemma C10_discovery_raises_witness :
  snd (discover_players_from_matches one_match_server [] [] [2024; 2025])
  = Raise (AttributeError "player_a_id").
Proof.
  destruct (scrape_matches_by_year one_match_server
              [Fabrik.mk_request 2024 100 None] 2025 200)
    as [l' [[|m ms]|e]] eqn:E; try (vm_compute in E; discriminate E).
  assert (R : reaches one_match_server [2024; 2025] [] l' m).
  { eapply reaches_later; [vm_compute; reflexivity|].
    eapply reaches_here. exact E. }
  destruct (C10_discovery_raises one_match_server [2024; 2025] [] l' m [] R)
    as [_ ->]. reflexivity.
Defined.

End Discovery.

(* ================================================================== *)
(** * The four game-score parsers compared                           *)
(* ================================================================== *)

Section ParsersAgree.
Import Py.

Lemma scraper_step tok games i :
  clean tok ->
  ComprehensiveScraper.parse_step games (i, tok)
  = match token_score tok with
    | Some (a, b) => (games ++ [ComprehensiveScraper.mk_game (i + 1) a b])%list
    | None => games
    end.
Proof.
  intros [_ Hn]. unfold ComprehensiveScraper.parse_step, token_score.
  rewrite Hn. cbn [negb orb]. rewrite split_on_once.
  destruct (split_once ":" tok) as [l [r|]] eqn:E.
  - assert (C : contains ":" tok = true) by now rewrite split_once_colon, E.
    rewrite C. cbn [negb]. destruct (contains ":" r) eqn:Cr.
    + assert (int r = None) as ->.
      { destruct (int r) eqn:Er; [|reflexivity].
        rewrite (int_no_colon _ _ Er) in Cr. discriminate. }
      rewrite split_on_once.
      destruct (split_once ":" r) as [r1 [r2|]] eqn:Er.
      * destruct (split_on_head r2) as (q & qs & ->).
        now destruct (int l).
      * rewrite split_once_colon, Er in Cr. discriminate.
    + rewrite (split_on_none _ Cr).
      destruct (int l); [|reflexivity]. now destruct (int r).
  - assert (C : contains ":" tok = false) by now rewrite split_once_colon, E.
    now rewrite C.
Qed.

Lemma numbered_scores i toks out : numbered i toks out -> out = scores i toks.
Proof.
  induction 1 as [i|i tok toks a b out Hs _ IH|i tok toks out Hs _ IH]; cbn [scores].
  - reflexivity.
  - apply token_score_spec in Hs. rewrite Hs. now f_equal.
  - destruct (token_score tok) as [[a b]|] eqn:E; [|exact IH].
    apply token_score_spec in E. now destruct (Hs a b).
Qed.

Lemma scores_next i toks : scores (i + 1) toks = map next_number (scores i toks).
Proof.
  revert i. induction toks as [|tok toks IH]; intros i; cbn [scores map].
  - reflexivity.
  - destruct (token_score tok) as [[a b]|]; cbn [map next_number]; now rewrite IH.
Qed.

Lemma parse_scores {G} (step : list G -> Z * string -> list G)
    (mk : Z -> Z -> Z -> G) (triple : G -> Z * Z * Z) (k i : Z) toks :
  (forall j a b, triple (mk j a b) = (j, a, b)) ->
  (forall tok games i, clean tok ->
     step games (i, tok)
     = match token_score tok with
       | Some (a, b) => (games ++ [mk (i + k) a b])%list
       | None => games
       end) ->
  Forall clean toks ->
  map triple (fold_left step (enumerate i toks) []) = scores (i + k) toks.
Proof.
  intros Hmk Hstep Hc.
  destruct (fold_numbered step mk triple k Hmk Hstep toks i [] Hc) as (out & -> & Hn).
  now apply numbered_scores.
Qed.

Lemma fabrik_scores s :
  map fabrik_triple (FabrikMatchScraper.parse_game_scores s) = scores 1 (split s).
Proof.
  unfold FabrikMatchScraper.parse_game_scores. rewrite split_strip.
  exact (parse_scores FabrikMatchScraper.parse_step FabrikMatchScraper.mk_game
           fabrik_triple 0 1 (split s) (fun _ _ _ => eq_refl) fabrik_step_0
           (split_clean s)).
Qed.

Lemma master_scores s :
  map master_triple (MasterScrape.parse_games_str s) = scores 1 (split s).
Proof.
  unfold MasterScrape.parse_games_str.
  destruct (nonempty (strip s)) eqn:Hs; cbn [negb].
  - rewrite split_strip.
    exact (parse_scores MasterScrape.parse_step MasterScrape.mk_game
             master_triple 0 1 (split s) (fun _ _ _ => eq_refl) master_step_0
             (split_clean s)).
  - destruct (strip s) eqn:E; [|discriminate].
    now rewrite <- split_strip, E.
Qed.

Lemma scraper_scores s :
  map scraper_triple (ComprehensiveScraper.parse_game_scores_str s)
  = scores 1 (split s).
Proof.
  unfold ComprehensiveScraper.parse_game_scores_str.
  destruct s as [|c r]; [reflexivity|]. cbn [nonempty negb].
  rewrite split_strip.
  exact (parse_scores ComprehensiveScraper.parse_step ComprehensiveScraper.mk_game
           scraper_triple 1 0 (split (String c r)) (fun _ _ _ => eq_refl) scraper_step
           (split_clean (String c r))).
Qed.

Lemma collector_scores s :
  map collector_triple (ComprehensiveCollector.parse_game_scores s)
  = scores 2 (split s).
Proof.
  unfold ComprehensiveCollector.parse_game_scores. rewrite split_strip.
  exact (parse_scores ComprehensiveCollector.parse_step ComprehensiveCollector.mk_game
           collector_triple 1 1 (split s) (fun _ _ _ => eq_refl) collector_step
           (split_clean s)).
Qed.

(** X9: on every string the parsers of fabrik_match_scraper.py,
    master_scrape.py and comprehensive_scraper.py return the same records
    (game number, first score, second score), in the same order. *)
Theorem three_parsers_agree (s : string) :
  map fabrik_triple (FabrikMatchScraper.parse_game_scores s)
  = map master_triple (MasterScrape.parse_games_str s) /\
  map fabrik_triple (FabrikMatchScraper.parse_game_scores s)
  = map scraper_triple (ComprehensiveScraper.parse_game_scores_str s).
Proof.
  rewrite fabrik_scores. split.
  - symmetry. apply master_scores.
  - symmetry. apply scraper_scores.
Qed.

(** X10: the records of the collector's parser are those of the parser of
    fabrik_match_scraper.py with every game number one higher. *)
Theorem collector_numbers_one_higher (s : string) :
  map collector_triple (ComprehensiveCollector.parse_game_scores s)
  = map next_number (map fabrik_triple (FabrikMatchScraper.parse_game_scores s)).
Proof.
  rewrite collector_scores, fabrik_scores. exact (scores_next 1 (split s)).
Qed.

End ParsersAgree.

Section NullGames.
Import Py.

(** X11: a row whose games are null stops [scrape_year] and
    [scrape_matches_by_year] with an [AttributeError], which nothing
    catches; the parsers of master_scrape.py and comprehensive_scraper.py
    read the same row as a match without games. *)
Theorem null_games_stop_the_unpaginated_loops (net : Fabrik.server)
    (l : Fabrik.log) (year max_matches : Z) (r : row) (rest : list Fabrik.item) :
  0 < max_matches ->
  net (List.length l) (Fabrik.mk_request year 100 None)
  = Ok (Fabrik.Items (Fabrik.Obj r :: rest)) ->
  get r "vw_matches___games_raw" = Some VNone ->
  snd (FabrikMatchScraper.scrape_year net l year max_matches)
  = Raise (AttributeError "strip") /\
  snd (ComprehensiveCollector.scrape_matches_by_year net l year max_matches)
  = Raise (AttributeError "strip") /\
  MasterScrape.parse_games (or_empty (get_none r "vw_matches___games_raw")) = Ok [] /\
  ComprehensiveScraper.parse_game_scores
    (get_or r "vw_matches___games_raw" (VStr "")) = Ok [].
Proof.
  intros Hm Hnet Hg.
  assert (Hf : Z.to_nat max_matches = S (Z.to_nat max_matches - 1)) by lia.
  assert (Hlt : (Z.of_nat (@List.length FabrikMatchScraper.Match []) <? max_matches) = true)
    by (apply Z.ltb_lt; cbn; lia).
  assert (Hlt' : (Z.of_nat (@List.length ComprehensiveCollector.Match []) <? max_matches) = true)
    by (apply Z.ltb_lt; cbn; lia).
  split; [|split; [|split]].
  - unfold FabrikMatchScraper.scrape_year. rewrite Hf.
    cbn [FabrikMatchScraper.scrape_loop]. rewrite Hlt.
    unfold FabrikMatchScraper.fetch_matches, Fabrik.send. rewrite Hnet.
    cbn [FabrikMatchScraper.convert FabrikMatchScraper.match_of_item].
    unfold FabrikMatchScraper.match_of_row, get_or. now rewrite Hg.
  - unfold ComprehensiveCollector.scrape_matches_by_year. rewrite Hf.
    cbn [ComprehensiveCollector.scrape_loop]. rewrite Hlt'.
    unfold ComprehensiveCollector.fetch_matches, Fabrik.send. rewrite Hnet.
    cbn [ComprehensiveCollector.convert ComprehensiveCollector.match_of_item].
    unfold ComprehensiveCollector.match_of_row, get_or. now rewrite Hg.
  - unfold get_none, get_or. now rewrite Hg.
  - unfold get_or. now rewrite Hg.
Qed.

(** X11 at an endpoint whose page holds a walkover without games. *)
Lemma null_games_stop_the_unpaginated_loops_witness :
  snd (FabrikMatchScraper.scrape_year walkover_server [] 2025 500)
  = Raise (AttributeError "strip") /\
  snd (ComprehensiveCollector.scrape_matches_by_year walkover_server [] 2025 500)
  = Raise (AttributeError "strip") /\
  MasterScrape.parse_games (or_empty (get_none walkover_row "vw_matches___games_raw"))
  = Ok [] /\
  ComprehensiveScraper.parse_game_scores
    (get_or walkover_row "vw_matches___games_raw" (VStr "")) = Ok [].
Proof.
  apply (null_games_stop_the_unpaginated_loops walkover_server [] 2025 500
           walkover_row []); [lia|reflexivity|reflexivity].
Defined.

End NullGames.

(* ================================================================== *)
(** * Arguments and books of master_scrape.py                        *)
(* ================================================================== *)

Section Years.
Import Py MasterScrape.

Lemma insort_desc_In x l y : In y (insort_desc x l) <-> y = x \/ In y l.
Proof.
  induction l as [|z l IH]; cbn [insort_desc].
  - cbn. intuition.
  - destruct (z >? x); cbn [In]; [rewrite IH|]; intuition.
Qed.

Lemma insort_desc_sorted x l :
  StronglySorted Z.gt l -> ~ In x l -> StronglySorted Z.gt (insort_desc x l).
Proof.
  induction 1 as [|z l Hs IH Hz]; intros Hx; cbn [insort_desc].
  - repeat constructor.
  - destruct (z >? x) eqn:E.
    + constructor; [apply IH; intros F; apply Hx; now right|].
      apply Forall_forall. intros y Hy. apply insort_desc_In in Hy.
      destruct Hy as [->|Hy]; [lia|].
      rewrite Forall_forall in Hz. now apply Hz.
    + assert (x > z) by (cbn [In] in Hx; lia).
      constructor; [now constructor|].
      constructor; [assumption|].
      rewrite Forall_forall in Hz |- *. intros y Hy. specialize (Hz y Hy). lia.
Qed.

Lemma sorted_reverse_In l y : In y (sorted_reverse l) <-> In y l.
Proof.
  induction l as [|x l IH]; cbn [sorted_reverse fold_right]; [reflexivity|].
  fold (sorted_reverse l). rewrite insort_desc_In, IH. cbn. intuition.
Qed.

Lemma sorted_reverse_sorted l :
  NoDup l -> StronglySorted Z.gt (sorted_reverse l).
Proof.
  induction 1 as [|x l Hx _ IH]; cbn [sorted_reverse fold_right]; [constructor|].
  fold (sorted_reverse l). apply insort_desc_sorted; [exact IH|].
  now rewrite sorted_reverse_In.
Qed.

Lemma years_loop_ok parts : forall years,
  Forall (fun p => int p <> None) (filter nonempty (map strip parts)) ->
  exists ys, years_loop parts years = Ok (years ++ ys)%list /\
             map Some ys = map int (filter nonempty (map strip parts)).
Proof.
  induction parts as [|part parts IH]; intros years H; cbn [years_loop map filter].
  - exists []. now rewrite app_nil_r.
  - cbn [map filter] in H. destruct (nonempty (strip part)) eqn:E; cbn [negb].
    + inversion H as [|? ? Hp Hr]; subst.
      destruct (int (strip part)) as [y|] eqn:Ey; [|congruence].
      destruct (IH (years ++ [y])%list Hr) as (ys & -> & Hm).
      exists (y :: ys). split; [now rewrite <- app_assoc|].
      cbn [map]. now rewrite Hm, Ey.
    + exact (IH years H).
Qed.

Lemma years_loop_raises parts : forall years,
  Exists (fun p => int p = None) (filter nonempty (map strip parts)) ->
  years_loop parts years = Raise (ValueError "invalid literal for int()").
Proof.
  induction parts as [|part parts IH]; intros years H; cbn [years_loop map filter] in *.
  - inversion H.
  - destruct (nonempty (strip part)) eqn:E; cbn [negb].
    + destruct (int (strip part)) as [y|] eqn:Ey; [|reflexivity].
      apply IH. inversion H as [? ? Hp|? ? Hr]; subst; [congruence|exact Hr].
    + now apply IH.
Qed.

Lemma all_or_one (l : list string) :
  Forall (fun p => int p <> None) l \/ Exists (fun p => int p = None) l.
Proof.
  induction l as [|p l [IH|IH]].
  - left. constructor.
  - destruct (int p) eqn:E.
    + left. constructor; [congruence|exact IH].
    + right. now constructor.
  - right. now constructor 2.
Qed.

Lemma parse_years_arg_ok s ys :
  parse_years_arg s = Ok ys ->
  Forall (fun p => int p <> None) (year_parts s) /\
  StronglySorted Z.gt ys /\
  forall y, In y ys <-> In (Some y) (map int (year_parts s)).
Proof.
  unfold parse_years_arg, year_parts. intros H.
  destruct (all_or_one (filter nonempty (map strip (split_on "," s)))) as [A|A].
  - split; [exact A|].
    destruct (years_loop_ok _ [] A) as (l & E & Hm).
    rewrite E in H. cbn [Py.bind app] in H. injection H as <-.
    split.
    + apply sorted_reverse_sorted. apply NoDup_nodup.
    + intros y. rewrite sorted_reverse_In. unfold set_of. rewrite nodup_In.
      rewrite <- Hm. rewrite in_map_iff. split.
      * intros Hy. now exists y.
      * intros (z & [= ->] & Hz). exact Hz.
  - rewrite (years_loop_raises _ [] A) in H. discriminate.
Qed.

(** X12: when [parse_years_arg] returns, the years come strictly descending
    (the most recent first, none twice), and they are exactly the values
    of the non-blank parts of the argument. *)
Theorem parse_years_arg_descending (years_csv : string) (ys : list Z) :
  parse_years_arg years_csv = Ok ys ->
  StronglySorted Z.gt ys /\
  forall y, In y ys <-> In (Some y) (map int (year_parts years_csv)).
Proof.
  intros H. now destruct (parse_years_arg_ok _ _ H) as (_ & ? & ?).
Qed.

Lemma parse_years_arg_descending_witness :
  parse_years_arg " 2024, 2025,,2024 " = Ok [2025; 2024] /\
  StronglySorted Z.gt [2025; 2024] /\
  forall y, In y [2025; 2024]
            <-> In (Some y) (map int (year_parts " 2024, 2025,,2024 ")).
Proof.
  split; [reflexivity|].
  apply (parse_years_arg_descending " 2024, 2025,,2024 "). reflexivity.
Defined.

(** X13: [parse_years_arg] raises [ValueError] exactly when some non-blank
    part of the argument is not an integer literal; otherwise it returns. *)
Theorem parse_years_arg_raises (years_csv : string) :
  (parse_years_arg years_csv = Raise (ValueError "invalid literal for int()")
   <-> Exists (fun p => int p = None) (year_parts years_csv)) /\
  ((exists ys, parse_years_arg years_csv = Ok ys)
   <-> Forall (fun p => int p <> None) (year_parts years_csv)).
Proof.
  unfold year_parts.
  destruct (all_or_one (filter nonempty (map strip (split_on "," years_csv))))
    as [A|A].
  - destruct (years_loop_ok _ [] A) as (l & E & _).
    assert (P : parse_years_arg years_csv = Ok (sorted_reverse (set_of l))).
    { unfold parse_years_arg. now rewrite E. }
    split; split; intros H.
    + rewrite P in H. discriminate.
    + apply Exists_exists in H. destruct H as (p & Hp & Hn).
      rewrite Forall_forall in A. now destruct (A p Hp).
    + exact A.
    + eexists. exact P.
  - assert (P : parse_years_arg years_csv
                = Raise (ValueError "invalid literal for int()")).
    { unfold parse_years_arg. now rewrite (years_loop_raises _ [] A). }
    split; split; intros H.
    + exact A.
    + exact P.
    + destruct H as (ys & H). rewrite P in H. discriminate.
    + apply Exists_exists in A. destruct A as (p & Hp & Hn).
      rewrite Forall_forall in H. now destruct (H p Hp).
Qed.

Lemma range_down_In start stop y :
  In y (range_down start stop) <-> stop < y <= start.
Proof.
  unfold range_down. rewrite in_map_iff. split.
  - intros (i & <- & Hi). apply in_seq in Hi. lia.
  - intros H. exists (Z.to_nat (start - y)). split; [lia|].
    apply in_seq. lia.
Qed.

Lemma seq_descending f n : forall k,
  (forall i j, (i < j)%nat -> f i > f j) ->
  StronglySorted Z.gt (map f (seq k n)).
Proof.
  induction n as [|n IH]; intros k Hf; cbn [seq map]; constructor.
  - now apply IH.
  - apply Forall_forall. intros y Hy. apply in_map_iff in Hy.
    destruct Hy as (j & <- & Hj). apply in_seq in Hj. apply Hf. lia.
Qed.

Lemma range_down_sorted start stop : StronglySorted Z.gt (range_down start stop).
Proof. apply seq_descending. intros i j Hij. lia. Qed.

(** X14: without [--years], [--start-year] and [--end-year] can be given
    in either order: [main] goes through the years between the two, both
    included and each defaulting to the current year, the most recent
    first. *)
Theorem years_of_args_range (start_year end_year : option Z) (now_year : Z) :
  years_of_args None start_year end_year now_year
  = years_of_args None end_year start_year now_year /\
  exists ys,
    years_of_args None start_year end_year now_year = Ok ys /\
    StronglySorted Z.gt ys /\
    forall y, In y ys <->
              Z.min (year_or start_year now_year) (year_or end_year now_year) <= y
              <= Z.max (year_or start_year now_year) (year_or end_year now_year).
Proof.
  unfold years_of_args. cbn [truthy_opt].
  fold (year_or start_year now_year). fold (year_or end_year now_year).
  set (a := year_or start_year now_year). set (b := year_or end_year now_year).
  split.
  - destruct (a <? b) eqn:E1, (b <? a) eqn:E2; try reflexivity; [lia|].
    now replace b with a by lia.
  - destruct (a <? b) eqn:E1; eexists; (split; [reflexivity|]);
      (split; [apply range_down_sorted|]);
      intros y; rewrite range_down_In; lia.
Qed.

End Years.

Section Rows.
Import Py MasterScrape.

Lemma strip_value_or_empty v :
  strip_value (or_empty v)
  = if textual v
    then Ok (strip (match or_empty v with VStr s => s | _ => "" end))
    else Raise (AttributeError "strip").
Proof.
  unfold or_empty, textual.
  destruct v as [|b|z|s]; cbn [truthy negb strip_value]; try reflexivity.
  - now destruct b.
  - now destruct (z =? 0).
  - now destruct (nonempty s).
Qed.

Lemma parse_games_or_empty v :
  parse_games (or_empty v)
  = if textual v
    then Ok (parse_games_str (match or_empty v with VStr s => s | _ => "" end))
    else Raise (AttributeError "strip").
Proof.
  unfold parse_games, or_empty, textual.
  destruct v as [|b|z|s]; cbn [truthy negb]; try reflexivity.
  - now destruct b.
  - destruct (z =? 0) eqn:E; cbn [negb truthy]; [reflexivity|].
    now rewrite E.
  - destruct (nonempty s) eqn:E; cbn [truthy]; [|reflexivity]. now rewrite E.
Qed.

(** X15: [row_to_match] returns a match exactly when each of the two names,
    the two associations and the games of the row is a string or a false
    value; any other value there (a number, [True]) makes it raise
    [AttributeError], which the loop of [main] does not catch. *)
Theorem row_to_match_raises (r : row) :
  (forallb (fun k => textual (get_none r k)) text_fields = true ->
   exists m, row_to_match r = Ok m) /\
  (forallb (fun k => textual (get_none r k)) text_fields = false ->
   row_to_match r = Raise (AttributeError "strip") /\
   forall st, main_body st r = Raise (AttributeError "strip")).
Proof.
  assert (E : row_to_match r
              = if forallb (fun k => textual (get_none r k)) text_fields
                then row_to_match r else Raise (AttributeError "strip")).
  { unfold row_to_match, text_fields. cbn [forallb].
    rewrite !strip_value_or_empty, parse_games_or_empty.
    destruct (textual (get_none r "vw_matches___name_a")); [|reflexivity].
    destruct (textual (get_none r "vw_matches___name_x")); [|reflexivity].
    destruct (textual (get_none r "vw_matches___assoc_a")); [|reflexivity].
    destruct (textual (get_none r "vw_matches___assoc_x")); [|reflexivity].
    destruct (textual (get_none r "vw_matches___games_raw")); reflexivity. }
  split; intros H.
  - unfold row_to_match, text_fields in *. cbn [forallb] in H.
    rewrite !strip_value_or_empty, parse_games_or_empty.
    apply andb_true_iff in H as [-> H]. apply andb_true_iff in H as [-> H].
    apply andb_true_iff in H as [-> H]. apply andb_true_iff in H as [-> H].
    apply andb_true_iff in H as [-> _]. cbn [Py.bind].
    destruct (compute_set_score _). now eexists.
  - rewrite H in E. split; [exact E|].
    intros st. unfold main_body. now rewrite E.
Qed.

(** X15 at a row with strings only and at a row whose first name is the
    number 7. *)
Lemma row_to_match_raises_witness :
  (exists m, row_to_match row_with_ids = Ok m) /\
  row_to_match numeric_name_row = Raise (AttributeError "strip") /\
  forall st, main_body st numeric_name_row = Raise (AttributeError "strip").
Proof.
  split.
  - apply (proj1 (row_to_match_raises row_with_ids)). reflexivity.
  - apply (proj2 (row_to_match_raises numeric_name_row)). reflexivity.
Defined.

End Rows.

Section Books.
Import Py MasterScrape.

Lemma sget_set_same {V} (d : Dict.t string V) k v :
  Dict.get String.eqb (Dict.set String.eqb d k v) k = Some v.
Proof.
  apply (dict_get_set_same String.eqb String.eqb_sym string_eqb_trans).
  apply String.eqb_refl.
Qed.

Lemma sget_set_other {V} (d : Dict.t string V) k k' v :
  String.eqb k k' = false ->
  Dict.get String.eqb (Dict.set String.eqb d k v) k' = Dict.get String.eqb d k'.
Proof.
  apply (dict_get_set_other String.eqb String.eqb_sym string_eqb_trans).
Qed.

Lemma sget_set {V} (d : Dict.t string V) k k' v :
  Dict.get String.eqb (Dict.set String.eqb d k v) k'
  = if String.eqb k k' then Some v else Dict.get String.eqb d k'.
Proof.
  destruct (String.eqb k k') eqn:E.
  - apply String.eqb_eq in E. subst. apply sget_set_same.
  - now apply sget_set_other.
Qed.

Lemma stats_of_upsert players id name association now k :
  stats_of (upsert_player players id name association now) k
  = if (truthy_opt id && String.eqb (opt_or_empty id) k)%bool
    then Some (match stats_of players k with Some s => s | None => mk_stats 0 0 0 end)
    else stats_of players k.
Proof.
  unfold upsert_player, stats_of.
  destruct (truthy_opt id); cbn [negb andb]; [|reflexivity].
  rewrite sget_set.
  destruct (String.eqb (opt_or_empty id) k) eqn:E; [|reflexivity].
  apply String.eqb_eq in E. subst k. cbn [option_map]. f_equal.
  destruct (Dict.get String.eqb players (opt_or_empty id)) as [rec|]; cbn [option_map].
  - destruct (truthy_opt association && negb (truthy_opt (nationality rec)))%bool;
      cbn [full_name player_stats];
      destruct (truthy_opt name && negb (truthy_opt (full_name rec)))%bool;
      try reflexivity;
      now destruct (normalize_name (opt_or_empty name)) as [[? ?] ?].
  - destruct (normalize_name (opt_or_empty name)) as [[first last] full].
    cbn [nationality].
    destruct (truthy_opt association && negb (truthy_opt association))%bool;
      cbn [full_name player_stats nationality];
      destruct (truthy_opt name && negb (truthy_opt full))%bool;
      reflexivity.
Qed.

Lemma stats_of_bump f players id k :
  stats_of (bump f players id) k
  = if String.eqb id k then option_map f (stats_of players k)
    else stats_of players k.
Proof.
  unfold bump, stats_of.
  destruct (Dict.get String.eqb players id) as [p|] eqn:E.
  - rewrite sget_set. destruct (String.eqb id k) eqn:Ek; [|reflexivity].
    apply String.eqb_eq in Ek. subst k. now rewrite E.
  - destruct (String.eqb id k) eqn:Ek; [|reflexivity].
    apply String.eqb_eq in Ek. subst k. now rewrite E.
Qed.

Lemma sget_index_append index id match_id k :
  Dict.get String.eqb (index_append index id match_id) k
  = if String.eqb id k
    then Some (match Dict.get String.eqb index k with
               | Some l => l
               | None => []
               end ++ [match_id])%list
    else Dict.get String.eqb index k.
Proof.
  unfold index_append.
  destruct (Dict.get String.eqb index id) as [l|] eqn:E; rewrite sget_set;
    destruct (String.eqb id k) eqn:Ek; try reflexivity;
    apply String.eqb_eq in Ek; subst k; now rewrite E.
Qed.

(** [books_agree] in terms of the statistics. *)
Lemma books_agree_stats st :
  books_agree st <->
  forall id,
    match stats_of (players st) id with
    | Some s =>
        matches_played s = Z.of_nat (List.length (indexed st id)) /\
        0 <= wins s /\ 0 <= losses s /\ wins s + losses s <= matches_played s
    | None => Dict.get String.eqb (player_match_index st) id = None
    end.
Proof.
  unfold books_agree, stats_of.
  split; intros H id; specialize (H id);
    now destruct (Dict.get String.eqb (players st) id).
Qed.

Lemma main_body_books st r st' :
  main_body st r = Ok st' -> books_agree st -> books_agree st'.
Proof.
  unfold main_body. intros H Hst.
  destruct (row_to_match r) as [m|e]; cbn [Py.bind] in H; [|discriminate].
  rewrite books_agree_stats in Hst |- *. intros k. specialize (Hst k).
  unfold indexed in *. revert H.
  destruct (nonempty (match_id m));
    destruct (truthy_opt (ref_ittf_id (player_a m))) eqn:Ha;
    destruct (truthy_opt (ref_ittf_id (player_x m))) eqn:Hx;
    (destruct (winner_inferred m) as [w|];
     [destruct (String.eqb w "A"); destruct (String.eqb w "X")|]);
    cbn [andb]; intros [= <-]; cbn [players player_match_index];
    rewrite ?stats_of_bump, ?stats_of_upsert, ?sget_index_append;
    rewrite ?Ha, ?Hx; cbn [andb];
    destruct (String.eqb (opt_or_empty (ref_ittf_id (player_a m))) k);
    destruct (String.eqb (opt_or_empty (ref_ittf_id (player_x m))) k);
    destruct (stats_of (MasterScrape.players st) k) as [s|];
    cbn [option_map played won lost matches_played wins losses];
    try rewrite Hst; cbn [List.length app];
    rewrite ?length_app; cbn [List.length]; try lia; try reflexivity.
Qed.

End Books.

Section BooksTotals.
Import Py MasterScrape.

Lemma dict_sum_set {K V} (eqb : K -> K -> bool) (m : V -> Z) (d : Dict.t K V) k v :
  dict_sum m (Dict.set eqb d k v)
  = dict_sum m d - match Dict.get eqb d k with Some p => m p | None => 0 end + m v.
Proof.
  unfold dict_sum.
  induction d as [|[k' v'] d IH]; cbn [Dict.set Dict.get map fold_right snd].
  - lia.
  - destruct (eqb k' k); cbn [map fold_right snd]; [lia|].
    rewrite IH. lia.
Qed.

Lemma upsert_player_record players id name association now :
  truthy_opt id = true ->
  exists rec,
    upsert_player players id name association now
    = Dict.set String.eqb players (opt_or_empty id) rec /\
    player_stats rec
    = match stats_of players (opt_or_empty id) with
      | Some s => s
      | None => mk_stats 0 0 0
      end.
Proof.
  intros Hid. unfold upsert_player, stats_of. rewrite Hid. cbn [negb].
  eexists. split; [reflexivity|]. cbn [player_stats].
  destruct (Dict.get String.eqb players (opt_or_empty id)) as [rec|]; cbn [option_map].
  - destruct (truthy_opt association && negb (truthy_opt (nationality rec)))%bool;
      cbn [full_name player_stats];
      destruct (truthy_opt name && negb (truthy_opt (full_name rec)))%bool;
      try reflexivity;
      now destruct (normalize_name (opt_or_empty name)) as [[? ?] ?].
  - destruct (normalize_name (opt_or_empty name)) as [[first last] full].
    cbn [nationality].
    destruct (truthy_opt association && negb (truthy_opt association))%bool;
      cbn [full_name player_stats nationality];
      destruct (truthy_opt name && negb (truthy_opt full))%bool;
      reflexivity.
Qed.

Lemma upsert_player_sum (f : stats -> Z) players id name association now :
  f (mk_stats 0 0 0) = 0 ->
  dict_sum (fun p => f (player_stats p)) (upsert_player players id name association now)
  = dict_sum (fun p => f (player_stats p)) players.
Proof.
  intros Hf. destruct (truthy_opt id) eqn:Hid.
  - destruct (upsert_player_record players id name association now Hid)
      as (rec & -> & Hs).
    rewrite dict_sum_set, Hs. unfold stats_of.
    destruct (Dict.get String.eqb players (opt_or_empty id)); cbn [option_map]; lia.
  - unfold upsert_player. now rewrite Hid.
Qed.

Lemma bump_sum (f : stats -> Z) g players id :
  dict_sum (fun p => f (player_stats p)) (bump g players id)
  = dict_sum (fun p => f (player_stats p)) players
    + match stats_of players id with
      | Some s => f (g s) - f s
      | None => 0
      end.
Proof.
  unfold bump, stats_of. destruct (Dict.get String.eqb players id) as [p|] eqn:E; cbn [option_map].
  - rewrite dict_sum_set, E. cbn [player_stats]. lia.
  - lia.
Qed.

Lemma main_body_totals st r st' :
  main_body st r = Ok st' ->
  total_wins st' - total_losses st' = total_wins st - total_losses st.
Proof.
  unfold main_body, total_wins, total_losses. intros H.
  destruct (row_to_match r) as [m|e]; cbn [Py.bind] in H; [|discriminate].
  revert H.
  destruct (nonempty (match_id m));
    destruct (truthy_opt (ref_ittf_id (player_a m))) eqn:Ha;
    destruct (truthy_opt (ref_ittf_id (player_x m))) eqn:Hx;
    (destruct (winner_inferred m) as [w|];
     [destruct (String.eqb w "A"); destruct (String.eqb w "X")|]);
    cbn [andb]; intros [= <-]; cbn [players];
    rewrite ?bump_sum, ?upsert_player_sum by reflexivity;
    rewrite ?stats_of_bump, ?stats_of_upsert;
    rewrite ?Ha, ?Hx, ?String.eqb_refl; cbn [andb];
    rewrite ?orb_true_r;
    try (destruct (String.eqb (opt_or_empty (ref_ittf_id (player_a m)))
                    (opt_or_empty (ref_ittf_id (player_x m)))));
    try (destruct (String.eqb (opt_or_empty (ref_ittf_id (player_x m)))
                    (opt_or_empty (ref_ittf_id (player_a m)))));
    repeat match goal with
           | |- context [stats_of ?d ?k] => destruct (stats_of d k)
           end;
    cbn [option_map played won lost matches_played wins losses];
    lia.
Qed.

Lemma page_loop_preserves {S} (body : S -> row -> result S) (P : S -> Prop) :
  (forall s r s', body s r = Ok s' -> P s -> P s') ->
  forall rows seen cnt s seen' cnt' s',
    page_loop body rows seen cnt s = Ok (seen', cnt', s') -> P s -> P s'.
Proof.
  intros Hb rows. induction rows as [|[r|rs] rows IH]; intros seen cnt s seen' cnt' s' H Hs;
    cbn [page_loop] in H.
  - now injection H as <- <- <-.
  - destruct (negb _); [now apply (IH _ _ _ _ _ _ H)|].
    destruct (existsb _ _); [now apply (IH _ _ _ _ _ _ H)|].
    destruct (body s r) as [s1|e] eqn:E; cbn [Py.bind] in H; [|discriminate].
    apply (IH _ _ _ _ _ _ H). now apply (Hb _ _ _ E).
  - discriminate.
Qed.

Lemma pages_preserves {S} (body : S -> row -> result S) (P : S -> Prop) :
  (forall s r s', body s r = Ok s' -> P s -> P s') ->
  forall n net cfg year l seen offset stagnant s s' why,
    snd (pages body n net cfg year l seen offset stagnant s) = Ok (s', why) ->
    P s -> P s'.
Proof.
  intros Hb n. induction n as [|n IH]; intros net cfg year l seen offset stagnant s s' why H Hs;
    cbn [pages] in H.
  - now injection H as <- <-.
  - destruct (fetch_fabrik_page net l cfg year offset) as [l' [rows|e]];
      [|discriminate].
    destruct rows as [|row0 rows]; [now injection H as <- <-|].
    destruct (page_loop body (row0 :: rows) seen 0 s) as [[[seen1 cnt1] s1]|e] eqn:E;
      [|discriminate].
    assert (P s1) by now apply (page_loop_preserves body P Hb _ _ _ _ _ _ _ E).
    destruct (_ >=? 2); [now injection H as <- <-|].
    now apply (IH _ _ _ _ _ _ _ _ _ _ H).
Qed.

Lemma main_years_preserves (P : run -> Prop) :
  (forall s r s', main_body s r = Ok s' -> P s -> P s') ->
  forall net cfg years l st st',
    snd (main_years net cfg years l st) = Ok st' -> P st -> P st'.
Proof.
  intros Hb net cfg years. induction years as [|y ys IH]; intros l st st' H Hs;
    cbn [main_years] in H.
  - now injection H as <-.
  - destruct (iter_fabrik_matches main_body net cfg y l st) as [l' [[st1 why]|e]] eqn:E;
      [|discriminate].
    apply (IH _ _ _ H).
    apply (pages_preserves main_body P Hb
             (Z.to_nat (max_pages_per_year cfg)) net cfg y l [] 0 0 st st1 why);
      [|exact Hs].
    unfold iter_fabrik_matches in E. now rewrite E.
Qed.

(** X16: when [main] reaches the end of its loops, its books agree: every
    player has played as many matches as [player_match_index] lists for
    the id, wins and losses are not negative and together at most the
    matches played, and the index has entries for recorded players only. *)
Theorem main_books_agree (net : Fabrik.server) (cfg : FabrikConfig)
    (years : list Z) (st : run) :
  snd (main net cfg years) = Ok st -> books_agree st.
Proof.
  intros H. apply (main_years_preserves books_agree main_body_books _ _ _ _ _ _ H).
  intros id. reflexivity.
Qed.

(** X16 at an endpoint with one match, won by player A. *)
Lemma main_books_agree_witness :
  exists st,
    snd (main (paging_server [row_with_ids]) default_config [2025]) = Ok st /\
    books_agree st.
Proof.
  destruct (snd (main (paging_server [row_with_ids]) default_config [2025]))
    as [st|e] eqn:E; [|vm_compute in E; discriminate E].
  exists st. split; [reflexivity|].
  exact (main_books_agree (paging_server [row_with_ids]) default_config [2025] st E).
Defined.

(** X17: in the statistics [main] writes, the wins of all players add up to
    the losses of all players. *)
Theorem main_wins_equal_losses (net : Fabrik.server) (cfg : FabrikConfig)
    (years : list Z) (st : run) :
  snd (main net cfg years) = Ok st -> total_wins st = total_losses st.
Proof.
  intros H.
  enough (total_wins st - total_losses st = 0) by lia.
  apply (main_years_preserves (fun s => total_wins s - total_losses s = 0)) in H.
  - exact H.
  - intros s r s' Hb Hs. rewrite (main_body_totals _ _ _ Hb). exact Hs.
  - reflexivity.
Qed.

(** X17 at the same endpoint. *)
Lemma main_wins_equal_losses_witness :
  exists st,
    snd (main (paging_server [row_with_ids]) default_config [2025]) = Ok st /\
    total_wins st = total_losses st.
Proof.
  destruct (snd (main (paging_server [row_with_ids]) default_config [2025]))
    as [st|e] eqn:E; [|vm_compute in E; discriminate E].
  exists st. split; [reflexivity|].
  exact (main_wins_equal_losses (paging_server [row_with_ids]) default_config
           [2025] st E).
Defined.

End BooksTotals.

(* ================================================================== *)
(** * Reports of scrape_ttbl_enhanced.py                             *)
(* ================================================================== *)

Section Ttbl.
Import Py ScrapeTtblEnhanced.

Lemma sorted_filter {A} (R : A -> A -> Prop) (f : A -> bool) l :
  StronglySorted R l -> StronglySorted R (filter f l).
Proof.
  induction 1 as [|x l _ IH Hx]; cbn [filter]; [constructor|].
  destruct (f x); [|exact IH]. constructor; [exact IH|].
  rewrite Forall_forall in Hx |- *. intros y Hy. apply filter_In in Hy. now apply Hx.
Qed.

Lemma sorted_app {A} (R : A -> A -> Prop) l1 l2 :
  StronglySorted R (l1 ++ l2) ->
  StronglySorted R l1 /\ forall p q, In p l1 -> In q l2 -> R p q.
Proof.
  induction l1 as [|x l1 IH]; cbn [app]; intros H.
  - split; [constructor|intros p q []].
  - inversion H as [|? ? Hs Hx]; subst. destruct (IH Hs) as [S1 S2].
    split.
    + constructor; [exact S1|]. rewrite Forall_forall in Hx |- *.
      intros y Hy. apply Hx. apply in_or_app. now left.
    + intros p q [<-|Hp] Hq; [|now apply S2].
      rewrite Forall_forall in Hx. apply Hx. apply in_or_app. now right.
Qed.

(** X18: [top_players] holds at most twenty entries, each with five games or
    more, still ordered by falling winRate; they are the first of the
    entries with five games, and every such entry left out has a winRate
    no higher than any entry listed. *)
Theorem top_players_are_best (st : state) :
  let top := top_players (player_stats_final st) in
  (List.length top <= 20)%nat /\
  Forall (fun p => gamesPlayed (f_stats p) >= 5) top /\
  StronglySorted (fun a b => winRate a >= winRate b) top /\
  exists rest,
    filter five_games (player_stats_final st) = (top ++ rest)%list /\
    (rest <> [] -> List.length top = 20%nat) /\
    forall p q, In p top -> In q rest -> winRate p >= winRate q.
Proof.
  cbn zeta. unfold top_players. fold five_games.
  set (l := filter five_games (player_stats_final st)).
  assert (Hl : StronglySorted (fun a b => winRate a >= winRate b) l).
  { apply sorted_filter. apply sort_desc_sorted. }
  rewrite <- (firstn_skipn 20 l) in Hl. apply sorted_app in Hl.
  destruct Hl as [S1 S2].
  split; [apply firstn_le_length|].
  split.
  { apply Forall_forall. intros p Hp.
    assert (Hin : In p l).
    { rewrite <- (firstn_skipn 20 l). apply in_or_app. now left. }
    clear Hp. rename Hin into Hp.
    apply filter_In in Hp. destruct Hp as [_ Hp]. unfold five_games in Hp. lia. }
  split; [exact S1|].
  exists (skipn 20 l). split; [now rewrite firstn_skipn|].
  split; [|exact S2].
  intros Hr. rewrite length_firstn.
  destruct (Nat.le_gt_cases (List.length l) 20) as [Hle|Hgt]; [|lia].
  now rewrite skipn_all2 in Hr.
Qed.

Lemma game_step_games_data match_id md acc game :
  snd (game_step match_id md acc game)
  = (snd acc ++ [mk_game_record match_id (md_gameday_name md) (md_timeStamp md)
                   (g_index game) (g_gameState game) (g_winnerSide game)
                   (mk_player_tag
                      (player_id_of (pick_player (g_homePlayer game) (g_homeLeaguePlayer game)))
                      (player_name_of (pick_player (g_homePlayer game) (g_homeLeaguePlayer game))))
                   (mk_player_tag
                      (player_id_of (pick_player (g_awayPlayer game) (g_awayLeaguePlayer game)))
                      (player_name_of (pick_player (g_awayPlayer game) (g_awayLeaguePlayer game))))])%list.
Proof.
  unfold game_step. destruct acc as [ps gd]. cbn [snd].
  now destruct (Py.eqb (g_gameState game) (VStr "Finished")).
Qed.

Lemma games_loop_ids match_id md games : forall acc,
  map gr_matchId (snd (fst (games_loop match_id md games acc)))
  = (map gr_matchId (snd acc)
     ++ repeat match_id (List.length (leading_games games)))%list.
Proof.
  induction games as [|[g|] games IH]; intros acc;
    cbn [games_loop leading_games List.length repeat fst snd].
  - now rewrite app_nil_r.
  - rewrite IH, game_step_games_data, map_app. cbn [map gr_matchId].
    now rewrite <- app_assoc.
  - now rewrite app_nil_r.
Qed.

Lemma games_loop_raised match_id md games : forall acc,
  snd (games_loop match_id md games acc)
  = if forallb is_game games then None else Some (AttributeError "get").
Proof.
  induction games as [|[g|] games IH]; intros acc;
    cbn [games_loop forallb is_game andb snd]; [reflexivity|apply IH|reflexivity].
Qed.

Lemma read_header_readable md :
  match read_header md with
  | Ok games => readable md = true /\ md_games md = Some games
  | Raise _ => readable md = false
  end.
Proof.
  unfold read_header, readable.
  destruct (md_shape md), (md_homeTeam md), (md_awayTeam md), (md_gameday md),
    (md_games md); cbn; auto.
Qed.

Lemma match_step_accounts net st match_id :
  let st' := match_step net st match_id in
  map fst (errors st')
  = (map fst (errors st) ++ (if completes net match_id then [] else [match_id]))%list /\
  map gr_matchId (games_data st')
  = (map gr_matchId (games_data st) ++ game_ids net match_id)%list /\
  forall id, Dict.mem String.eqb (files st') id
             = (Dict.mem String.eqb (files st) id
                || (String.eqb match_id id && succeeds net match_id))%bool.
Proof.
  cbn zeta. unfold match_step, succeeds, completes, game_ids, as_expected, recorded.
  destruct (net match_id) as [md|e]; cbn [errors games_data files].
  - assert (F : forall id fs,
               Dict.mem String.eqb (Dict.set String.eqb fs match_id md) id
               = (Dict.mem String.eqb fs id || (String.eqb match_id id && true))%bool).
    { intros id fs. unfold Dict.mem. destruct (String.eqb match_id id) eqn:Ei.
      - rewrite (dict_get_set_same String.eqb String.eqb_sym string_eqb_trans _ _ _ _ Ei).
        now rewrite orb_true_r.
      - rewrite (dict_get_set_other String.eqb String.eqb_sym string_eqb_trans _ _ _ _ Ei).
        now rewrite orb_false_r. }
    pose proof (read_header_readable md) as R.
    destruct (read_header md) as [games|e].
    + destruct R as [-> ->]. cbn [andb].
      pose proof (games_loop_ids match_id md games (player_stats st, games_data st)) as I.
      pose proof (games_loop_raised match_id md games (player_stats st, games_data st)) as E.
      destruct (games_loop _ _ _ _) as [[ps gd] raised].
      cbn [fst snd errors games_data files] in *. subst raised.
      split; [|split; [exact I|intros id; apply F]].
      destruct (forallb is_game games); [now rewrite app_nil_r|now rewrite map_app].
    + rewrite R. cbn [andb errors games_data files].
      split; [now rewrite map_app|]. split; [|intros id; apply F].
      destruct (md_games md); cbn [List.length repeat]; now rewrite app_nil_r.
  - split; [now rewrite map_app|]. split; [now rewrite app_nil_r|].
    intros id. now rewrite andb_false_r, orb_false_r.
Qed.

Lemma match_loop_accounts_from net ids : forall st,
  let st' := match_loop net ids st in
  map fst (errors st')
  = (map fst (errors st) ++ filter (fun id => negb (completes net id)) ids)%list /\
  map gr_matchId (games_data st')
  = (map gr_matchId (games_data st) ++ flat_map (game_ids net) ids)%list /\
  forall id, Dict.mem String.eqb (files st') id
             = (Dict.mem String.eqb (files st) id
                || (existsb (String.eqb id) ids && succeeds net id))%bool.
Proof.
  unfold match_loop. induction ids as [|m ids IH]; intros st; cbn [fold_left].
  - cbn. rewrite !app_nil_r. repeat split. intros id. now rewrite orb_false_r.
  - destruct (IH (match_step net st m)) as (E1 & E2 & E3).
    destruct (match_step_accounts net st m) as (F1 & F2 & F3).
    cbn zeta in *. rewrite E1, E2, F1, F2. cbn [filter flat_map existsb].
    split; [|split].
    + rewrite <- app_assoc. f_equal. now destruct (completes net m).
    + now rewrite <- app_assoc.
    + intros id. rewrite E3, F3.
      destruct (String.eqb m id) eqn:Em.
      * apply String.eqb_eq in Em. subst m. rewrite String.eqb_refl. cbn [orb andb].
        destruct (succeeds net id); cbn [andb orb];
          now rewrite ?orb_true_r, ?andb_false_r, ?orb_false_r.
      * rewrite String.eqb_sym, Em. cbn [andb orb]. now rewrite orb_false_r.
Qed.

(** X19: the match loop accounts for every match id.  The handler has
    run, in order, for the ids whose request failed or whose document is
    not as the body expects it (not an object, a "homeTeam", "awayTeam"
    or "gameday" that is no object, "games" without a length, an entry
    of "games" that is no game); [games_data] holds, in order, one
    record for every game recorded: the games of a readable document up
    to the first entry that is no game; and a match file exists exactly
    for the ids whose request succeeded, whatever the document. *)
Theorem match_loop_accounts (net : api) (ids : list string) :
  let st := match_loop net ids initial in
  map fst (errors st) = filter (fun id => negb (completes net id)) ids /\
  map gr_matchId (games_data st) = flat_map (game_ids net) ids /\
  forall id, Dict.mem String.eqb (files st) id
             = (existsb (String.eqb id) ids && succeeds net id)%bool.
Proof.
  destruct (match_loop_accounts_from net ids initial) as (E1 & E2 & E3).
  cbn zeta in *. split; [exact E1|]. split; [exact E2|]. exact E3.
Qed.

(** X19 at three matches: the request of the second fails, the document
    of the third has a null "homeTeam" and two games.  Both are handled,
    the third leaves its file behind and no game record. *)
Lemma match_loop_accounts_example :
  let st := match_loop api_with_null_team ["m-1"; "m-2"; "m-3"] initial in
  errors st = [("m-2", URLError "HTTP Error 500"); ("m-3", AttributeError "get")] /\
  map fst (files st) = ["m-1"; "m-3"] /\
  map gr_matchId (games_data st) = ["m-1"; "m-1"].
Proof. vm_compute. repeat split. Qed.

(** A document whose second entry of "games" is null: the first game is
    recorded and counted before the handler runs. *)
Lemma match_loop_broken_game :
  let st := match_loop (fun _ => Ok half_read_match) ["m-1"] initial in
  errors st = [("m-1", AttributeError "get")] /\
  map gr_gameIndex (games_data st) = [VInt 2] /\
  map summary (player_stats_final st) = [(1, 0, 1, 0); (1, 0, 1, 0)].
Proof. vm_compute. repeat split. Qed.

End Ttbl.

Section Tally.
Import Py ScrapeTtblEnhanced.

Lemma vget_set_same {V} (d : Dict.t value V) k k' v :
  Py.eqb k k' = true -> Dict.get Py.eqb (Dict.set Py.eqb d k v) k' = Some v.
Proof. apply (dict_get_set_same Py.eqb value_eqb_sym value_eqb_trans). Qed.

Lemma vget_set_other {V} (d : Dict.t value V) k k' v :
  Py.eqb k k' = false ->
  Dict.get Py.eqb (Dict.set Py.eqb d k v) k' = Dict.get Py.eqb d k'.
Proof. apply (dict_get_set_other Py.eqb value_eqb_sym value_eqb_trans). Qed.

Lemma tally_record_game d pid pname match_id won k :
  counted pid = true ->
  tally (record_game d pid pname match_id won) k
  = if Py.eqb pid k
    then let '(g, w, l) := tally d k in
         (g + 1, if won then w + 1 else w, if won then l else l + 1)
    else tally d k.
Proof.
  intros Hc. unfold counted in Hc. unfold record_game, tally. rewrite Hc.
  unfold Dict.mem.
  destruct (Py.eqb pid k) eqn:Ek.
  - rewrite <- (dict_get_congr Py.eqb value_eqb_sym value_eqb_trans d _ _ Ek).
    destruct (Dict.get Py.eqb d pid) as [s|] eqn:E; cbn [negb].
    + rewrite E, (vget_set_same _ _ _ _ Ek). cbn [gamesPlayed wins losses].
      now destruct won.
    + rewrite (vget_set_same _ _ _ _ (value_eqb_refl pid)).
      rewrite (vget_set_same _ _ _ _ Ek). cbn [gamesPlayed wins losses].
      now destruct won.
  - destruct (Dict.get Py.eqb d pid) as [s|] eqn:E; cbn [negb].
    + rewrite E. now rewrite (vget_set_other _ _ _ _ Ek).
    + rewrite (vget_set_same _ _ _ _ (value_eqb_refl pid)).
      now rewrite !(vget_set_other _ _ _ _ Ek).
Qed.

(** X20: a finished game whose winner side is neither "Home" nor "Away"
    (a missing winner, say) is counted as a game lost by both of its
    players. *)
Theorem finished_game_without_winner (match_id : string) (md : match_data)
    (player_stats : Dict.t value stats) (games_data : list game_record)
    (game : game_obj) :
  Py.eqb (g_gameState game) (VStr "Finished") = true ->
  Py.eqb (g_winnerSide game) (VStr "Home") = false ->
  Py.eqb (g_winnerSide game) (VStr "Away") = false ->
  counted (home_id game) = true -> counted (away_id game) = true ->
  Py.eqb (home_id game) (away_id game) = false ->
  let after := fst (game_step match_id md (player_stats, games_data) game) in
  tally after (home_id game) = one_loss (tally player_stats (home_id game)) /\
  tally after (away_id game) = one_loss (tally player_stats (away_id game)).
Proof.
  intros Hf Hh Ha Ch Ca Hd after. subst after.
  unfold game_step. rewrite Hf, Hh, Ha. cbn [fst].
  fold (home_id game). fold (away_id game).
  rewrite !tally_record_game by assumption.
  rewrite !value_eqb_refl, Hd.
  rewrite value_eqb_sym in Hd. rewrite Hd.
  unfold one_loss.
  split; now destruct (tally player_stats _) as [[g w] l].
Qed.

(** X20 at a game between p-17 and p-23, neither of whom has played
    before. *)
Lemma finished_game_without_winner_witness :
  tally (fst (game_step "m-1" fifty_games ([], []) undecided_game)) (VStr "p-17")
  = (1, 0, 1) /\
  tally (fst (game_step "m-1" fifty_games ([], []) undecided_game)) (VStr "p-23")
  = (1, 0, 1).
Proof.
  exact (finished_game_without_winner "m-1" fifty_games [] [] undecided_game
           eq_refl eq_refl eq_refl eq_refl eq_refl eq_refl).
Defined.

End Tally.

(* ================================================================== *)
(** * Arguments of fabrik_match_scraper.py                           *)
(* ================================================================== *)

Section Args.
Import Py FabrikMatchScraper.

Lemma args_loop_stuck argv i years max_matches arg :
  nth_error argv i = Some arg -> is_flag arg = true ->
  nth_error argv (S i) = None ->
  forall fuel, args_loop fuel argv i years max_matches = None.
Proof.
  intros Hi Hf Hn fuel. induction fuel as [|fuel IH]; cbn [args_loop]; rewrite Hi.
  - reflexivity.
  - unfold is_flag in Hf. rewrite Hn.
    destruct (String.eqb arg "--year"); [exact IH|].
    cbn [orb] in Hf. now rewrite Hf.
Qed.

Lemma args_loop_skips others : forall fuel pre rest years max_matches,
  forallb (fun a => negb (is_flag a)) others = true ->
  args_loop (List.length others + fuel) (pre ++ others ++ rest)
    (List.length pre) years max_matches
  = args_loop fuel (pre ++ others ++ rest)
      (List.length pre + List.length others) years max_matches.
Proof.
  induction others as [|a others IH]; intros fuel pre rest years mm H.
  - cbn [List.length Nat.add]. now rewrite Nat.add_0_r.
  - cbn [forallb] in H. apply andb_true_iff in H. destruct H as [Ha Ho].
    cbn [List.length Nat.add args_loop].
    rewrite nth_error_app2, Nat.sub_diag by lia. cbn [app nth_error].
    unfold is_flag in Ha. apply negb_true_iff, orb_false_iff in Ha.
    destruct Ha as [-> ->].
    specialize (IH fuel (pre ++ [a])%list rest years mm Ho).
    rewrite <- !app_assoc, length_app in IH. cbn [app List.length] in IH.
    replace (List.length pre + 1)%nat with (S (List.length pre)) in IH by lia.
    rewrite IH. f_equal. lia.
Qed.

(** X21: [main] never gets past its argument loop when the last argument is
    [--year] or [--max-matches] and only other words come before it: the
    loop leaves the index where it is. *)
Theorem main_hangs_on_trailing_flag (script flag : string) (others : list string) :
  others <> [] ->
  forallb (fun a => negb (is_flag a)) others = true ->
  is_flag flag = true ->
  forall fuel, main_args fuel (script :: others ++ [flag]) = None.
Proof.
  intros Hne Ho Hf fuel. unfold main_args.
  assert (Hl : (List.length (script :: others ++ [flag]) <? 3)%nat = false).
  { apply Nat.ltb_ge. cbn [List.length]. rewrite length_app. cbn [List.length].
    destruct others; [congruence|cbn [List.length]; lia]. }
  rewrite Hl.
  enough (E : args_loop fuel (script :: others ++ [flag]) 1 [] 1000 = None)
    by now rewrite E.
  destruct (Nat.le_gt_cases (List.length others) fuel) as [Hle|Hgt].
  - replace fuel with (List.length others + (fuel - List.length others))%nat by lia.
    rewrite (args_loop_skips others _ [script] [flag] [] 1000 Ho).
    apply (args_loop_stuck _ _ _ _ flag); [|exact Hf|].
    + cbn [List.length Nat.add app nth_error].
      rewrite nth_error_app2, Nat.sub_diag by lia. reflexivity.
    + apply nth_error_None. cbn [List.length app]. rewrite length_app.
      cbn [List.length]. lia.
  - (* not even enough fuel to reach the flag *)
    clear Hl Hne. revert Hgt.
    change (script :: others ++ [flag])%list with ([script] ++ others ++ [flag])%list.
    change 1%nat with (List.length [script]).
    generalize [script] as pre. generalize (@nil Z) as years.
    revert fuel. induction others as [|a others IH]; intros fuel years pre Hgt.
    + cbn [List.length] in Hgt. lia.
    + cbn [forallb] in Ho. apply andb_true_iff in Ho. destruct Ho as [Ha Ho].
      destruct fuel as [|fuel]; cbn [args_loop];
        rewrite nth_error_app2, Nat.sub_diag by lia; cbn [app nth_error];
        [reflexivity|].
      unfold is_flag in Ha. apply negb_true_iff, orb_false_iff in Ha.
      destruct Ha as [-> ->].
      specialize (IH Ho fuel years (pre ++ [a])%list).
      rewrite <- !app_assoc, length_app in IH. cbn [app List.length] in IH.
      replace (List.length pre + 1)%nat with (S (List.length pre)) in IH by lia.
      apply IH. cbn [List.length] in Hgt. lia.
Qed.

Lemma main_hangs_on_trailing_flag_witness :
  main_args 1000 ["fabrik_match_scraper.py"; "2025"; "--year"] = None.
Proof.
  apply (main_hangs_on_trailing_flag "fabrik_match_scraper.py" "--year" ["2025"]);
    [discriminate|reflexivity|reflexivity].
Defined.

Lemma last_nth_error (argv : list string) i arg :
  nth_error argv i = Some arg -> nth_error argv (S i) = None ->
  List.last argv "" = arg.
Proof.
  revert i. induction argv as [|a argv IH]; intros i Hi Hn.
  - now destruct i.
  - destruct i as [|i]; cbn [nth_error] in Hi, Hn.
    + injection Hi as <-. now destruct argv.
    + cbn [List.last]. destruct argv as [|b argv]; [now destruct i|].
      now apply (IH i).
Qed.

Lemma args_loop_returns argv : forall fuel i years max_matches,
  is_flag (List.last argv "") = false ->
  (List.length argv - i <= fuel)%nat ->
  args_loop fuel argv i years max_matches <> None.
Proof.
  intros fuel. induction fuel as [|fuel IH]; intros i years mm Hl Hf.
  - cbn [args_loop]. destruct (nth_error argv i) eqn:E; [|discriminate].
    assert (i < List.length argv)%nat by (apply nth_error_Some; congruence). lia.
  - cbn [args_loop]. destruct (nth_error argv i) as [arg|] eqn:E; [|discriminate].
    assert (Hi : (i < List.length argv)%nat) by (apply nth_error_Some; congruence).
    assert (Hs : is_flag arg = true -> nth_error argv (S i) <> None).
    { intros Ha Hn. rewrite (last_nth_error _ _ _ E Hn) in Hl. congruence. }
    unfold is_flag in Hs.
    destruct (String.eqb arg "--year").
    + destruct (nth_error argv (S i)) as [v|]; [|now destruct Hs].
      destruct (int v); [|discriminate]. apply IH; [exact Hl|lia].
    + destruct (String.eqb arg "--max-matches").
      * destruct (nth_error argv (S i)) as [v|]; [|now destruct Hs].
        destruct (int v); [|discriminate]. apply IH; [exact Hl|lia].
      * apply IH; [exact Hl|lia].
Qed.

(** X22: when the last argument is neither [--year] nor [--max-matches],
    the argument handling of [main] ends: as many passes of the loop as
    there are arguments are enough. *)
Theorem main_args_returns (argv : list string) :
  is_flag (List.last argv "") = false ->
  exists r, main_args (List.length argv) argv = Some r.
Proof.
  intros Hl. unfold main_args.
  destruct (List.length argv <? 3)%nat; [now eexists|].
  pose proof (args_loop_returns argv (List.length argv) 1 [] 1000 Hl) as H.
  destruct (args_loop (List.length argv) argv 1 [] 1000) as [[c|ys mm]|].
  - now eexists.
  - destruct ys; now eexists.
  - destruct H; [lia|reflexivity].
Qed.

Lemma main_args_returns_witness :
  exists r,
    main_args 5 ["fabrik_match_scraper.py"; "--year"; "2025"; "--max-matches"; "50"]
    = Some r.
Proof.
  apply (main_args_returns
           ["fabrik_match_scraper.py"; "--year"; "2025"; "--max-matches"; "50"]).
  reflexivity.
Defined.

Lemma args_loop_years ys : forall fuel pre years max_matches,
  (List.length ys <= fuel)%nat ->
  args_loop fuel (pre ++ year_args ys) (List.length pre) years max_matches
  = Some (Scrape (years ++ ys) max_matches).
Proof.
  induction ys as [|y ys IH]; intros fuel pre years mm Hf.
  - cbn [year_args flat_map]. rewrite !app_nil_r.
    destruct fuel; cbn [args_loop];
      now rewrite (proj2 (nth_error_None pre (List.length pre)) (le_n _)).
  - destruct fuel as [|fuel]; [cbn [List.length] in Hf; lia|].
    cbn [args_loop year_args flat_map app].
    rewrite !nth_error_app2 by lia. rewrite Nat.sub_diag.
    replace (S (List.length pre) - List.length pre)%nat with 1%nat by lia.
    cbn [nth_error]. rewrite String.eqb_refl, int_str_of_Z.
    specialize (IH fuel (pre ++ ["--year"; str_of_Z y])%list (years ++ [y])%list mm).
    rewrite <- !app_assoc, length_app in IH. cbn [app List.length] in IH.
    fold (year_args ys).
    rewrite IH by (cbn [List.length] in Hf; lia). reflexivity.
Qed.

(** X23: [--year y] given once for each year of a list makes [main] scrape
    just these years, in the order given and as often as given, with at
    most 1000 matches each. *)
Theorem main_args_years (script : string) (ys : list Z) :
  ys <> [] ->
  main_args (List.length ys) (script :: year_args ys) = Some (Scrape ys 1000).
Proof.
  intros Hne. unfold main_args.
  assert (Hl : (List.length (script :: year_args ys) <? 3)%nat = false).
  { apply Nat.ltb_ge. destruct ys as [|y ys]; [congruence|].
    cbn [year_args flat_map app List.length]. lia. }
  rewrite Hl.
  pose proof (args_loop_years ys (List.length ys) [script] [] 1000 (le_n _)) as E.
  cbn [app List.length] in E. rewrite E. now destruct ys.
Qed.

Lemma main_args_years_witness :
  main_args 2 ["fabrik_match_scraper.py"; "--year"; "2024"; "--year"; "2024"]
  = Some (Scrape [2024; 2024] 1000).
Proof.
  apply (main_args_years "fabrik_match_scraper.py" [2024; 2024]). discriminate.
Defined.

End Args.

(* ================================================================== *)
(** * The unpaginated loops against a fixed page                     *)
(* ================================================================== *)

Section RepeatedPage.
Import Py.

Lemma passes_lt max_matches n j :
  (0 < n)%nat ->
  (j < passes max_matches n)%nat <-> Z.of_nat (j * n) < max_matches.
Proof.
  intros Hn. unfold passes.
  set (N := Z.of_nat n). set (c := (max_matches + N - 1) / N).
  assert (HN : 0 < N) by (unfold N; lia).
  assert (H1 : N * c <= max_matches + N - 1) by (apply Z.mul_div_le; lia).
  assert (H2 : max_matches + N - 1 < N * c + N).
  { pose proof (Z.mul_succ_div_gt (max_matches + N - 1) N HN). fold c in H. lia. }
  rewrite Nat2Z.inj_mul. fold N. split; intros H.
  - assert (Z.of_nat j < c) by lia. nia.
  - assert (Z.of_nat j < c) by nia. lia.
Qed.

Lemma passes_le max_matches n :
  (0 < n)%nat -> (passes max_matches n <= Z.to_nat max_matches)%nat.
Proof.
  intros Hn. destruct (passes max_matches n) as [|k] eqn:E; [lia|].
  assert (H : (k < passes max_matches n)%nat) by lia.
  apply (passes_lt max_matches n k Hn) in H. nia.
Qed.

Lemma concat_repeat_comm {A} (ms : list A) j :
  (List.concat (repeat ms j) ++ ms = ms ++ List.concat (repeat ms j))%list.
Proof.
  induction j as [|j IH]; cbn [repeat List.concat].
  - now rewrite app_nil_r.
  - now rewrite <- app_assoc, IH.
Qed.

Lemma length_concat_repeat {A} (ms : list A) j :
  List.length (List.concat (repeat ms j)) = (j * List.length ms)%nat.
Proof.
  induction j as [|j IH]; cbn [repeat List.concat]; [reflexivity|].
  rewrite length_app, IH. lia.
Qed.

Lemma repeat_snoc {A} (q : A) j : (repeat q j ++ [q])%list = repeat q (S j).
Proof.
  induction j as [|j IH]; cbn [repeat app]; [reflexivity|]. now rewrite IH.
Qed.

Lemma fabrik_convert_acc page : forall acc,
  FabrikMatchScraper.convert page acc
  = match FabrikMatchScraper.convert page [] with
    | Ok ms => Ok (acc ++ ms)%list
    | Raise e => Raise e
    end.
Proof.
  induction page as [|it page IH]; intros acc; cbn [FabrikMatchScraper.convert].
  - now rewrite app_nil_r.
  - destruct (FabrikMatchScraper.match_of_item it) as [m|e]; cbn [Py.bind app];
      [|reflexivity].
    rewrite (IH (acc ++ [m])%list), (IH [m]).
    destruct (FabrikMatchScraper.convert page []); [|reflexivity].
    now rewrite <- app_assoc.
Qed.

Lemma fabrik_convert_app page acc ms :
  FabrikMatchScraper.convert page [] = Ok ms ->
  FabrikMatchScraper.convert page acc = Ok (acc ++ ms)%list.
Proof. intros H. now rewrite fabrik_convert_acc, H. Qed.

Lemma collector_convert_acc page : forall acc,
  ComprehensiveCollector.convert page acc
  = match ComprehensiveCollector.convert page [] with
    | Ok ms => Ok (acc ++ ms)%list
    | Raise e => Raise e
    end.
Proof.
  induction page as [|it page IH]; intros acc; cbn [ComprehensiveCollector.convert].
  - now rewrite app_nil_r.
  - destruct (ComprehensiveCollector.match_of_item it) as [m|e]; cbn [Py.bind app];
      [|reflexivity].
    rewrite (IH (acc ++ [m])%list), (IH [m]).
    destruct (ComprehensiveCollector.convert page []); [|reflexivity].
    now rewrite <- app_assoc.
Qed.

Lemma collector_convert_app page acc ms :
  ComprehensiveCollector.convert page [] = Ok ms ->
  ComprehensiveCollector.convert page acc = Ok (acc ++ ms)%list.
Proof. intros H. now rewrite collector_convert_acc, H. Qed.

Lemma fabrik_loop_repeats net year max_matches page ms l :
  (forall n, net n (Fabrik.mk_request year 100 None) = Ok (Fabrik.Items page)) ->
  FabrikMatchScraper.convert page [] = Ok ms -> ms <> [] ->
  forall d j fuel,
    passes max_matches (List.length ms) = (j + d)%nat -> (d <= fuel)%nat ->
    FabrikMatchScraper.scrape_loop fuel net year max_matches
      (l ++ repeat (Fabrik.mk_request year 100 None) j)%list (List.concat (repeat ms j))
    = Some ((l ++ repeat (Fabrik.mk_request year 100 None) (j + d))%list,
            Ok (List.concat (repeat ms (j + d)))).
Proof.
  intros Hnet Hc Hms.
  assert (Hn : (0 < List.length ms)%nat) by (destruct ms; [congruence|cbn; lia]).
  assert (Hp : page <> []).
  { intros ->. cbn in Hc. injection Hc as <-. congruence. }
  induction d as [|d IH]; intros j fuel Hk Hf.
  - rewrite Nat.add_0_r in *.
    assert (E : (Z.of_nat (List.length (List.concat (repeat ms j))) <? max_matches) = false).
    { rewrite length_concat_repeat. apply Z.ltb_ge.
      destruct (Z.lt_ge_cases (Z.of_nat (j * List.length ms)) max_matches) as [H|H];
        [|lia].
      apply (passes_lt max_matches _ j Hn) in H. lia. }
    destruct fuel; cbn [FabrikMatchScraper.scrape_loop]; now rewrite E.
  - destruct fuel as [|fuel]; [lia|].
    cbn [FabrikMatchScraper.scrape_loop].
    assert (E : (Z.of_nat (List.length (List.concat (repeat ms j))) <? max_matches) = true).
    { rewrite length_concat_repeat. apply Z.ltb_lt.
      apply (passes_lt max_matches _ j Hn). lia. }
    rewrite E. unfold FabrikMatchScraper.fetch_matches, Fabrik.send. rewrite Hnet.
    destruct page as [|it page]; [congruence|].
    rewrite (fabrik_convert_app _ _ _ Hc).
    rewrite <- app_assoc, repeat_snoc, concat_repeat_comm.
    change (ms ++ List.concat (repeat ms j))%list with (List.concat (repeat ms (S j))).
    rewrite (IH (S j) fuel) by lia. now rewrite Nat.add_succ_r.
Qed.

Lemma collector_loop_repeats net year max_matches page ms l :
  (forall n, net n (Fabrik.mk_request year 100 None) = Ok (Fabrik.Items page)) ->
  ComprehensiveCollector.convert page [] = Ok ms -> ms <> [] ->
  forall d j fuel,
    passes max_matches (List.length ms) = (j + d)%nat -> (d <= fuel)%nat ->
    ComprehensiveCollector.scrape_loop fuel net year max_matches
      (l ++ repeat (Fabrik.mk_request year 100 None) j)%list (List.concat (repeat ms j))
    = Some ((l ++ repeat (Fabrik.mk_request year 100 None) (j + d))%list,
            Ok (List.concat (repeat ms (j + d)))).
Proof.
  intros Hnet Hc Hms.
  assert (Hn : (0 < List.length ms)%nat) by (destruct ms; [congruence|cbn; lia]).
  assert (Hp : page <> []).
  { intros ->. cbn in Hc. injection Hc as <-. congruence. }
  induction d as [|d IH]; intros j fuel Hk Hf.
  - rewrite Nat.add_0_r in *.
    assert (E : (Z.of_nat (List.length (List.concat (repeat ms j))) <? max_matches) = false).
    { rewrite length_concat_repeat. apply Z.ltb_ge.
      destruct (Z.lt_ge_cases (Z.of_nat (j * List.length ms)) max_matches) as [H|H];
        [|lia].
      apply (passes_lt max_matches _ j Hn) in H. lia. }
    destruct fuel; cbn [ComprehensiveCollector.scrape_loop]; now rewrite E.
  - destruct fuel as [|fuel]; [lia|].
    cbn [ComprehensiveCollector.scrape_loop].
    assert (E : (Z.of_nat (List.length (List.concat (repeat ms j))) <? max_matches) = true).
    { rewrite length_concat_repeat. apply Z.ltb_lt.
      apply (passes_lt max_matches _ j Hn). lia. }
    rewrite E. unfold ComprehensiveCollector.fetch_matches, Fabrik.send. rewrite Hnet.
    destruct page as [|it page]; [congruence|].
    rewrite (collector_convert_app _ _ _ Hc).
    rewrite <- app_assoc, repeat_snoc, concat_repeat_comm.
    change (ms ++ List.concat (repeat ms j))%list with (List.concat (repeat ms (S j))).
    rewrite (IH (S j) fuel) by lia. now rewrite Nat.add_succ_r.
Qed.

(** X24: against an endpoint that answers the request of a year with the
    same non-empty page every time, [scrape_year] and
    [scrape_matches_by_year] return that page over and over: as many
    copies as it takes to reach [max_matches], one request for each. *)
Theorem unpaginated_loops_repeat_the_page (net : Fabrik.server) (l : Fabrik.log)
    (year max_matches : Z) (page : list Fabrik.item)
    (fs : list FabrikMatchScraper.Match) (cs : list ComprehensiveCollector.Match) :
  (forall n, net n (Fabrik.mk_request year 100 None) = Ok (Fabrik.Items page)) ->
  page <> [] ->
  FabrikMatchScraper.convert page [] = Ok fs ->
  ComprehensiveCollector.convert page [] = Ok cs ->
  let k := passes max_matches (List.length page) in
  FabrikMatchScraper.scrape_year net l year max_matches
  = ((l ++ repeat (Fabrik.mk_request year 100 None) k)%list,
     Ok (List.concat (repeat fs k))) /\
  ComprehensiveCollector.scrape_matches_by_year net l year max_matches
  = ((l ++ repeat (Fabrik.mk_request year 100 None) k)%list,
     Ok (List.concat (repeat cs k))).
Proof.
  intros Hnet Hp Hf Hc k.
  assert (Lf : List.length fs = List.length page).
  { apply fabrik_convert_length in Hf. exact Hf. }
  assert (Lc : List.length cs = List.length page).
  { apply collector_convert_length in Hc. exact Hc. }
  assert (Hn : (0 < List.length page)%nat) by (destruct page; [congruence|cbn; lia]).
  assert (Nf : fs <> []) by (intros ->; cbn in Lf; lia).
  assert (Nc : cs <> []) by (intros ->; cbn in Lc; lia).
  split.
  - unfold FabrikMatchScraper.scrape_year.
    pose proof (fabrik_loop_repeats net year max_matches page fs l Hnet Hf Nf
                  k 0%nat (Z.to_nat max_matches)) as H.
    cbn [repeat List.concat Nat.add] in H. rewrite app_nil_r in H.
    rewrite H; [reflexivity|now rewrite Lf|apply passes_le; lia].
  - unfold ComprehensiveCollector.scrape_matches_by_year.
    pose proof (collector_loop_repeats net year max_matches page cs l Hnet Hc Nc
                  k 0%nat (Z.to_nat max_matches)) as H.
    cbn [repeat List.concat Nat.add] in H. rewrite app_nil_r in H.
    rewrite H; [reflexivity|now rewrite Lc|apply passes_le; lia].
Qed.

(** X24 at an endpoint holding two rows, with [max_matches] 5: three
    requests, three copies of the two matches. *)
Lemma unpaginated_loops_repeat_the_page_witness :
  exists fs cs,
    List.length fs = 2%nat /\ List.length cs = 2%nat /\
    FabrikMatchScraper.scrape_year (paging_server two_rows) [] 2025 5
    = (repeat (Fabrik.mk_request 2025 100 None) 3, Ok (List.concat (repeat fs 3))) /\
    ComprehensiveCollector.scrape_matches_by_year (paging_server two_rows) [] 2025 5
    = (repeat (Fabrik.mk_request 2025 100 None) 3, Ok (List.concat (repeat cs 3))).
Proof.
  destruct (FabrikMatchScraper.convert (map Fabrik.Obj two_rows) []) as [fs|e] eqn:Ef;
    [|vm_compute in Ef; discriminate Ef].
  destruct (ComprehensiveCollector.convert (map Fabrik.Obj two_rows) []) as [cs|e] eqn:Ec;
    [|vm_compute in Ec; discriminate Ec].
  exists fs, cs.
  split; [exact (fabrik_convert_length _ _ _ Ef)|].
  split; [exact (collector_convert_length _ _ _ Ec)|].
  apply (unpaginated_loops_repeat_the_page (paging_server two_rows) [] 2025 5
           (map Fabrik.Obj two_rows) fs cs);
    [reflexivity|discriminate|exact Ef|exact Ec].
Defined.

End RepeatedPage.

(* ================================================================== *)
(** * Paging with start (comprehensive_scraper.py)                   *)
(* ================================================================== *)

Section Start.
Import Py ComprehensiveScraper.

Lemma firstn_more {A} (l : list A) a b :
  (firstn a l ++ firstn b (skipn a l))%list = firstn (a + b) l.
Proof.
  revert l. induction a as [|a IH]; intros l; cbn [firstn skipn Nat.add app].
  - reflexivity.
  - destruct l as [|x l]; cbn [firstn skipn app]; [now rewrite firstn_nil|].
    now rewrite IH.
Qed.

Lemma fetch_loop_pages data year : forall d j fuel,
  passes (Z.of_nat (List.length data)) 100 = (j + d)%nat -> (d < fuel)%nat ->
  fetch_loop fuel (start_server data) year (map (start_request year) (seq 0 j))
    (100 * Z.of_nat j) (map Fabrik.Obj (firstn (100 * j) data))
  = Some (map (start_request year) (seq 0 (S (j + d))), map Fabrik.Obj data).
Proof.
  induction d as [|d IH]; intros j fuel Hk Hf;
    (destruct fuel as [|fuel]; [lia|]); cbn [fetch_loop];
    unfold start_server at 1; cbn [req_limit req_start];
    replace (Z.to_nat 100) with 100%nat by reflexivity;
    replace (Z.to_nat (100 * Z.of_nat j)) with (100 * j)%nat by lia.
  - rewrite Nat.add_0_r in *.
    assert (Hlen : (List.length data <= 100 * j)%nat).
    { destruct (Nat.le_gt_cases (List.length data) (100 * j)) as [H|H]; [exact H|].
      assert (Hj : (j < passes (Z.of_nat (List.length data)) 100)%nat)
        by (apply passes_lt; lia).
      lia. }
    rewrite (skipn_all2 data Hlen). rewrite firstn_nil. cbn [map].
    rewrite (firstn_all2 data Hlen).
    rewrite seq_S, map_app. reflexivity.
  - assert (Hj : (j < passes (Z.of_nat (List.length data)) 100)%nat) by lia.
    apply passes_lt in Hj; [|lia].
    destruct (firstn 100 (skipn (100 * j) data)) as [|r rest] eqn:E.
    + exfalso. assert (L : List.length (firstn 100 (skipn (100 * j) data)) = 0%nat)
        by now rewrite E.
      rewrite length_firstn, length_skipn in L. lia.
    + cbn [map].
      change (Fabrik.Obj r :: map Fabrik.Obj rest)
        with (map Fabrik.Obj (r :: rest)). rewrite <- E.
      rewrite <- map_app, firstn_more.
      replace (100 * j + 100)%nat with (100 * S j)%nat by lia.
      replace (100 * Z.of_nat j + 100) with (100 * Z.of_nat (S j)) by lia.
      replace (map (start_request year) (seq 0 j)
               ++ [mk_request year 100 (100 * Z.of_nat j)])%list
        with (map (start_request year) (seq 0 (S j)))
        by (rewrite seq_S, map_app; reflexivity).
      rewrite (IH (S j) fuel) by lia. now rewrite Nat.add_succ_r.
Qed.

(** X25: against an endpoint that honours [start] and [limit], the loop of
    [fetch_all_fabrik_matches_for_year] returns every row of the year
    once, in order; it asks for the pages of hundred rows one after the
    other and stops at the first empty one. *)
Theorem fetch_all_collects_every_row (data : list row) (year : Z) :
  let k := passes (Z.of_nat (List.length data)) 100 in
  fetch_loop (S k) (start_server data) year [] 0 []
  = Some (map (start_request year) (seq 0 (S k)), map Fabrik.Obj data).
Proof.
  intros k.
  exact (fetch_loop_pages data year k 0%nat (S k) eq_refl (Nat.lt_succ_diag_r k)).
Qed.

(** X26: against an endpoint that answers every request with the same
    non-empty page of rows, the loop of
    [fetch_all_fabrik_matches_for_year] does not end. *)
Theorem fetch_all_never_ends (net : server) (year : Z) (r : row)
    (rest : list Fabrik.item) :
  (forall n q, net n q = Ok (Fabrik.Items (Fabrik.Obj r :: rest))) ->
  forall fuel l start all_matches,
    fetch_loop fuel net year l start all_matches = None.
Proof.
  intros Hnet fuel. induction fuel as [|fuel IH]; intros l start all_matches;
    cbn [fetch_loop]; [reflexivity|].
  rewrite Hnet. apply IH.
Qed.

(** X26 at an endpoint that always answers with the same row. *)
Lemma fetch_all_never_ends_witness :
  fetch_loop 1000 stuck_server 2025 [] 0 [] = None.
Proof.
  apply (fetch_all_never_ends stuck_server 2025 [("vw_matches___id", VStr "1")] []).
  reflexivity.
Defined.

End Start.

(* ================================================================== *)
(** * Profiles from the rankings (comprehensive_collector.py)        *)
(* ================================================================== *)

Section Profiles.
Import Py ComprehensiveCollector.

Lemma extract_gender_values event_code g :
  extract_gender_from_event_code event_code = Some g ->
  g = "M" \/ g = "W" \/ g = "mixed".
Proof.
  unfold extract_gender_from_event_code, gender_map. cbn [Dict.get].
  repeat match goal with
         | |- context [String.eqb ?a event_code] => destruct (String.eqb a event_code)
         end; intros [= <-]; auto.
Qed.

Lemma first_gender_values rankings :
  first_gender rankings = Some "M" \/ first_gender rankings = Some "W"
  \/ first_gender rankings = None.
Proof.
  induction rankings as [|e rankings IH]; cbn [first_gender]; [auto|].
  unfold event_gender.
  destruct (get_or e "SubEventCode" (VStr "")) as [|b|z|code]; try exact IH.
  destruct (extract_gender_from_event_code code) as [g|] eqn:E; [|exact IH].
  destruct (extract_gender_values _ _ E) as [-> | [-> | -> ]]; cbn; auto.
Qed.

Lemma build_player_gender net n ittf_id p :
  build_player_from_rankings net n ittf_id = Ok (Some p) ->
  man_woman_or_none p /\ p_ittf_id p = ittf_id.
Proof.
  unfold build_player_from_rankings.
  destruct (get_player_rankings net n ittf_id) as [[|entry rest]|]; try discriminate.
  destruct (parse_name_value _) as [names|e]; cbn [Py.bind]; [|discriminate].
  intros [= <-]. split; [|reflexivity].
  exact (first_gender_values (entry :: rest)).
Qed.

Lemma for_each_invariant {A S} (body : S -> A -> result S) (P : S -> Prop) :
  (forall s x s', body s x = Ok s' -> P s -> P s') ->
  forall l s s', for_each body l s = Ok s' -> P s -> P s'.
Proof.
  intros Hb l. induction l as [|x l IH]; intros s s' H Hs; cbn [for_each] in H.
  - now injection H as <-.
  - destruct (body s x) as [s1|e] eqn:E; cbn [Py.bind] in H; [|discriminate].
    apply (IH _ _ H). now apply (Hb _ _ _ E).
Qed.

Lemma scan_step_inv net st player_data st' :
  scan_step net st player_data = Ok st' ->
  st' = st \/
  (scanned st' = scanned st /\ players_db st' = players_db st) \/
  exists p, man_woman_or_none p /\
            scanned st' = (scanned st ++ [p])%list /\
            players_db st' = Dict.set String.eqb (players_db st) (p_ittf_id p) p.
Proof.
  unfold scan_step.
  destruct (nonempty _); [|intros [= <-]; now left].
  destruct (build_player_from_rankings net (calls st) _) as [[p|]|e] eqn:E;
    cbn [Py.bind]; [| |discriminate]; intros [= <-]; cbn [scanned players_db].
  - destruct (build_player_gender _ _ _ _ E) as [Hg Hi].
    right. right. exists p. now rewrite Hi.
  - right. now left.
Qed.

Lemma gender_is_eq g p :
  gender_is g p
  = match p_gender p, g with
    | Some a, Some b => String.eqb a b
    | None, None => true
    | _, _ => false
    end.
Proof. reflexivity. Qed.

Lemma filter_partition (players : list profile) :
  Forall man_woman_or_none players ->
  Permutation players
    (filter (gender_is (Some "M")) players ++ filter (gender_is (Some "W")) players
     ++ filter (gender_is None) players) /\
  filter (gender_is (Some "mixed")) players = [].
Proof.
  induction 1 as [|p players Hp _ [IH1 IH2]]; [now split|].
  cbn [filter]. rewrite !gender_is_eq.
  destruct Hp as [E|[E|E]]; rewrite E;
    cbv beta iota delta [String.eqb Ascii.eqb Bool.eqb]; (split; [|exact IH2]).
  - cbn [app]. now constructor.
  - now apply Permutation_cons_app.
  - rewrite app_assoc. apply Permutation_cons_app. now rewrite <- app_assoc.
Qed.

Lemma save_players_by_gender_files players :
  ~ In "mixed" (map fst (save_players_by_gender players)) <->
  filter (gender_is (Some "mixed")) players = [].
Proof.
  unfold save_players_by_gender.
  destruct (filter (gender_is (Some "M")) players),
           (filter (gender_is (Some "W")) players),
           (filter (gender_is (Some "mixed")) players),
           (filter (gender_is None) players); cbn [filter snd map fst In];
    split; intros H;
    first [ reflexivity
          | discriminate
          | (intros F; decompose [or] F; (discriminate || contradiction))
          | (exfalso; apply H; auto 6) ].
Qed.

Lemma save_players_by_gender_concat players :
  List.concat (map snd (save_players_by_gender players))
  = (filter (gender_is (Some "M")) players ++ filter (gender_is (Some "W")) players
     ++ filter (gender_is (Some "mixed")) players
     ++ filter (gender_is None) players)%list.
Proof.
  unfold save_players_by_gender. cbn [filter snd].
  destruct (filter (gender_is (Some "M")) players),
           (filter (gender_is (Some "W")) players),
           (filter (gender_is (Some "mixed")) players),
           (filter (gender_is None) players); cbn; now rewrite ?app_nil_r.
Qed.

(** X27: the players [scan_player_ids_from_file] builds from the rankings
    are men, women or of unknown gender, never "mixed": no file
    players_mixed.json is written, and the gender files together hold
    every player built, each once. *)
Theorem scan_never_writes_mixed (net : wtt) (db : Dict.t string profile)
    (file_players : list row) (st : scan) (files : list (string * list profile)) :
  scan_player_ids_from_file net db file_players = Ok (st, files) ->
  Forall man_woman_or_none (scanned st) /\
  ~ In "mixed" (map fst files) /\
  Permutation (scanned st) (List.concat (map snd files)).
Proof.
  unfold scan_player_ids_from_file.
  destruct (for_each (scan_step net) file_players (mk_scan 0 [] [] db))
    as [st0|e] eqn:E; cbn [Py.bind]; [|discriminate].
  intros [= <- <-].
  assert (H : Forall man_woman_or_none (scanned st0)).
  { apply (for_each_invariant (scan_step net)
             (fun s => Forall man_woman_or_none (scanned s))) in E;
      [exact E| |constructor].
    intros s x s' Hs Hp.
    destruct (scan_step_inv _ _ _ _ Hs) as [-> | [[-> _] | (p & Hg & -> & _)]];
      try exact Hp.
    apply Forall_app. split; [exact Hp|]. now constructor. }
  destruct (filter_partition _ H) as [P M].
  split; [exact H|]. split.
  - now apply save_players_by_gender_files.
  - rewrite save_players_by_gender_concat, M. exact P.
Qed.

(** X27 at a file naming one id twice: the first profile is a man's (a
    mixed doubles ranking comes before the men's singles one), the second
    has mixed doubles only and no gender. *)
Lemma scan_never_writes_mixed_witness :
  exists st files,
    scan_player_ids_from_file rankings_wtt [] file_with_repeat = Ok (st, files) /\
    Forall man_woman_or_none (scanned st) /\
    ~ In "mixed" (map fst files) /\
    Permutation (scanned st) (List.concat (map snd files)).
Proof.
  destruct (scan_player_ids_from_file rankings_wtt [] file_with_repeat)
    as [[st files]|e] eqn:E; [|vm_compute in E; discriminate E].
  exists st, files. split; [reflexivity|].
  exact (scan_never_writes_mixed rankings_wtt [] file_with_repeat st files E).
Defined.

Lemma find_rev_snoc {A} (f : A -> bool) l x :
  find f (rev (l ++ [x])) = if f x then Some x else find f (rev l).
Proof. rewrite rev_app_distr. reflexivity. Qed.

(** X28: [players_db] keeps, for every id, the profile built last:
    [scan_player_ids_from_file] overwrites an earlier profile of the same
    id, while the list it saves keeps both. *)
Theorem scan_keeps_last_profile (net : wtt) (db : Dict.t string profile)
    (file_players : list row) (st : scan) (files : list (string * list profile))
    (id : string) :
  scan_player_ids_from_file net db file_players = Ok (st, files) ->
  Dict.get String.eqb (players_db st) id
  = match last_built (scanned st) id with
    | Some p => Some p
    | None => Dict.get String.eqb db id
    end.
Proof.
  unfold scan_player_ids_from_file.
  destruct (for_each (scan_step net) file_players (mk_scan 0 [] [] db))
    as [st0|e] eqn:E; cbn [Py.bind]; [|discriminate].
  intros [= <- <-].
  apply (for_each_invariant (scan_step net)
           (fun s => Dict.get String.eqb (players_db s) id
                     = match last_built (scanned s) id with
                       | Some p => Some p
                       | None => Dict.get String.eqb db id
                       end)) in E; [exact E| |reflexivity].
  intros s x s' Hs Hp.
  destruct (scan_step_inv _ _ _ _ Hs) as [-> | [[-> ->] | (p & Hg & -> & ->)]];
    try exact Hp.
  unfold last_built. rewrite find_rev_snoc.
  destruct (String.eqb (p_ittf_id p) id) eqn:Ei.
  - now rewrite (dict_get_set_same String.eqb String.eqb_sym string_eqb_trans _ _ _ _ Ei).
  - rewrite (dict_get_set_other String.eqb String.eqb_sym string_eqb_trans _ _ _ _ Ei).
    exact Hp.
Qed.

(** X28 at the same file: the list keeps both profiles, [players_db] the
    second. *)
Lemma scan_keeps_last_profile_witness :
  exists st files,
    scan_player_ids_from_file rankings_wtt [] file_with_repeat = Ok (st, files) /\
    map p_full_name (scanned st) = [VStr "WANG Chuqin"; VStr "WANG C."] /\
    option_map p_full_name (Dict.get String.eqb (players_db st) "121404")
    = Some (VStr "WANG C.").
Proof.
  destruct (scan_player_ids_from_file rankings_wtt [] file_with_repeat)
    as [[st files]|e] eqn:E; [|vm_compute in E; discriminate E].
  exists st, files. split; [reflexivity|].
  rewrite (scan_keeps_last_profile rankings_wtt [] file_with_repeat st files
             "121404" E).
  vm_compute in E. injection E as <- _. split; reflexivity.
Defined.

End Profiles.

(* ================================================================== *)
(** * Batches of rankings (wtt_ittf_scraper.py)                      *)
(* ================================================================== *)

Section Batch.
Import Py WttIttfScraper.
Context {os : Platform}.

Lemma count_event_sum event_types entry :
  dict_sum (fun n => n) (count_event event_types entry)
  = dict_sum (fun n => n) event_types + 1.
Proof.
  unfold count_event. rewrite dict_sum_set.
  destruct (Dict.get Py.eqb event_types
              (get_or entry "SubEventCode" (VStr "Unknown"))); lia.
Qed.

Lemma count_event_positive event_types entry :
  Forall (fun kv => 0 < snd kv) event_types ->
  Forall (fun kv => 0 < snd kv) (count_event event_types entry).
Proof.
  intros H. unfold count_event.
  apply (dict_set_Forall Py.eqb (fun n => 0 < n)); [exact H|].
  destruct (Dict.get Py.eqb event_types
              (get_or entry "SubEventCode" (VStr "Unknown"))) as [n|] eqn:E; [|reflexivity].
  pose proof (dict_get_Forall Py.eqb (fun n => 0 < n) _ _ _ H E) as Hn.
  cbv beta in Hn. lia.
Qed.

Lemma analyse_entries rankings : forall acc,
  let acc' := fold_left
                (fun acc entry => (count_event (fst acc) entry, (snd acc ++ [entry])%list))
                rankings acc in
  dict_sum (fun n => n) (fst acc')
  = dict_sum (fun n => n) (fst acc) + Z.of_nat (List.length rankings) /\
  snd acc' = (snd acc ++ rankings)%list /\
  (Forall (fun kv => 0 < snd kv) (fst acc) -> Forall (fun kv => 0 < snd kv) (fst acc')).
Proof.
  induction rankings as [|e rankings IH]; intros acc; cbn [fold_left List.length].
  - cbn zeta. rewrite app_nil_r. repeat split; [lia|auto].
  - destruct (IH (count_event (fst acc) e, (snd acc ++ [e])%list)) as (H1 & H2 & H3).
    cbn zeta in *. cbn [fst snd] in *. rewrite H1, H2, count_event_sum.
    split; [lia|]. split; [now rewrite <- app_assoc|].
    intros H. apply H3. now apply count_event_positive.
Qed.

Lemma analyse_fold data : forall acc,
  let acc' := fold_left analyse data acc in
  dict_sum (fun n => n) (fst acc')
  = dict_sum (fun n => n) (fst acc) + Z.of_nat (List.length (entries_of data)) /\
  snd acc' = (snd acc ++ entries_of data)%list /\
  (Forall (fun kv => 0 < snd kv) (fst acc) -> Forall (fun kv => 0 < snd kv) (fst acc')).
Proof.
  induction data as [|[id v] data IH]; intros acc; cbn [fold_left entries_of flat_map].
  - cbn zeta. rewrite app_nil_r. repeat split; [cbn; lia|auto].
  - fold (entries_of data). cbn [snd].
    destruct (IH (analyse acc (id, v))) as (H1 & H2 & H3). cbn zeta in *.
    rewrite H1, H2. unfold analyse in *. cbn [snd] in *.
    destruct v as [[|e0 rest]|].
    + cbn [app List.length]. auto.
    + destruct (analyse_entries (e0 :: rest) acc) as (G1 & G2 & G3). cbn zeta in *.
      rewrite G1, G2, length_app, <- app_assoc. repeat split; [lia|auto].
    + cbn [app List.length]. auto.
Qed.

Lemma dict_set_length {K V} (eqb : K -> K -> bool) (d : Dict.t K V) k v :
  (List.length (Dict.set eqb d k v) <= S (List.length d))%nat.
Proof.
  induction d as [|[k' v'] d IH]; cbn [Dict.set List.length]; [lia|].
  destruct (eqb k' k); cbn [List.length]; lia.
Qed.

Lemma batch_step_length max_retries delay total net acc it :
  (List.length (snd (batch_step max_retries delay total net acc it))
   <= S (List.length (snd acc)))%nat.
Proof.
  unfold batch_step. destruct acc as [trace results], it as [i id]. cbn [snd].
  destruct (get_player_rankings _ _) as [slept [rankings|e]]; cbn [snd].
  - destruct (i <? total).
    + destruct (sleep _ _); cbn [snd].
      * apply dict_set_length.
      * pose proof (dict_set_length String.eqb results id rankings).
        pose proof (dict_set_length String.eqb
                      (Dict.set String.eqb results id rankings) id None).
        (* the second write replaces the first *)
        assert (E : List.length (Dict.set String.eqb
                                   (Dict.set String.eqb results id rankings) id None)
                    = List.length (Dict.set String.eqb results id rankings)).
        { generalize rankings. clear. intros rankings.
          induction results as [|[k' v'] d IH]; cbn [Dict.set List.length].
          - now rewrite String.eqb_refl.
          - destruct (String.eqb k' id) eqn:E; cbn [Dict.set List.length]; rewrite E;
              cbn [List.length]; [reflexivity|now rewrite IH]. }
        lia.
    + apply dict_set_length.
  - apply dict_set_length.
Qed.

Lemma batch_length max_retries delay total net its : forall acc,
  (List.length (snd (fold_left (batch_step max_retries delay total net) its acc))
   <= List.length (snd acc) + List.length its)%nat.
Proof.
  induction its as [|it its IH]; intros acc; cbn [fold_left List.length]; [lia|].
  specialize (IH (batch_step max_retries delay total net acc it)).
  pose proof (batch_step_length max_retries delay total net acc it). lia.
Qed.

Lemma enumerate_length {A} (l : list A) : forall i,
  List.length (enumerate i l) = List.length l.
Proof. induction l as [|x l IH]; intros i; cbn; [reflexivity|now rewrite IH]. Qed.

(** X29: in the summary of [get_all_rankings] the counts by event add up to
    [total_ranking_entries], which is the number of ranking entries in the
    data returned; every count is positive, and [players_with_rankings]
    is at most [total_players]. *)
Theorem get_all_rankings_counts (max_retries delay : Z) (net : network)
    (ittf_ids : list string) :
  let '(stats, data) := get_all_rankings max_retries delay net ittf_ids in
  dict_sum (fun n => n) (event_types stats) = total_ranking_entries stats /\
  total_ranking_entries stats = Z.of_nat (List.length (entries_of data)) /\
  Forall (fun kv => 0 < snd kv) (event_types stats) /\
  0 <= players_with_rankings stats <= total_players stats.
Proof.
  unfold get_all_rankings.
  set (data := snd (batch_fetch_rankings max_retries delay net ittf_ids)).
  destruct (analyse_fold data ([], [])) as (H1 & H2 & H3). cbn zeta in *.
  destruct (fold_left analyse data ([], [])) as [types entries].
  cbn [fst snd app] in *.
  cbn [event_types total_ranking_entries players_with_rankings total_players].
  subst entries. split; [exact H1|]. split; [reflexivity|].
  split; [apply H3; constructor|].
  split; [lia|].
  pose proof (filter_length_le
                (fun kv : string * option (list row) =>
                   match snd kv with Some _ => true | None => false end) data).
  assert (List.length data <= List.length ittf_ids)%nat; [|lia].
  unfold data, batch_fetch_rankings.
  pose proof (batch_length max_retries delay (Z.of_nat (List.length ittf_ids)) net
                (enumerate 1 ittf_ids) ([], [])) as B.
  now rewrite enumerate_length in B.
Qed.







End Batch.

Section BatchExample.
Import Py WttIttfScraper.


(** With a delay that does not fit in 64 bits of nanoseconds the pause
    after the first id raises, the handler runs, and the rankings just
    recorded for that id are replaced by [None]. *)
Lemma batch_fetch_rankings_overflow :
  batch_fetch_rankings (os := a_platform) 3 10000000000 rankings_network
    ["121404"; "999999"]
  = ([], [("121404", None); ("999999", None)]).
Proof. vm_compute. reflexivity. Qed.

End BatchExample.
